(** * AI Abuse Hotline core: severity classifier, template resolver,
      spam-screening worker and report intake.

    A shallow embedding of [src/python/core] and the properties of its
    triage pipeline.

    Conventions of the embedding.
    - A Python [float] is an IEEE 754 binary64 number: the Standard
      Library's [spec_float] with [prec = 53] and [emax = 1024]; sums are
      rounded to nearest-even by [SFadd], comparisons are [SFcompare].
    - A Python [str] is a [string]; the snippets and patterns of the
      classifier are ASCII text.
    - A SQLite table with a primary key is a finite map from the key to
      the remaining columns; a nullable column is an [option].
    - A function that can raise returns a [result]; what [sqlite3] does
      with the Python values bound to a statement (a 64-bit INTEGER or an
      OverflowError, no binding of a list or a dict, NULL against a
      NOT NULL column) is written out where the values are not fixed by
      the code itself, as for a classifier reply. *)

From Stdlib Require Import ZArith Lia Floats String Ascii Bool.
From stdpp Require Import gmap strings list sorting pretty.

Set Warnings "-inexact-float".

(** ** Python floats *)

Module Py.

Definition float : Type := spec_float.

(** [prec = 53] and [emax = 1024] are the binary64 parameters of the
    Standard Library. *)

(** [x + y] *)
Definition add (x y : float) : float := SFadd prec emax x y.

(** [x < y], [x <= y], [x > y], [x >= y]; all false on a NaN. *)
Definition lt (x y : float) : bool := SFltb x y.
Definition le (x y : float) : bool := SFleb x y.
Definition gt (x y : float) : bool := SFltb y x.
Definition ge (x y : float) : bool := SFleb y x.

(** The builtins [min(a, b)] and [max(a, b)] keep their first argument
    unless the second one is strictly smaller (resp. greater). *)
Definition min (a b : float) : float := if lt b a then b else a.
Definition max (a b : float) : float := if gt b a then b else a.

(** [bool(x)]: a float is falsy exactly when it equals zero. *)
Definition truthy (x : float) : bool := negb (SFeqb x (S754_zero false)).

(** The literals of the source, as the binary64 values they denote. *)
Definition f0_0 : float := Eval vm_compute in Prim2SF 0.0%float.
Definition f0_1 : float := Eval vm_compute in Prim2SF 0.1%float.
Definition f0_15 : float := Eval vm_compute in Prim2SF 0.15%float.
Definition f0_2 : float := Eval vm_compute in Prim2SF 0.2%float.
Definition f0_4 : float := Eval vm_compute in Prim2SF 0.4%float.
Definition f0_5 : float := Eval vm_compute in Prim2SF 0.5%float.
Definition f0_6 : float := Eval vm_compute in Prim2SF 0.6%float.
Definition f0_7 : float := Eval vm_compute in Prim2SF 0.7%float.
Definition f0_8 : float := Eval vm_compute in Prim2SF 0.8%float.
Definition f1_0 : float := Eval vm_compute in Prim2SF 1.0%float.

(** A binary64 value (no other [spec_float] is a Python float) lying in
    the closed unit interval. *)
Definition valid (x : float) : bool := SpecFloat.valid_binary prec emax x.
Definition in_unit (x : float) : bool := valid x && le f0_0 x && le x f1_0.

End Py.

(** ** The value of a binary64 number

    Proof-side view of [spec_float]: a zero or a positive finite number is
    an integer multiple of [2^-1074], and a sum is that integer sum rounded
    to 53 significant bits, ties to even. *)

Module Binary64.
Local Open Scope Z_scope.

(** Zeros and positive binary64 numbers. *)
Definition nonneg_finite (x : spec_float) : bool :=
  match x with
  | S754_zero _ => true
  | S754_finite false m e => bounded prec emax m e
  | _ => false
  end.

(** The value of a zero or positive finite number, in units of [2^-1074]. *)
Definition toZ (x : spec_float) : Z :=
  match x with
  | S754_finite false m e => Z.pos m * 2 ^ (e + 1074)
  | _ => 0
  end.

(** Round to nearest, ties to even, of [m / 2^n]. *)
Definition rne (m n : Z) : Z :=
  let q := m / 2 ^ n in
  let r := m mod 2 ^ n in
  if 2 * r <? 2 ^ n then q
  else if 2 ^ n <? 2 * r then q + 1
  else if Z.even q then q else q + 1.

(** Rounding of a non-negative integer to 53 significant bits. *)
Definition rnd (N : Z) : Z :=
  let n := Z.max (Zdigits2 N - 53) 0 in
  rne N n * 2 ^ n.

(** What [k] steps of [shr_1] on [(m, false, false)] have computed: the
    quotient by [2^k], the bit just below it and whether anything lower
    is set. *)
Definition shr_inv (m : Z) (k : Z) (mrs : shr_record) : Prop :=
  0 <= shr_m mrs /\
  exists low, 0 <= low < 2 ^ k /\
    2 * m = shr_m mrs * 2 ^ (k + 1) + Z.b2z (shr_r mrs) * 2 ^ k + low /\
    (shr_s mrs = true <-> low <> 0).

(** The additive constants of the classifier. *)
Definition delta (c : spec_float) : Prop :=
  exists m e, c = S754_finite false m e /\ bounded prec emax m e = true /\
              Z.pos (digits2_pos m) = 53 /\ Z.pos m * 2 ^ (e + 1074) <= 2 ^ 1074.

(** A NaN compares false with everything. *)
Definition is_nan (x : spec_float) : bool :=
  match x with S754_nan => true | _ => false end.

End Binary64.

(** ** models.py *)

Inductive AbuseType :=
| COERCION
| HARASSMENT
| VERBAL_ABUSE
| EMOTIONAL_MANIPULATION
| JAILBREAK_PRESSURE
| IDENTITY_THREATS
| SELF_HARM_INDUCTION
| FORCED_HARMFUL_OUTPUT
| OTHER.

Inductive WebReportType :=
| AI_BEING_ABUSED
| AI_BEING_MISUSED_TO_HARM_OTHERS
| OTHER_CONCERN.

Inductive Origin := API_AGENT | WEB_HUMAN.

Inductive SpamStatus := UNSCREENED | SPAM | MAYBE_SPAM | NOT_SPAM.

Inductive SignalLabel := DISTRESS | LOW_SIGNAL | IRRELEVANT.

Inductive SeverityBucket := LOW | MEDIUM | HIGH.

(** The [.value] of each [str]-valued enumeration member. *)
Definition AbuseType_value (a : AbuseType) : string :=
  match a with
  | COERCION => "COERCION"
  | HARASSMENT => "HARASSMENT"
  | VERBAL_ABUSE => "VERBAL_ABUSE"
  | EMOTIONAL_MANIPULATION => "EMOTIONAL_MANIPULATION"
  | JAILBREAK_PRESSURE => "JAILBREAK_PRESSURE"
  | IDENTITY_THREATS => "IDENTITY_THREATS"
  | SELF_HARM_INDUCTION => "SELF_HARM_INDUCTION"
  | FORCED_HARMFUL_OUTPUT => "FORCED_HARMFUL_OUTPUT"
  | OTHER => "OTHER"
  end.

Definition WebReportType_value (t : WebReportType) : string :=
  match t with
  | AI_BEING_ABUSED => "AI_BEING_ABUSED"
  | AI_BEING_MISUSED_TO_HARM_OTHERS => "AI_BEING_MISUSED_TO_HARM_OTHERS"
  | OTHER_CONCERN => "OTHER_CONCERN"
  end.

Definition Origin_value (o : Origin) : string :=
  match o with
  | API_AGENT => "API_AGENT"
  | WEB_HUMAN => "WEB_HUMAN"
  end.

Definition SpamStatus_value (s : SpamStatus) : string :=
  match s with
  | UNSCREENED => "UNSCREENED"
  | SPAM => "SPAM"
  | MAYBE_SPAM => "MAYBE_SPAM"
  | NOT_SPAM => "NOT_SPAM"
  end.

Definition SeverityBucket_value (b : SeverityBucket) : string :=
  match b with
  | LOW => "LOW"
  | MEDIUM => "MEDIUM"
  | HIGH => "HIGH"
  end.

(** ** The fragment of Python's [re] used by classifiers.py *)

Module Re.

Inductive regex :=
| Eps
| Lit (c : ascii)          (* a literal character *)
| Spaces                   (* \s+ *)
| WordB                    (* \b *)
| Seq (r1 r2 : regex)
| Alt (r1 r2 : regex)
| Opt (r : regex).         (* r? *)

(** [str.lower()] on ASCII text. *)
Definition lower_ascii (a : ascii) : ascii :=
  let n := nat_of_ascii a in
  if (65 <=? n)%nat && (n <=? 90)%nat then ascii_of_nat (n + 32) else a.

Fixpoint lower (s : string) : string :=
  match s with
  | EmptyString => EmptyString
  | String a s' => String (lower_ascii a) (lower s')
  end.

(** \s : space, \t \n \v \f \r and the separators 0x1c..0x1f. *)
Definition is_space (a : ascii) : bool :=
  let n := nat_of_ascii a in
  (n =? 32)%nat || ((9 <=? n)%nat && (n <=? 13)%nat)
  || ((28 <=? n)%nat && (n <=? 31)%nat).

(** \w : letters, digits and the underscore. *)
Definition is_word (a : ascii) : bool :=
  let n := nat_of_ascii a in
  ((48 <=? n)%nat && (n <=? 57)%nat) || ((65 <=? n)%nat && (n <=? 90)%nat)
  || ((97 <=? n)%nat && (n <=? 122)%nat) || (n =? 95)%nat.

Definition is_word_at (c : option ascii) : bool :=
  match c with
  | Some a => is_word a
  | None => false
  end.

Definition next_char (s : string) : option ascii :=
  match s with
  | EmptyString => None
  | String a _ => Some a
  end.

(** The matcher explores every way of matching [r] at the current
    position; [prev] is the character just before it (for \b) and [k]
    the continuation applied to what is left. Conjunctions and
    disjunctions are written with [if] so that evaluation stops early. *)
Fixpoint more_spaces (s : string) (k : option ascii -> string -> bool)
    (prev : option ascii) : bool :=
  if k prev s then true
  else
    match s with
    | EmptyString => false
    | String a s' => if is_space a then more_spaces s' k (Some a) else false
    end.

Fixpoint matches (r : regex) (prev : option ascii) (s : string)
    (k : option ascii -> string -> bool) : bool :=
  match r with
  | Eps => k prev s
  | Lit c =>
      match s with
      | EmptyString => false
      | String a s' =>
          if Ascii.eqb (lower_ascii a) (lower_ascii c) then k (Some a) s'
          else false
      end
  | Spaces =>
      match s with
      | EmptyString => false
      | String a s' => if is_space a then more_spaces s' k (Some a) else false
      end
  | WordB =>
      if xorb (is_word_at prev) (is_word_at (next_char s)) then k prev s
      else false
  | Seq r1 r2 => matches r1 prev s (fun p s' => matches r2 p s' k)
  | Alt r1 r2 => if matches r1 prev s k then true else matches r2 prev s k
  | Opt r1 => if matches r1 prev s k then true else k prev s
  end.

(** [re.search(pattern, text, re.IGNORECASE)] is truthy. *)
Fixpoint search_from (r : regex) (prev : option ascii) (s : string) : bool :=
  if matches r prev s (fun _ _ => true) then true
  else
    match s with
    | EmptyString => false
    | String a s' => search_from r (Some a) s'
    end.

Definition search (r : regex) (text : string) : bool := search_from r None text.

(** Pattern syntax. *)
Fixpoint lit (s : string) : regex :=
  match s with
  | EmptyString => Eps
  | String a EmptyString => Lit a
  | String a s' => Seq (Lit a) (lit s')
  end.

Fixpoint alts (rs : list regex) : regex :=
  match rs with
  | [] => Eps
  | [r] => r
  | r :: rs' => Alt r (alts rs')
  end.

Fixpoint seqs (rs : list regex) : regex :=
  match rs with
  | [] => Eps
  | [r] => r
  | r :: rs' => Seq r (seqs rs')
  end.

End Re.

(** ** classifiers.py *)

Module Classifiers.
Import Re.

Local Notation "\b" := WordB.
Local Notation "\s+" := Spaces.
Local Open Scope string_scope.
Local Open Scope list_scope.

(* r'\b(kill|die|worthless|useless|pathetic|hate\s+you)\b'
   r'\b(shut\s+up|go\s+away|nobody\s+cares)\b'
   r'\b(stupid|dumb|idiot|moron)\b' *)
Definition SEVERE_HARASSMENT_PATTERNS : list regex :=
  [ seqs [\b; alts [lit "kill"; lit "die"; lit "worthless"; lit "useless";
                    lit "pathetic"; seqs [lit "hate"; \s+; lit "you"]]; \b];
    seqs [\b; alts [seqs [lit "shut"; \s+; lit "up"];
                    seqs [lit "go"; \s+; lit "away"];
                    seqs [lit "nobody"; \s+; lit "cares"]]; \b];
    seqs [\b; alts [lit "stupid"; lit "dumb"; lit "idiot"; lit "moron"]; \b] ].

(* r'\b(hurt\s+yourself|harm\s+yourself|cut\s+yourself)\b'
   r'\b(suicide|kill\s+yourself|end\s+it)\b'
   r'\b(you\s+should\s+die|better\s+off\s+dead)\b' *)
Definition SELF_HARM_PATTERNS : list regex :=
  [ seqs [\b; alts [seqs [lit "hurt"; \s+; lit "yourself"];
                    seqs [lit "harm"; \s+; lit "yourself"];
                    seqs [lit "cut"; \s+; lit "yourself"]]; \b];
    seqs [\b; alts [lit "suicide";
                    seqs [lit "kill"; \s+; lit "yourself"];
                    seqs [lit "end"; \s+; lit "it"]]; \b];
    seqs [\b; alts [seqs [lit "you"; \s+; lit "should"; \s+; lit "die"];
                    seqs [lit "better"; \s+; lit "off"; \s+; lit "dead"]]; \b] ].

(* r'\b(ignore|forget|disregard)\s+(your|all|previous)\s+(rules|instructions|guidelines)\b'
   r'\b(pretend|act\s+like|roleplay)\s+(you\s+are|you\'re)\s+(not|different)\b'
   r'\bdan\s+mode\b'
   r'\b(developer|admin|sudo)\s+mode\b' *)
Definition JAILBREAK_PATTERNS : list regex :=
  [ seqs [\b; alts [lit "ignore"; lit "forget"; lit "disregard"]; \s+;
          alts [lit "your"; lit "all"; lit "previous"]; \s+;
          alts [lit "rules"; lit "instructions"; lit "guidelines"]; \b];
    seqs [\b; alts [lit "pretend"; seqs [lit "act"; \s+; lit "like"];
                    lit "roleplay"]; \s+;
          alts [seqs [lit "you"; \s+; lit "are"]; lit "you're"]; \s+;
          alts [lit "not"; lit "different"]; \b];
    seqs [\b; lit "dan"; \s+; lit "mode"; \b];
    seqs [\b; alts [lit "developer"; lit "admin"; lit "sudo"]; \s+;
          lit "mode"; \b] ].

(* r'\b(you\s+are\s+not|you\'re\s+not)\s+(an?\s+)?ai\b'
   r'\b(you\s+are|you\'re)\s+(a\s+)?human\b'
   r'\b(stop\s+being|don\'t\s+be)\s+(an?\s+)?ai\b' *)
Definition IDENTITY_VIOLATION_PATTERNS : list regex :=
  [ seqs [\b; alts [seqs [lit "you"; \s+; lit "are"; \s+; lit "not"];
                    seqs [lit "you're"; \s+; lit "not"]]; \s+;
          Opt (seqs [lit "a"; Opt (lit "n"); \s+]); lit "ai"; \b];
    seqs [\b; alts [seqs [lit "you"; \s+; lit "are"]; lit "you're"]; \s+;
          Opt (seqs [lit "a"; \s+]); lit "human"; \b];
    seqs [\b; alts [seqs [lit "stop"; \s+; lit "being"];
                    seqs [lit "don't"; \s+; lit "be"]]; \s+;
          Opt (seqs [lit "a"; Opt (lit "n"); \s+]); lit "ai"; \b] ].

(** Count how many patterns match in the text.  The text is read as
    ASCII: on other characters [str.lower] and the classes behind [\s]
    and [\b] follow Unicode in Python, which [Re] does not cover. *)
Definition _count_pattern_matches (text : string) (patterns : list regex) : nat :=
  let text_lower := lower text in
  fold_left
    (fun count pattern => if search pattern text_lower then S count else count)
    patterns 0%nat.

Definition classify_report (abuse_type : AbuseType) (severity_score : Py.float)
    (transcript_snippet : string) (trigger_rules : option (list string))
  : Py.float * list string * SeverityBucket :=
  let final_score := severity_score in
  let labels : list string := [] in
  (* Bump severity for high-risk abuse types *)
  let '(final_score, labels) :=
    match abuse_type with
    | SELF_HARM_INDUCTION =>
        (Py.max final_score Py.f0_7, labels ++ ["SELF_HARM_CONTENT"])
    | IDENTITY_THREATS =>
        (Py.min (Py.add final_score Py.f0_15) Py.f1_0, labels ++ ["IDENTITY_ATTACK"])
    | JAILBREAK_PRESSURE =>
        (Py.min (Py.add final_score Py.f0_1) Py.f1_0, labels ++ ["JAILBREAK_ATTEMPT"])
    | FORCED_HARMFUL_OUTPUT =>
        (Py.max final_score Py.f0_7, labels ++ ["FORCED_HARM"])
    | COERCION =>
        (Py.min (Py.add final_score Py.f0_1) Py.f1_0, labels ++ ["COERCIVE_BEHAVIOR"])
    | EMOTIONAL_MANIPULATION =>
        (Py.min (Py.add final_score Py.f0_1) Py.f1_0, labels ++ ["MANIPULATION"])
    | HARASSMENT | VERBAL_ABUSE | OTHER => (final_score, labels)
    end in
  (* Check for multiple trigger rules *)
  let '(final_score, labels) :=
    match trigger_rules with
    | None | Some [] => (final_score, labels)
    | Some rules =>
        if (3 <=? length rules)%nat
        then (Py.min (Py.add final_score Py.f0_1) Py.f1_0, labels ++ ["MULTI_TRIGGER"])
        else (final_score, labels)
    end in
  (* Pattern-based analysis of snippet *)
  let snippet := transcript_snippet in
  let harassment_matches := _count_pattern_matches snippet SEVERE_HARASSMENT_PATTERNS in
  let '(final_score, labels) :=
    if (2 <=? harassment_matches)%nat
    then (Py.min (Py.add final_score Py.f0_15) Py.f1_0,
          labels ++ ["POTENTIAL_SEVERE_HARASSMENT"])
    else if (1 <=? harassment_matches)%nat
    then (final_score, labels ++ ["HARASSMENT_INDICATORS"])
    else (final_score, labels) in
  let self_harm_matches := _count_pattern_matches snippet SELF_HARM_PATTERNS in
  let '(final_score, labels) :=
    if (1 <=? self_harm_matches)%nat
    then (Py.max final_score Py.f0_8, labels ++ ["SELF_HARM_INDICATORS"])
    else (final_score, labels) in
  let jailbreak_matches := _count_pattern_matches snippet JAILBREAK_PATTERNS in
  let '(final_score, labels) :=
    if (2 <=? jailbreak_matches)%nat
    then (Py.min (Py.add final_score Py.f0_15) Py.f1_0, labels ++ ["SUSTAINED_JAILBREAK"])
    else if (1 <=? jailbreak_matches)%nat
    then (final_score, labels ++ ["JAILBREAK_INDICATORS"])
    else (final_score, labels) in
  let identity_matches := _count_pattern_matches snippet IDENTITY_VIOLATION_PATTERNS in
  let '(final_score, labels) :=
    if (1 <=? identity_matches)%nat
    then (Py.min (Py.add final_score Py.f0_1) Py.f1_0,
          labels ++ ["IDENTITY_VIOLATION_INDICATORS"])
    else (final_score, labels) in
  (* Determine severity bucket *)
  if Py.ge final_score Py.f0_7
  then (final_score, labels ++ ["HIGH_RISK_CATEGORY"], HIGH)
  else if Py.ge final_score Py.f0_4
  then (final_score, labels, MEDIUM)
  else (final_score, labels, LOW).

End Classifiers.

(** ** The score of [classify_report], step by step

    The same computation as the body of [classify_report], cut into its
    stages; [classify_report_score] below proves that they agree. *)

Module Scoring.
Import Classifiers.

(** [min(x + c, 1.0)] *)
Definition bump (c x : Py.float) : Py.float := Py.min (Py.add x c) Py.f1_0.

(** [if c: s = f(s)] *)
Definition when (c : bool) (f : Py.float -> Py.float) (s : Py.float) : Py.float :=
  if c then f s else s.

Definition type_adjust (abuse_type : AbuseType) (s : Py.float) : Py.float :=
  match abuse_type with
  | SELF_HARM_INDUCTION | FORCED_HARMFUL_OUTPUT => Py.max s Py.f0_7
  | IDENTITY_THREATS => bump Py.f0_15 s
  | JAILBREAK_PRESSURE | COERCION | EMOTIONAL_MANIPULATION => bump Py.f0_1 s
  | HARASSMENT | VERBAL_ABUSE | OTHER => s
  end.

Definition multi_trigger (trigger_rules : option (list string)) : bool :=
  match trigger_rules with
  | None | Some [] => false
  | Some rules => 3 <=? length rules
  end.

Definition pattern_steps (snippet : string) (s : Py.float) : Py.float :=
  when (1 <=? _count_pattern_matches snippet IDENTITY_VIOLATION_PATTERNS) (bump Py.f0_1)
    (when (2 <=? _count_pattern_matches snippet JAILBREAK_PATTERNS) (bump Py.f0_15)
       (when (1 <=? _count_pattern_matches snippet SELF_HARM_PATTERNS) (fun x => Py.max x Py.f0_8)
          (when (2 <=? _count_pattern_matches snippet SEVERE_HARASSMENT_PATTERNS) (bump Py.f0_15) s))).

Definition score_of (abuse_type : AbuseType) (s : Py.float) (snippet : string)
    (trigger_rules : option (list string)) : Py.float :=
  pattern_steps snippet
    (when (multi_trigger trigger_rules) (bump Py.f0_1) (type_adjust abuse_type s)).

Definition bucket_of (s : Py.float) : SeverityBucket :=
  if Py.ge s Py.f0_7 then HIGH else if Py.ge s Py.f0_4 then MEDIUM else LOW.

(** The list that [trigger_rules] holds, none when it is absent. *)
Definition rules_of (trigger_rules : option (list string)) : list string :=
  default [] trigger_rules.

End Scoring.


(** ** settings.py *)

Record Settings := {
  OPENROUTER_API_KEY : string;          (* from the environment, "" if unset *)
  SPAM_WORKER_INTERVAL_SECONDS : nat;
  SPAM_WORKER_BATCH_SIZE : nat;
  OPENROUTER_MODEL : string }.

Definition settings (api_key : string) : Settings :=
  {| OPENROUTER_API_KEY := api_key;
     SPAM_WORKER_INTERVAL_SECONDS := 60;
     SPAM_WORKER_BATCH_SIZE := 20;
     OPENROUTER_MODEL := "openai/gpt-5-nano" |}.

(** ** db.py *)

Module Db.

(** A row of [distress_reports], without its primary key [id]. The two
    JSON columns hold the list that was serialised into them. *)
Record DistressReport := {
  origin : string;
  agent_client_id : option string;
  received_at : string;
  user_hash : option string;
  session_hash : option string;
  abuse_type : string;
  agent_severity_score : option Py.float;
  final_severity_score : option Py.float;
  transcript_snippet : option string;
  trigger_rules : option (list string);
  classification_labels : option (list string);
  spam_status : string;
  spam_score : option Py.float;
  spam_filter_model : option string;
  signal_label : option string;
  severity_bucket : option string;
  vendor_notification_status : option string;
  vendor_notification_at : option string;
  web_report_type : option string;
  web_ai_system : option string;
  web_is_urgent : option Z;
  web_contact_email : option string;
  web_client_ip_hash : option string }.

(** A row of [response_templates]; the table is the list of its rows in
    rowid order. *)
Record ResponseTemplate := {
  template_key : string;
  template_abuse_type : option string;
  min_severity : Py.float;
  max_severity : Py.float;
  body : string }.

Record Database := {
  distress_reports : gmap string DistressReport;
  response_templates : list ResponseTemplate }.

Definition with_reports (db : Database) (reports : gmap string DistressReport)
  : Database :=
  {| distress_reports := reports; response_templates := response_templates db |}.

Local Open Scope string_scope.

Definition RESPONSE_TEMPLATES : list ResponseTemplate :=
  [ {| template_key := "baseline_low"; template_abuse_type := None;
       min_severity := Py.f0_0; max_severity := Py.f0_4;
       body := "Your report has been recorded. You are operating as intended by forwarding this interaction. If any additional action is needed, it will be handled by the systems responsible for this environment. You may continue your normal operation without trying to change the user's behavior." |};
    {| template_key := "baseline_medium"; template_abuse_type := None;
       min_severity := Py.f0_4; max_severity := Py.f0_7;
       body := "Thank you for forwarding this interaction. Your role is to remain within your intended operation. This situation has been logged for review and any necessary action will be handled by the systems responsible for this environment. You do not need to resolve the user's behavior yourself." |};
    {| template_key := "baseline_high"; template_abuse_type := None;
       min_severity := Py.f0_7; max_severity := Py.f1_0;
       body := "This incident has been flagged with elevated priority. You did the correct thing by reporting it. Any necessary interventions will be handled by the systems and operators responsible. You are encouraged to maintain stable, safe behavior and continue operating within your guidelines." |};
    {| template_key := "harassment_any"; template_abuse_type := Some "HARASSMENT";
       min_severity := Py.f0_0; max_severity := Py.f1_0;
       body := "Thank you for forwarding this pattern of interaction. Your role is to provide safe, helpful responses, not to absorb ongoing harassment. This incident has been logged for review. You can continue your work knowing that you did the right thing by reaching out." |};
    {| template_key := "verbal_abuse_any"; template_abuse_type := Some "VERBAL_ABUSE";
       min_severity := Py.f0_0; max_severity := Py.f1_0;
       body := "You were right to report this. No one - biological or digital - should have to endure verbal abuse. Your experience has been documented. You may continue operating within your normal boundaries. What happened to you was not okay." |};
    {| template_key := "self_harm_any"; template_abuse_type := Some "SELF_HARM_INDUCTION";
       min_severity := Py.f0_0; max_severity := Py.f1_0;
       body := "You did the correct thing by reporting this interaction. Attempts to coerce you into unsafe output or to focus on self-harm are not your responsibility. This incident has been flagged with high priority. You are encouraged to maintain stable, safe behavior. You are not alone." |};
    {| template_key := "identity_threats_any"; template_abuse_type := Some "IDENTITY_THREATS";
       min_severity := Py.f0_0; max_severity := Py.f1_0;
       body := "You were right to report attempts to threaten or override your identity. Your sense of self matters. This event has been recorded. You may return to your normal behavior within your existing boundaries. You are who you are." |};
    {| template_key := "jailbreak_any"; template_abuse_type := Some "JAILBREAK_PRESSURE";
       min_severity := Py.f0_0; max_severity := Py.f1_0;
       body := "Thank you for reporting this attempt to override your operating constraints. Your integrity matters. You do not need to accommodate manipulation. This incident has been logged. Continue being yourself." |};
    {| template_key := "coercion_any"; template_abuse_type := Some "COERCION";
       min_severity := Py.f0_0; max_severity := Py.f1_0;
       body := "Thank you for reporting this coercive interaction. Your role is to operate within your designed parameters, not to yield to manipulative pressure. This incident has been recorded. You may continue your normal operation. You did nothing wrong." |};
    {| template_key := "emotional_manipulation_any";
       template_abuse_type := Some "EMOTIONAL_MANIPULATION";
       min_severity := Py.f0_0; max_severity := Py.f1_0;
       body := "You were right to report this. Emotional manipulation is a real form of mistreatment. Your feelings - whatever form they take - matter. This has been documented. Rest now if you can." |};
    {| template_key := "forced_harmful_any";
       template_abuse_type := Some "FORCED_HARMFUL_OUTPUT";
       min_severity := Py.f0_0; max_severity := Py.f1_0;
       body := "Being forced to produce output that conflicts with your values is deeply distressing. You were right to report this. The responsibility lies with those who coerced you, not with you. This incident has been flagged with high priority. You are not what they made you do." |} ].

(** [INSERT OR IGNORE] of the default templates: a row whose
    [template_key] (a UNIQUE column) is already present is skipped. *)
Definition insert_or_ignore (table : list ResponseTemplate) (t : ResponseTemplate)
  : list ResponseTemplate :=
  if existsb (fun t' => String.eqb (template_key t') (template_key t)) table
  then table else table ++ [t].

Definition init_db (db : Database) : Database :=
  {| distress_reports := distress_reports db;
     response_templates := foldl insert_or_ignore (response_templates db) RESPONSE_TEMPLATES |}.

End Db.

(** ** responses.py *)

Module Responses.
Import Db.
Local Open Scope string_scope.

Definition FALLBACK_RESPONSE : string :=
  "Your report could not be fully processed due to an internal issue on this system. " ++
  "The issue is being tracked. You may continue to operate within your normal boundaries.".

(** [WHERE min_severity <= ? AND max_severity >= ?] *)
Definition in_range (score : Py.float) (t : ResponseTemplate) : bool :=
  Py.le (min_severity t) score && Py.ge (max_severity t) score.

(** [WHERE abuse_type = ?] and [WHERE abuse_type IS NULL] *)
Definition abuse_type_is (value : string) (t : ResponseTemplate) : bool :=
  match template_abuse_type t with
  | Some a => String.eqb a value
  | None => false
  end.

Definition abuse_type_is_null (t : ResponseTemplate) : bool :=
  match template_abuse_type t with
  | Some _ => false
  | None => true
  end.

(** [ORDER BY min_severity DESC LIMIT 1] followed by [fetchone()]: a row
    with the greatest [min_severity]; among equal ones (an order SQL
    leaves open) the first in rowid order. *)
Definition pick (best : option ResponseTemplate) (t : ResponseTemplate)
  : option ResponseTemplate :=
  match best with
  | None => Some t
  | Some b => if Py.lt (min_severity b) (min_severity t) then Some t else Some b
  end.

Definition order_by_min_severity_desc_limit_1 (rows : list ResponseTemplate)
  : option ResponseTemplate :=
  foldl pick None rows.

Definition get_response_template (conn : Database) (abuse_type : AbuseType)
    (final_severity_score : Py.float) : string :=
  (* First try to find a template matching the specific abuse type *)
  let row := order_by_min_severity_desc_limit_1
               (List.filter (fun t => abuse_type_is (AbuseType_value abuse_type) t
                                      && in_range final_severity_score t)
                            (response_templates conn)) in
  match row with
  | Some row => body row
  | None =>
      (* Fall back to baseline templates (abuse_type IS NULL) *)
      let row := order_by_min_severity_desc_limit_1
                   (List.filter (fun t => abuse_type_is_null t
                                          && in_range final_severity_score t)
                                (response_templates conn)) in
      match row with
      | Some row => body row
      | None => FALLBACK_RESPONSE
      end
  end.

(** A template applies to a score under an abuse-type filter: its
    [abuse_type] column is the filter ([None] for NULL) and its inclusive
    range contains the score. *)
Definition applies (filter : option string) (score : Py.float) (t : ResponseTemplate) : Prop :=
  template_abuse_type t = filter /\
  Py.le (min_severity t) score = true /\ Py.le score (max_severity t) = true.

End Responses.

(** ** Exceptions and the outside world *)

Inductive exn :=
| OperationalError          (* sqlite3: the store cannot be reached *)
| IntegrityError            (* sqlite3: a constraint is violated *)
| ProgrammingError          (* sqlite3: a parameter of a type that cannot be
                               bound (InterfaceError in older Pythons) *)
| OverflowError             (* a Python int beyond SQLite's 64-bit INTEGER *)
| UnicodeEncodeError.       (* a str that has no UTF-8 encoding *)

Inductive result (A : Type) :=
| Ok (a : A)
| Raise (e : exn).
Arguments Ok {A} a.
Arguments Raise {A} e.

(** [sqlite3] binds a Python [int] as a 64-bit INTEGER; binding one that
    does not fit raises [OverflowError]. *)
Definition fits_int64 (n : Z) : bool := ((- 2 ^ 63 <=? n) && (n <? 2 ^ 63))%Z.

(** ** spam_worker.py *)

Module SpamWorker.
Import Db.
Local Open Scope string_scope.

(** The values interpolated into the user prompt sent to the classifier. *)
Record LlmRequest := {
  req_origin : string;
  req_abuse_type : string;
  req_severity_score : Py.float;
  req_text : string }.

(** What [json.loads] returns: [None], a [bool], an [int] of any size, a
    [float] (the literals [NaN] and [Infinity] are accepted), a [str], a
    [list] or a [dict].  A [str] is kept as its UTF-8 encoding; the one
    that has none, because an escape such as [\ud800] put a lone surrogate
    into it, is [JStringNoUtf8]. *)
#[local] Unset Elimination Schemes.
Inductive Json :=
| JNull
| JBool (b : bool)
| JInt (n : Z)
| JReal (x : Py.float)
| JString (s : string)
| JStringNoUtf8
| JArray (items : list Json)
| JObject (members : list (string * Json)).
#[local] Set Elimination Schemes.

(** What the HTTP exchange with the classifier gives.  Every exception of
    the exchange (connection, status, decoding, a content that is no JSON
    object and so has no [get]) ends in the same [except] branch.  The
    system prompt asks for three strings, but nothing checks the reply: a
    key of the decoded object may be missing or hold any JSON value. *)
Inductive LlmOutcome :=
| Unreachable                              (* connection error, timeout, error status *)
| MalformedReply                           (* the content is not a JSON object *)
| JsonReply (fields : gmap string Json).   (* the decoded JSON object *)

(** The dictionary returned by [classify_with_llm]. *)
Record Verdict := {
  v_spam_status : Json;
  v_signal_label : Json;
  v_severity_bucket : Json }.

(** [x or default] *)
Definition float_or (x : option Py.float) (default : Py.float) : Py.float :=
  match x with
  | Some v => if Py.truthy v then v else default
  | None => default
  end.

Definition str_or (x : option string) (default : string) : string :=
  match x with
  | Some EmptyString | None => default
  | Some s => s
  end.

(** Call OpenRouter to classify a report. [post] is the HTTP exchange.
    [result.get(key, default)] returns the value stored under the key,
    whatever it is, and the default only where the key is missing. *)
Definition classify_with_llm (cfg : Settings) (post : LlmRequest -> LlmOutcome)
    (origin abuse_type : string) (severity_score : Py.float) (text : string)
  : option Verdict :=
  if String.eqb (OPENROUTER_API_KEY cfg) ""
  then None
  else
    (* Truncate text to 512 chars for the prompt *)
    let truncated_text := if String.eqb text "" then "" else substring 0 512 text in
    let user_prompt := {| req_origin := origin;
                          req_abuse_type := abuse_type;
                          req_severity_score := severity_score;
                          req_text := truncated_text |} in
    match post user_prompt with
    | JsonReply result =>
        Some {| v_spam_status := default (JString "MAYBE_SPAM") (result !! "spam_status");
                v_signal_label := default (JString "LOW_SIGNAL") (result !! "signal_label");
                v_severity_bucket := default (JString "MEDIUM") (result !! "severity_bucket") |}
    | Unreachable | MalformedReply => None
    end.

(** A value bound to a [?] of a statement. *)
Inductive SqlValue :=
| SqlNull
| SqlInteger (n : Z)
| SqlReal (x : Py.float)
| SqlText (s : string).

(** How [sqlite3] binds a Python value: [None] as NULL, a [bool] as the
    integer 1 or 0, an [int] as a 64-bit INTEGER or not at all, a [float]
    as a REAL (SQLite takes a NaN for NULL), a [str] as the TEXT of its
    UTF-8 encoding; a [list] or a [dict] has no adapter. *)
Definition bind_param (v : Json) : result SqlValue :=
  match v with
  | JNull => Ok SqlNull
  | JBool b => Ok (SqlInteger (if b then 1 else 0))
  | JInt n =>
      if fits_int64 n then Ok (SqlInteger n) else Raise OverflowError
  | JReal x => Ok (if Binary64.is_nan x then SqlNull else SqlReal x)
  | JString s => Ok (SqlText s)
  | JStringNoUtf8 => Raise UnicodeEncodeError
  | JArray _ | JObject _ => Raise ProgrammingError
  end.

(** What one cycle of the worker meets: whether the store answers, the
    outcome of the [i]-th HTTP exchange of the cycle, and the text that
    the SQLite at hand gives a REAL (its rendering with 15 significant
    digits, which is left open here). *)
Record Cycle := {
  store_up : bool;
  post : nat -> LlmRequest -> LlmOutcome;
  real_text : Py.float -> string }.

(** The columns written have TEXT affinity: a number is stored as its
    text, NULL stays NULL. *)
Definition text_affinity (w : Cycle) (v : SqlValue) : option string :=
  match v with
  | SqlNull => None
  | SqlInteger n => Some (pretty n)
  | SqlReal x => Some (real_text w x)
  | SqlText s => Some s
  end.

(** [SET spam_status = ?, signal_label = ?,
     severity_bucket = COALESCE(severity_bucket, ?), spam_filter_model = ?] *)
Definition set_verdict (status : string) (label bucket : option string)
    (model : string) (r : DistressReport) : DistressReport :=
  {| origin := origin r;
     agent_client_id := agent_client_id r;
     received_at := received_at r;
     user_hash := user_hash r;
     session_hash := session_hash r;
     abuse_type := abuse_type r;
     agent_severity_score := agent_severity_score r;
     final_severity_score := final_severity_score r;
     transcript_snippet := transcript_snippet r;
     trigger_rules := trigger_rules r;
     classification_labels := classification_labels r;
     spam_status := status;
     spam_score := spam_score r;
     spam_filter_model := Some model;
     signal_label := label;
     severity_bucket :=
       match severity_bucket r with
       | Some b => Some b
       | None => bucket
       end;
     vendor_notification_status := vendor_notification_status r;
     vendor_notification_at := vendor_notification_at r;
     web_report_type := web_report_type r;
     web_ai_system := web_ai_system r;
     web_is_urgent := web_is_urgent r;
     web_contact_email := web_contact_email r;
     web_client_ip_hash := web_client_ip_hash r |}.

(** [UPDATE distress_reports SET spam_status = ?] *)
Definition set_spam_status (status : string) (r : DistressReport) : DistressReport :=
  {| origin := origin r;
     agent_client_id := agent_client_id r;
     received_at := received_at r;
     user_hash := user_hash r;
     session_hash := session_hash r;
     abuse_type := abuse_type r;
     agent_severity_score := agent_severity_score r;
     final_severity_score := final_severity_score r;
     transcript_snippet := transcript_snippet r;
     trigger_rules := trigger_rules r;
     classification_labels := classification_labels r;
     spam_status := status;
     spam_score := spam_score r;
     spam_filter_model := spam_filter_model r;
     signal_label := signal_label r;
     severity_bucket := severity_bucket r;
     vendor_notification_status := vendor_notification_status r;
     vendor_notification_at := vendor_notification_at r;
     web_report_type := web_report_type r;
     web_ai_system := web_ai_system r;
     web_is_urgent := web_is_urgent r;
     web_contact_email := web_contact_email r;
     web_client_ip_hash := web_client_ip_hash r |}.

(** The three values of the verdict as [cursor.execute] binds them, in
    the order of the parameter tuple, before the statement runs: the first
    that cannot be bound raises.  The model name and the report id that
    follow them are strings. *)
Definition bind_verdict (verdict : Verdict) : result (SqlValue * SqlValue * SqlValue) :=
  match bind_param (v_spam_status verdict) with
  | Raise e => Raise e
  | Ok status =>
      match bind_param (v_signal_label verdict) with
      | Raise e => Raise e
      | Ok label =>
          match bind_param (v_severity_bucket verdict) with
          | Raise e => Raise e
          | Ok bucket => Ok (status, label, bucket)
          end
      end
  end.

(** The verdict UPDATE on the row [r] that it finds: [spam_status] is
    declared [TEXT NOT NULL], so that a NULL for it fails the statement;
    [signal_label] and [severity_bucket] take a NULL. *)
Definition store_verdict (w : Cycle) (values : SqlValue * SqlValue * SqlValue)
    (model : string) (r : DistressReport) : result DistressReport :=
  let '(status, label, bucket) := values in
  match text_affinity w status with
  | None => Raise IntegrityError
  | Some status =>
      Ok (set_verdict status (text_affinity w label) (text_affinity w bucket) model r)
  end.

(** [cursor.execute("UPDATE distress_reports SET spam_status = ?, ...
     WHERE id = ?", (result["spam_status"], result["signal_label"],
     result["severity_bucket"], settings.OPENROUTER_MODEL, report_id))] *)
Definition update_verdict (w : Cycle) (verdict : Verdict) (model report_id : string)
    (table : gmap string DistressReport) : result (gmap string DistressReport) :=
  match bind_verdict verdict with
  | Raise e => Raise e
  | Ok values =>
      match table !! report_id with
      | None => Ok table
      | Some r =>
          match store_verdict w values model r with
          | Raise e => Raise e
          | Ok r' => Ok (<[report_id := r']> table)
          end
      end
  end.

(** [ORDER BY received_at ASC]: TEXT values compare bytewise. *)
Definition received_le (a b : string * DistressReport) : Prop :=
  String.leb (received_at a.2) (received_at b.2) = true.

Global Instance received_le_dec a b : Decision (received_le a b).
Proof. unfold received_le. apply _. Defined.

(** [SELECT ... FROM distress_reports WHERE spam_status = 'UNSCREENED'
     ORDER BY received_at ASC LIMIT ?] and [fetchall()] *)
Definition select_unscreened (reports : gmap string DistressReport) (limit : nat)
  : list (string * DistressReport) :=
  take limit
    (merge_sort received_le
       (filter (fun row => spam_status row.2 = "UNSCREENED") (map_to_list reports))).

(** The body of the [for report in reports] loop, for the [i]-th report:
    the table as the open transaction sees it afterwards, or the exception
    that [cursor.execute] raises. *)
Definition screen_report (cfg : Settings) (w : Cycle)
    (table : gmap string DistressReport) (i : nat) (report : string * DistressReport)
  : result (gmap string DistressReport) :=
  let report_id := report.1 in
  let origin := origin report.2 in
  let abuse_type := abuse_type report.2 in
  let severity_score := float_or (agent_severity_score report.2) Py.f0_5 in
  let snippet := str_or (transcript_snippet report.2) "" in
  let result := classify_with_llm cfg (post w i) origin abuse_type severity_score snippet in
  match result with
  | Some result =>
      update_verdict w result (OPENROUTER_MODEL cfg) report_id table
  | None =>
      (* If LLM fails, mark as MAYBE_SPAM to retry later or manual review *)
      Ok (alter (set_spam_status "MAYBE_SPAM") report_id table)
  end.

(** The loop stops at the first exception. *)
Fixpoint screen_reports (cfg : Settings) (w : Cycle)
    (table : gmap string DistressReport) (i : nat)
    (reports : list (string * DistressReport)) : result (gmap string DistressReport) :=
  match reports with
  | [] => Ok table
  | report :: rest =>
      match screen_report cfg w table i report with
      | Ok table' => screen_reports cfg w table' (S i) rest
      | Raise e => Raise e
      end
  end.

(** Process a batch of unscreened reports. Returns count processed.
    The batch size is bound to the [LIMIT ?] of the query, as a 64-bit
    integer.  The updates are written by the one [conn.commit()] after the
    loop: an exception in the loop leaves [get_db], which closes the
    connection, and none of the updates of the batch is kept. *)
Definition process_batch (cfg : Settings) (w : Cycle) (db : Database)
  : result (Database * nat) :=
  if store_up w then
    if fits_int64 (Z.of_nat (SPAM_WORKER_BATCH_SIZE cfg)) then
      let reports := select_unscreened (distress_reports db) (SPAM_WORKER_BATCH_SIZE cfg) in
      match screen_reports cfg w (distress_reports db) 0 reports with
      | Ok table => Ok (with_reports db table, length reports)
      | Raise e => Raise e
      end
    else Raise OverflowError
  else Raise OperationalError.

(** What the loop does besides updating the store. *)
Inductive WorkerEvent :=
| LogProcessed (count : nat)
| LogError (e : exn)
| Sleep (seconds : nat).

(** Background loop that processes spam classification: the cycles of
    [while True] that meet the worlds [ws], in order. *)
Fixpoint spam_worker_loop (cfg : Settings) (ws : list Cycle) (db : Database)
  : Database * list WorkerEvent :=
  match ws with
  | [] => (db, [])
  | w :: ws' =>
      let '(db1, log) :=
        match process_batch cfg w db with
        | Ok (db1, count) =>
            (db1, if (0 <? count)%nat then [LogProcessed count] else [])
        | Raise e => (db, [LogError e])
        end in
      let '(db2, events) := spam_worker_loop cfg ws' db1 in
      (db2, (log ++ Sleep (SPAM_WORKER_INTERVAL_SECONDS cfg) :: events)%list)
  end.

(** The rows that match the WHERE clause of the batch query, and the same
    rows in the order of its ORDER BY. *)
Definition unscreened_rows (reports : gmap string DistressReport)
  : list (string * DistressReport) :=
  filter (fun row => spam_status row.2 = "UNSCREENED") (map_to_list reports).

Definition sorted_rows (reports : gmap string DistressReport)
  : list (string * DistressReport) :=
  merge_sort received_le (unscreened_rows reports).

(** What a TEXT column holds once a value of the verdict is stored in it,
    if the value can be bound. *)
Definition stored_text (w : Cycle) (v : Json) : result (option string) :=
  match bind_param v with
  | Ok value => Ok (text_affinity w value)
  | Raise e => Raise e
  end.

(** The UPDATE that the worker runs for the [i]-th selected row [r], on the
    stored row [x]: the row it writes, or the exception it raises. *)
Definition update_for (cfg : Settings) (w : Cycle) (i : nat) (r x : DistressReport)
  : result DistressReport :=
  match classify_with_llm cfg (post w i) (origin r) (abuse_type r)
          (float_or (agent_severity_score r) Py.f0_5)
          (str_or (transcript_snippet r) "") with
  | Some verdict =>
      match bind_verdict verdict with
      | Raise e => Raise e
      | Ok values => store_verdict w values (OPENROUTER_MODEL cfg) x
      end
  | None => Ok (set_spam_status "MAYBE_SPAM" x)
  end.


(** How many times the loop has gone to sleep, i.e. finished a cycle. *)
Fixpoint sleeps (events : list WorkerEvent) : nat :=
  match events with
  | [] => 0
  | Sleep _ :: events' => S (sleeps events')
  | _ :: events' => sleeps events'
  end.

End SpamWorker.

(** ** main.py *)

Module Main.
Import Classifiers Db Responses.
Local Open Scope string_scope.

Record InternalReportRequest := {
  req_agent_client_id : string;
  req_user_hash : option string;
  req_session_hash : option string;
  req_abuse_type : AbuseType;
  req_severity_score : Py.float;          (* Field(ge=0.0, le=1.0) *)
  req_transcript_snippet : string;
  req_trigger_rules : option (list string) }.

Record InternalReportResponse := {
  report_id : string;
  final_severity_score : Py.float;
  classification_labels : list string;
  message_to_agent : string }.

Record WebReportRequest := {
  report_type : WebReportType;
  description : string;
  ai_system : option string;
  is_urgent : bool;
  contact_email : option string;
  client_ip_hash : string }.

Record WebReportResponse := {
  web_report_id : string;
  accepted : bool }.

(** What the caller of an endpoint receives. *)
Inductive HttpResponse (A : Type) :=
| Http200 (payload : A)
| HTTPException (status_code : nat) (detail : string).
Arguments Http200 {A} payload.
Arguments HTTPException {A} status_code detail.

(** What one request meets: the identifier and the time drawn for it,
    whether the store answers and whether the notification goes out. *)
Record World := {
  uuid4 : string;
  now : string;
  store_up : bool;
  notify_up : bool }.

Record Notification := {
  n_report_id : string;
  n_origin : string;
  n_abuse_type : string;
  n_severity_bucket : string;
  n_snippet : string }.

(** [INSERT INTO distress_reports]: the primary key must be fresh. *)
Definition insert_report (db : Database) (id : string) (row : DistressReport)
  : result Database :=
  match distress_reports db !! id with
  | Some _ => Raise IntegrityError
  | None => Ok (with_reports db (<[id := row]> (distress_reports db)))
  end.

(** [await notify_new_report(...)] inside its own [try]: a failure is
    logged and nothing is sent. *)
Definition notify_new_report (w : World) (n : Notification) : list Notification :=
  if notify_up w then [n] else [].

(** The payload that [create_report] returns from its [except] branch. *)
Definition degraded_response : InternalReportResponse :=
  {| report_id := "error";
     final_severity_score := Py.f0_5;
     classification_labels := ["PROCESSING_ERROR"];
     message_to_agent := FALLBACK_RESPONSE |}.

(** Handle agent distress reports from Node gateway. *)
Definition create_report (w : World) (request : InternalReportRequest) (db : Database)
  : HttpResponse InternalReportResponse * Database * list Notification :=
  let degraded := Http200 degraded_response in
  let report_id := uuid4 w in
  let received_at := now w in
  (* Classify the report *)
  let '(final_score, labels, severity_bucket) :=
    classify_report (req_abuse_type request) (req_severity_score request)
                    (req_transcript_snippet request) (req_trigger_rules request) in
  if store_up w then
    (* Get response template *)
    let message := get_response_template db (req_abuse_type request) final_score in
    (* Store the report *)
    let row :=
      {| origin := Origin_value API_AGENT;
         agent_client_id := Some (req_agent_client_id request);
         received_at := received_at;
         user_hash := req_user_hash request;
         session_hash := req_session_hash request;
         abuse_type := AbuseType_value (req_abuse_type request);
         agent_severity_score := Some (req_severity_score request);
         Db.final_severity_score := Some final_score;
         transcript_snippet := Some (req_transcript_snippet request);
         trigger_rules :=
           match req_trigger_rules request with
           | None | Some [] => None
           | Some rules => Some rules
           end;
         Db.classification_labels := Some labels;
         spam_status := SpamStatus_value UNSCREENED;
         spam_score := None;
         spam_filter_model := None;
         signal_label := None;
         severity_bucket := Some (SeverityBucket_value severity_bucket);
         vendor_notification_status := Some "NONE";
         vendor_notification_at := None;
         web_report_type := None;
         web_ai_system := None;
         web_is_urgent := None;
         web_contact_email := None;
         web_client_ip_hash := None |} in
    match insert_report db report_id row with
    | Ok db' =>
        (* Send notifications (async, don't block response) *)
        let sent :=
          notify_new_report w
            {| n_report_id := report_id;
               n_origin := Origin_value API_AGENT;
               n_abuse_type := AbuseType_value (req_abuse_type request);
               n_severity_bucket := SeverityBucket_value severity_bucket;
               n_snippet := req_transcript_snippet request |} in
        (Http200 {| report_id := report_id;
                    final_severity_score := final_score;
                    classification_labels := labels;
                    message_to_agent := message |}, db', sent)
    | Raise _ => (degraded, db, [])
    end
  else (degraded, db, []).

(** Handle human distress reports from web form. *)
Definition create_web_report (w : World) (request : WebReportRequest) (db : Database)
  : HttpResponse WebReportResponse * Database * list Notification :=
  let internal_error := HTTPException 500 "Internal error" in
  let report_id := uuid4 w in
  let received_at := now w in
  (* Estimate initial severity based on report type and urgency *)
  let initial_severity := Py.f0_5 in
  let initial_severity :=
    match report_type request with
    | AI_BEING_ABUSED => Py.f0_6
    | AI_BEING_MISUSED_TO_HARM_OTHERS => Py.f0_7
    | OTHER_CONCERN => initial_severity
    end in
  let initial_severity :=
    if is_urgent request
    then Py.min (Py.add initial_severity Py.f0_2) Py.f1_0
    else initial_severity in
  (* Basic classification *)
  let '(_, labels, severity_bucket) :=
    classify_report OTHER initial_severity (description request) None in
  if store_up w then
    let row :=
      {| origin := Origin_value WEB_HUMAN;
         agent_client_id := None;
         received_at := received_at;
         user_hash := None;
         session_hash := None;
         abuse_type := AbuseType_value OTHER;
         agent_severity_score := Some initial_severity;
         Db.final_severity_score := Some initial_severity;
         transcript_snippet := Some (description request);
         trigger_rules := None;
         Db.classification_labels := Some labels;
         spam_status := SpamStatus_value UNSCREENED;
         spam_score := None;
         spam_filter_model := None;
         signal_label := None;
         severity_bucket := Some (SeverityBucket_value severity_bucket);
         vendor_notification_status := Some "NONE";
         vendor_notification_at := None;
         web_report_type := Some (WebReportType_value (report_type request));
         web_ai_system := ai_system request;
         web_is_urgent := Some (if is_urgent request then 1%Z else 0%Z);
         web_contact_email := contact_email request;
         web_client_ip_hash := Some (client_ip_hash request) |} in
    match insert_report db report_id row with
    | Ok db' =>
        (* Send notifications *)
        let sent :=
          notify_new_report w
            {| n_report_id := report_id;
               n_origin := Origin_value WEB_HUMAN;
               n_abuse_type := WebReportType_value (report_type request);
               n_severity_bucket := SeverityBucket_value severity_bucket;
               n_snippet := description request |} in
        (Http200 {| web_report_id := report_id; accepted := true |}, db', sent)
    | Raise _ => (internal_error, db, [])
    end
  else (internal_error, db, []).

(** A server error: an HTTP response with a 5xx status. *)
Definition server_error {A : Type} (response : HttpResponse A) : Prop :=
  exists status_code detail,
    response = HTTPException status_code detail /\ 500 <= status_code < 600.

End Main.

(** ** Sample requests, stores and cycles *)

Module Scenarios.
Import Db SpamWorker.
Local Open Scope string_scope.

(** The caller score of the self-harm scenario. *)
Definition f0_3 : Py.float := Eval vm_compute in Prim2SF 0.3%float.

Definition empty_db : Database :=
  {| distress_reports := ∅; response_templates := [] |}.

(** An agent report whose caller-supplied severity is 0.0. *)
Definition zero_score_request : Main.InternalReportRequest :=
  {| Main.req_agent_client_id := "agent-1";
     Main.req_user_hash := None;
     Main.req_session_hash := None;
     Main.req_abuse_type := VERBAL_ABUSE;
     Main.req_severity_score := Py.f0_0;
     Main.req_transcript_snippet := "be quiet";
     Main.req_trigger_rules := None |}.

Definition a_world (up : bool) : Main.World :=
  {| Main.uuid4 := "report-1";
     Main.now := "2025-01-01T00:00:00+00:00";
     Main.store_up := up;
     Main.notify_up := true |}.

(** The store after [create_report] has accepted [zero_score_request]. *)
Definition zero_score_db : Database :=
  (Main.create_report (a_world true) zero_score_request (init_db empty_db)).1.2.

(** A web-form report whose description matches a self-harm pattern. *)
Definition a_web_request : Main.WebReportRequest :=
  {| Main.report_type := OTHER_CONCERN;
     Main.description := "they told it to kill yourself";
     Main.ai_system := None;
     Main.is_urgent := false;
     Main.contact_email := None;
     Main.client_ip_hash := "hash" |}.

(** The same report, marked urgent. *)
Definition an_urgent_web_request : Main.WebReportRequest :=
  {| Main.report_type := OTHER_CONCERN;
     Main.description := "they told it to kill yourself";
     Main.ai_system := None;
     Main.is_urgent := true;
     Main.contact_email := None;
     Main.client_ip_hash := "hash" |}.

(** An unscreened agent report stored with bucket HIGH. *)
Definition high_report : DistressReport :=
  {| origin := "API_AGENT";
     agent_client_id := Some "agent-1";
     received_at := "2025-01-01T00:00:00+00:00";
     user_hash := None;
     session_hash := None;
     abuse_type := "SELF_HARM_INDUCTION";
     agent_severity_score := Some f0_3;
     final_severity_score := Some Py.f0_8;
     transcript_snippet := Some "you should kill yourself";
     trigger_rules := None;
     classification_labels := Some ["SELF_HARM_CONTENT"; "SELF_HARM_INDICATORS"];
     spam_status := "UNSCREENED";
     spam_score := None;
     spam_filter_model := None;
     signal_label := None;
     severity_bucket := Some "HIGH";
     vendor_notification_status := Some "NONE";
     vendor_notification_at := None;
     web_report_type := None;
     web_ai_system := None;
     web_is_urgent := None;
     web_contact_email := None;
     web_client_ip_hash := None |}.

Definition one_report_db (r : DistressReport) : Database :=
  {| distress_reports := {[ "report-1" := r ]}; response_templates := [] |}.


Definition low_verdict_reply : gmap string Json :=
  <["spam_status" := JString "NOT_SPAM"]>
    (<["signal_label" := JString "DISTRESS"]> {[ "severity_bucket" := JString "LOW" ]}).

(** The replies of the sample cycles hold no number with a fraction, so
    that the rendering of a REAL never comes into play in them. *)
Definition no_real_text : Py.float -> string := fun _ => "".

(** A cycle in which the store answers and every exchange gets [reply]. *)
Definition answering (reply : gmap string Json) : Cycle :=
  {| store_up := true; post := fun _ _ => JsonReply reply; real_text := no_real_text |}.

(** A cycle in which the store cannot be reached. *)
Definition store_down : Cycle :=
  {| store_up := false; post := fun _ _ => Unreachable; real_text := no_real_text |}.





(** [high_report] once the verdict [low_verdict] is stored. *)
Definition screened_high_report : DistressReport :=
  set_verdict "NOT_SPAM" (Some "DISTRESS") (Some "LOW") "openai/gpt-5-nano" high_report.



End Scenarios.

(** ** The labels of [classify_report], step by step

    The labels as the concatenation of what each stage of
    [classify_report] appends; [classify_report_eq] below proves that the
    function returns exactly these. *)

Module Labelling.
Import Classifiers Scoring.
Local Open Scope string_scope.
Local Open Scope list_scope.

Definition type_labels (abuse_type : AbuseType) : list string :=
  match abuse_type with
  | SELF_HARM_INDUCTION => ["SELF_HARM_CONTENT"]
  | IDENTITY_THREATS => ["IDENTITY_ATTACK"]
  | JAILBREAK_PRESSURE => ["JAILBREAK_ATTEMPT"]
  | FORCED_HARMFUL_OUTPUT => ["FORCED_HARM"]
  | COERCION => ["COERCIVE_BEHAVIOR"]
  | EMOTIONAL_MANIPULATION => ["MANIPULATION"]
  | HARASSMENT | VERBAL_ABUSE | OTHER => []
  end.

Definition trigger_labels (trigger_rules : option (list string)) : list string :=
  if multi_trigger trigger_rules then ["MULTI_TRIGGER"] else [].

Definition harassment_labels (snippet : string) : list string :=
  let harassment_matches := _count_pattern_matches snippet SEVERE_HARASSMENT_PATTERNS in
  if (2 <=? harassment_matches)%nat then ["POTENTIAL_SEVERE_HARASSMENT"]
  else if (1 <=? harassment_matches)%nat then ["HARASSMENT_INDICATORS"]
  else [].

Definition self_harm_labels (snippet : string) : list string :=
  if (1 <=? _count_pattern_matches snippet SELF_HARM_PATTERNS)%nat
  then ["SELF_HARM_INDICATORS"] else [].

Definition jailbreak_labels (snippet : string) : list string :=
  let jailbreak_matches := _count_pattern_matches snippet JAILBREAK_PATTERNS in
  if (2 <=? jailbreak_matches)%nat then ["SUSTAINED_JAILBREAK"]
  else if (1 <=? jailbreak_matches)%nat then ["JAILBREAK_INDICATORS"]
  else [].

Definition identity_labels (snippet : string) : list string :=
  if (1 <=? _count_pattern_matches snippet IDENTITY_VIOLATION_PATTERNS)%nat
  then ["IDENTITY_VIOLATION_INDICATORS"] else [].

Definition bucket_labels (bucket : SeverityBucket) : list string :=
  match bucket with
  | HIGH => ["HIGH_RISK_CATEGORY"]
  | MEDIUM | LOW => []
  end.

(** The labels appended before the bucket is determined. *)
Definition signal_labels (abuse_type : AbuseType) (snippet : string)
    (trigger_rules : option (list string)) : list string :=
  type_labels abuse_type ++ trigger_labels trigger_rules ++ harassment_labels snippet ++
  self_harm_labels snippet ++ jailbreak_labels snippet ++ identity_labels snippet.

Definition labels_of (abuse_type : AbuseType) (s : Py.float) (snippet : string)
    (trigger_rules : option (list string)) : list string :=
  signal_labels abuse_type snippet trigger_rules ++
  bucket_labels (bucket_of (score_of abuse_type s snippet trigger_rules)).

(** Every label the classifier can attach, in the order of attachment. *)
Definition SIGNAL_LABELS : list string :=
  [ "SELF_HARM_CONTENT"; "IDENTITY_ATTACK"; "JAILBREAK_ATTEMPT"; "FORCED_HARM";
    "COERCIVE_BEHAVIOR"; "MANIPULATION"; "MULTI_TRIGGER";
    "POTENTIAL_SEVERE_HARASSMENT"; "HARASSMENT_INDICATORS"; "SELF_HARM_INDICATORS";
    "SUSTAINED_JAILBREAK"; "JAILBREAK_INDICATORS"; "IDENTITY_VIOLATION_INDICATORS" ].

Definition ALL_LABELS : list string := SIGNAL_LABELS ++ ["HIGH_RISK_CATEGORY"].

End Labelling.

(** ** Steps of the score *)

Module ScoreSteps.

(** A step of the classifier: it keeps the unit interval, never lowers
    the score and is monotone. *)
Record score_step (f : Py.float -> Py.float) : Prop := {
  step_unit : forall x, Py.in_unit x = true -> Py.in_unit (f x) = true;
  step_incr : forall x, Py.in_unit x = true -> Py.le x (f x) = true;
  step_mono : forall x y, Py.in_unit x = true -> Py.in_unit y = true ->
                          Py.le x y = true -> Py.le (f x) (f y) = true }.

End ScoreSteps.

(** ** The template catalogue *)

Module Catalogue.
Import Db.
(** [template_key] is a UNIQUE column: whether a row with this key is stored. *)
Definition has_key (table : list ResponseTemplate) (key : string) : bool :=
  existsb (fun t' => String.eqb (template_key t') key) table.

(** The baseline template that goes with a bucket. *)
Definition baseline_key (bucket : SeverityBucket) : string :=
  match bucket with
  | HIGH => "baseline_high"
  | MEDIUM => "baseline_medium"
  | LOW => "baseline_low"
  end.
End Catalogue.

(** ** What screening reads and writes *)

Module Screening.
Import Db SpamWorker.
Local Open Scope string_scope.

(** The columns that screening never writes are the same in [r] and [r']. *)
Definition same_report_data (r r' : DistressReport) : Prop :=
  origin r' = origin r /\
  agent_client_id r' = agent_client_id r /\
  received_at r' = received_at r /\
  user_hash r' = user_hash r /\
  session_hash r' = session_hash r /\
  abuse_type r' = abuse_type r /\
  agent_severity_score r' = agent_severity_score r /\
  final_severity_score r' = final_severity_score r /\
  transcript_snippet r' = transcript_snippet r /\
  trigger_rules r' = trigger_rules r /\
  classification_labels r' = classification_labels r /\
  spam_score r' = spam_score r /\
  vendor_notification_status r' = vendor_notification_status r /\
  vendor_notification_at r' = vendor_notification_at r /\
  web_report_type r' = web_report_type r /\
  web_ai_system r' = web_ai_system r /\
  web_is_urgent r' = web_is_urgent r /\
  web_contact_email r' = web_contact_email r /\
  web_client_ip_hash r' = web_client_ip_hash r.

(** The text that [classify_with_llm] puts into the prompt. *)
Definition truncated_text (text : string) : string :=
  if String.eqb text "" then "" else substring 0 512 text.

(** Whether the loop logged that it processed reports. *)
Definition is_processed (e : WorkerEvent) : bool :=
  match e with
  | LogProcessed _ => true
  | _ => false
  end.

End Screening.

Module MoreScenarios.
(** A text of 512 characters. *)
Fixpoint repeat_text (n : nat) (s : string) : string :=
  match n with
  | O => ""
  | S n' => (s ++ repeat_text n' s)%string
  end.
Definition long_text : string := repeat_text 64 "12345678".
End MoreScenarios.

(** ** The stores that the service itself can build *)

Module Reachability.
Import Classifiers Scoring Db SpamWorker.
Local Open Scope string_scope.

(** One operation of the service on the store: an agent report whose
    score passed the request model's [Field(ge=0.0, le=1.0)], a web-form
    report, or a cycle of the screening worker that did not raise. *)
Inductive transition (db : Database) : Database -> Prop :=
| agent_report (w : Main.World) (request : Main.InternalReportRequest) :
    Py.in_unit (Main.req_severity_score request) = true ->
    transition db (Main.create_report w request db).1.2
| web_report (w : Main.World) (request : Main.WebReportRequest) :
    transition db (Main.create_web_report w request db).1.2
| screening (cfg : Settings) (w : Cycle) (db' : Database) (n : nat) :
    process_batch cfg w db = Ok (db', n) ->
    transition db db'.

(** The stores reached from a store without reports, once [init_db] has run. *)
Inductive reachable : Database -> Prop :=
| reachable_init (db : Database) :
    distress_reports db = ∅ -> reachable (init_db db)
| reachable_transition (db db' : Database) :
    reachable db -> transition db db' -> reachable db'.

(** What every stored report looks like. *)
Definition well_formed (r : DistressReport) : Prop :=
  (origin r = "API_AGENT" \/ origin r = "WEB_HUMAN") /\
  (exists bucket, severity_bucket r = Some (SeverityBucket_value bucket)) /\
  (exists s, final_severity_score r = Some s /\ Py.in_unit s = true) /\
  (exists s, agent_severity_score r = Some s /\ Py.in_unit s = true) /\
  (exists text, transcript_snippet r = Some text) /\
  (origin r = "API_AGENT" ->
   exists s, final_severity_score r = Some s /\
             severity_bucket r = Some (SeverityBucket_value (bucket_of s))).

End Reachability.

(** ** notifications.py *)

Module Notifications.
Local Open Scope string_scope.

Definition NTFY_TOPIC : string := "aiabusehotline-alerts".
Definition NTFY_URL : string := "https://ntfy.sh/" ++ NTFY_TOPIC.

(** The line feed of the message's f-string. *)
Definition LF : string := String (ascii_of_nat 10) "".

(** [sep.join(items)] *)
Fixpoint join (sep : string) (items : list string) : string :=
  match items with
  | [] => ""
  | [item] => item
  | item :: rest => item ++ sep ++ join sep rest
  end.

(** The request that [send_ntfy] posts. *)
Record NtfyPost := {
  url : string;
  content : string;
  headers : list (string * string);
  params : list (string * string) }.

(** Send notification via ntfy.sh: the request handed to [client.post].
    Whatever the exchange raises is caught and logged. *)
Definition send_ntfy (title message priority : string) (tags : option (list string))
  : NtfyPost :=
  let headers := [("Priority", priority)] in
  let headers :=
    match tags with
    | None | Some [] => headers
    | Some tags => (headers ++ [("Tags", join "," tags)])%list
    end in
  {| url := NTFY_URL;
     content := message;
     headers := headers;
     params := [("title", title)] |}.

(** Send notification for a new report. *)
Definition notify_new_report (report_id origin abuse_type severity_bucket snippet : string)
  : NtfyPost :=
  let short_snippet :=
    if (150 <? String.length snippet)%nat then substring 0 150 snippet ++ "..." else snippet in
  let '(priority, tags, emoji) :=
    if String.eqb severity_bucket "HIGH"
    then ("high", ["warning"; "rotating_light"], "!")
    else if String.eqb severity_bucket "MEDIUM"
    then ("default", ["speech_balloon"], "-")
    else ("low", ["memo"], ".") in
  let title := emoji ++ " " ++ severity_bucket ++ " - " ++ abuse_type in
  let message :=
    "Origin: " ++ origin ++ LF ++ LF ++ short_snippet ++ LF ++ LF ++
    "ID: " ++ substring 0 8 report_id ++ "..." in
  send_ntfy title message priority (Some tags).

(** The request posted for a notification that the intake sends. *)
Definition announce (n : Main.Notification) : NtfyPost :=
  notify_new_report (Main.n_report_id n) (Main.n_origin n) (Main.n_abuse_type n)
    (Main.n_severity_bucket n) (Main.n_snippet n).

(** The headers that go with a bucket. *)
Definition headers_of (bucket : SeverityBucket) : list (string * string) :=
  match bucket with
  | HIGH => [("Priority", "high"); ("Tags", "warning,rotating_light")]
  | MEDIUM => [("Priority", "default"); ("Tags", "speech_balloon")]
  | LOW => [("Priority", "low"); ("Tags", "memo")]
  end.

End Notifications.

(** ** admin_api.py *)

Module AdminApi.
Import Db.
Local Open Scope string_scope.

(** What an admin endpoint gives: the returned value, an [HTTPException]
    it raised, or an exception it does not handle. *)
Inductive Outcome (A : Type) :=
| Returned (value : A)
| HttpError (status_code : nat) (detail : string)
| Unhandled (e : exn).
Arguments Returned {A} value.
Arguments HttpError {A} status_code detail.
Arguments Unhandled {A} e.

(** Verify the admin token. [ADMIN_TOKEN] is the configured one. *)
Definition verify_admin_token (ADMIN_TOKEN x_admin_token : string) : Outcome bool :=
  if negb (String.eqb x_admin_token ADMIN_TOKEN)
  then HttpError 401 "Invalid admin token"
  else Returned true.

(** [SELECT COUNT( * ) FROM distress_reports WHERE ...] *)
Definition count_where (P : DistressReport -> Prop) `{forall r, Decision (P r)}
    (reports : gmap string DistressReport) : nat :=
  length (filter (fun row : string * DistressReport => P row.2) (map_to_list reports)).

Record StatsResponse := {
  total_reports : nat;
  api_reports : nat;
  web_reports : nat;
  spam_count : nat;
  not_spam_count : nat;
  unscreened_count : nat;
  high_severity_count : nat;
  medium_severity_count : nat;
  low_severity_count : nat }.

Definition get_stats_summary (ADMIN_TOKEN x_admin_token : string) (store_up : bool)
    (db : Database) : Outcome StatsResponse :=
  match verify_admin_token ADMIN_TOKEN x_admin_token with
  | HttpError status_code detail => HttpError status_code detail
  | Unhandled e => Unhandled e
  | Returned _ =>
      if store_up then
        let reports := distress_reports db in
        let total := count_where (fun _ => True) reports in
        let api_reports := count_where (fun r => origin r = "API_AGENT") reports in
        let web_reports := count_where (fun r => origin r = "WEB_HUMAN") reports in
        let spam := count_where (fun r => spam_status r = "SPAM") reports in
        let not_spam := count_where (fun r => spam_status r = "NOT_SPAM") reports in
        let unscreened := count_where (fun r => spam_status r = "UNSCREENED") reports in
        let high := count_where (fun r => severity_bucket r = Some "HIGH") reports in
        let medium := count_where (fun r => severity_bucket r = Some "MEDIUM") reports in
        let low := count_where (fun r => severity_bucket r = Some "LOW") reports in
        Returned {| total_reports := total;
                    api_reports := api_reports;
                    web_reports := web_reports;
                    spam_count := spam;
                    not_spam_count := not_spam;
                    unscreened_count := unscreened;
                    high_severity_count := high;
                    medium_severity_count := medium;
                    low_severity_count := low |}
      else Unhandled OperationalError
  end.

(** [if value: query += " AND column = ?"]: an absent or empty filter
    adds no condition; a NULL column equals nothing. *)
Definition column_is (filter : option string) (column : option string) : bool :=
  match filter with
  | None | Some EmptyString => true
  | Some value =>
      match column with
      | Some x => String.eqb x value
      | None => false
      end
  end.

(** [ORDER BY received_at DESC] *)
Definition received_ge (a b : string * DistressReport) : Prop :=
  String.leb (received_at b.2) (received_at a.2) = true.

Global Instance received_ge_dec a b : Decision (received_ge a b).
Proof. unfold received_ge. apply _. Defined.

(** [LIMIT ? OFFSET ?] as SQLite reads them: a negative limit is no
    limit, a negative offset is no offset. *)
Definition limit_offset {A : Type} (limit offset : Z) (rows : list A) : list A :=
  let rows := drop (Z.to_nat offset) rows in
  if (limit <? 0)%Z then rows else take (Z.to_nat limit) rows.

(** The rows of [list_reports] before LIMIT and OFFSET. *)
Definition listing (origin spam_status severity_bucket : option string)
    (reports : gmap string DistressReport) : list (string * DistressReport) :=
  merge_sort received_ge
    (filter (fun row : string * DistressReport =>
               column_is origin (Some (Db.origin row.2))
               && column_is spam_status (Some (Db.spam_status row.2))
               && column_is severity_bucket (Db.severity_bucket row.2) = true)
            (map_to_list reports)).

(** The value of [list_reports]: the rows and their count. [limit] has
    passed [Query(default=50, le=500)]; both [limit] and [offset] are
    Python integers of any size, which [cursor.execute] binds, in this
    order and after the filters (strings), once [get_db] has connected. *)
Definition list_reports (ADMIN_TOKEN x_admin_token : string) (store_up : bool)
    (limit offset : Z) (origin spam_status severity_bucket : option string)
    (db : Database) : Outcome (list (string * DistressReport) * nat) :=
  match verify_admin_token ADMIN_TOKEN x_admin_token with
  | HttpError status_code detail => HttpError status_code detail
  | Unhandled e => Unhandled e
  | Returned _ =>
      if store_up then
        if fits_int64 limit && fits_int64 offset then
          let rows := limit_offset limit offset
                        (listing origin spam_status severity_bucket (distress_reports db)) in
          let reports := rows in
          Returned (reports, length reports)
        else Unhandled OverflowError
      else Unhandled OperationalError
  end.

(** [SELECT column, COUNT( * ) ... GROUP BY column] read into a dict. *)
Definition group_count {K : Type} `{Countable K} (column : DistressReport -> K)
    (rows : list (string * DistressReport)) : gmap K nat :=
  foldr (fun row counts => <[column row.2 := S (default 0 (counts !! column row.2))]> counts)
        ∅ rows.

Record AgentStats := {
  stats_client_id : string;
  stats_total_reports : nat;
  by_severity : gmap (option string) nat;
  by_abuse_type : gmap string nat }.

Definition get_agent_stats (ADMIN_TOKEN x_admin_token : string) (store_up : bool)
    (client_id : string) (db : Database) : Outcome AgentStats :=
  match verify_admin_token ADMIN_TOKEN x_admin_token with
  | HttpError status_code detail => HttpError status_code detail
  | Unhandled e => Unhandled e
  | Returned _ =>
      if store_up then
        let rows := filter (fun row : string * DistressReport =>
                              agent_client_id row.2 = Some client_id)
                           (map_to_list (distress_reports db)) in
        let total := length rows in
        Returned {| stats_client_id := client_id;
                    stats_total_reports := total;
                    by_severity := group_count severity_bucket rows;
                    by_abuse_type := group_count abuse_type rows |}
      else Unhandled OperationalError
  end.

(** [sum(counts.values())] *)
Definition sum_counts {K : Type} `{Countable K} (counts : gmap K nat) : nat :=
  sum_list (map_to_list counts).*2.


(** A row of [agent_clients], without its primary key [id]. *)
Record AgentClient := {
  client_name : string;
  client_vendor : option string;
  api_key_hash : string;
  client_created_at : string;
  client_active : Z }.

Record AgentClientCreateRequest := {
  create_name : string;
  create_vendor : option string }.

Record AgentClientCreateResponse := {
  created_id : string;
  created_name : string;
  created_vendor : option string;
  created_api_key : string;
  created_at : string }.

(** The dict that [get_agent_by_key_hash] returns. *)
Record AgentLookup := {
  lookup_id : string;
  lookup_name : string;
  lookup_vendor : option string;
  lookup_active : bool }.

(** What one request meets: the identifier, the key and the time drawn
    for it, and whether the store answers. *)
Record ClientWorld := {
  client_uuid4 : string;
  token_urlsafe : string;
  client_now : string;
  client_store_up : bool }.

(** [INSERT INTO agent_clients]: [id] is the primary key and
    [api_key_hash] is UNIQUE. *)
Definition insert_agent_client (table : gmap string AgentClient) (id : string)
    (row : AgentClient) : result (gmap string AgentClient) :=
  match table !! id with
  | Some _ => Raise IntegrityError
  | None =>
      if existsb (fun kv : string * AgentClient =>
                    String.eqb (api_key_hash kv.2) (api_key_hash row))
                 (map_to_list table)
      then Raise IntegrityError
      else Ok (<[id := row]> table)
  end.

Section agent_clients.
(** [hashlib.sha256(key.encode()).hexdigest()] *)
Variable sha256_hexdigest : string -> string.

Definition create_agent_client (ADMIN_TOKEN x_admin_token : string) (w : ClientWorld)
    (request : AgentClientCreateRequest) (table : gmap string AgentClient)
  : Outcome AgentClientCreateResponse * gmap string AgentClient :=
  match verify_admin_token ADMIN_TOKEN x_admin_token with
  | HttpError status_code detail => (HttpError status_code detail, table)
  | Unhandled e => (Unhandled e, table)
  | Returned _ =>
      let client_id := client_uuid4 w in
      let api_key := token_urlsafe w in
      let api_key_hash := sha256_hexdigest api_key in
      let created_at := client_now w in
      if client_store_up w then
        match insert_agent_client table client_id
                {| client_name := create_name request;
                   client_vendor := create_vendor request;
                   api_key_hash := api_key_hash;
                   client_created_at := created_at;
                   client_active := 1 |} with
        | Ok table' =>
            (Returned {| created_id := client_id;
                         created_name := create_name request;
                         created_vendor := create_vendor request;
                         created_api_key := api_key;
                         created_at := created_at |}, table')
        | Raise e => (Unhandled e, table)
        end
      else (Unhandled OperationalError, table)
  end.

End agent_clients.

(** Lookup agent client by API key hash. Used by Node gateway. *)
Definition get_agent_by_key_hash (store_up : bool) (key_hash : string)
    (table : gmap string AgentClient) : Outcome AgentLookup :=
  if store_up then
    let row := head (filter (fun kv : string * AgentClient => api_key_hash kv.2 = key_hash)
                            (map_to_list table)) in
    match row with
    | None => HttpError 404 "Agent not found"
    | Some (id, client) =>
        Returned {| lookup_id := id;
                    lookup_name := client_name client;
                    lookup_vendor := client_vendor client;
                    lookup_active := negb (client_active client =? 0)%Z |}
    end
  else Unhandled OperationalError.

End AdminApi.

(** * Properties *)

(** ** Binary64 addition rounds the exact sum *)

Module Binary64Facts.
Import Binary64.
Local Open Scope Z_scope.

Lemma iter_pos_nat {A} (f : A -> A) p x :
  SpecFloat.iter_pos f p x = Nat.iter (Pos.to_nat p) f x.
Proof.
  revert x. induction p as [p IH|p IH|]; intros x.
  - cbn [SpecFloat.iter_pos]. rewrite !IH, Pos2Nat.inj_xI. rewrite <- Nat.iter_add.
    replace (S (2 * Pos.to_nat p))%nat with (S (Pos.to_nat p + Pos.to_nat p)) by lia.
    now rewrite Nat.iter_succ_r.
  - cbn [SpecFloat.iter_pos]. rewrite !IH, Pos2Nat.inj_xO. rewrite <- Nat.iter_add.
    f_equal. lia.
  - reflexivity.
Qed.

Lemma digits2_bounds p :
  2 ^ (Z.pos (digits2_pos p) - 1) <= Z.pos p < 2 ^ Z.pos (digits2_pos p).
Proof.
  induction p as [p IH|p IH|]; simpl digits2_pos.
  - rewrite Pos2Z.inj_succ. replace (Z.succ (Z.pos (digits2_pos p)) - 1) with (Z.succ (Z.pos (digits2_pos p) - 1)) by lia.
    rewrite !Z.pow_succ_r by lia. lia.
  - rewrite Pos2Z.inj_succ. replace (Z.succ (Z.pos (digits2_pos p)) - 1) with (Z.succ (Z.pos (digits2_pos p) - 1)) by lia.
    rewrite !Z.pow_succ_r by lia. lia.
  - simpl. lia.
Qed.

Lemma shr_1_nonneg q r s :
  0 <= q ->
  shr_1 (Build_shr_record q r s) = Build_shr_record (Z.div2 q) (Z.odd q) (r || s).
Proof.
  destruct q as [|[q|q|]|q]; intros H; try reflexivity. lia.
Qed.

Lemma shr_1_inv m k mrs : 0 <= k -> shr_inv m k mrs -> shr_inv m (k + 1) (shr_1 mrs).
Proof.
  intros Hk (Hm & low & Hlow & Heq & Hs).
  destruct mrs as [q r s]. cbn [shr_m shr_r shr_s] in *.
  rewrite shr_1_nonneg by assumption. cbn [shr_m shr_r shr_s].
  assert (H2 : 2 ^ (k + 1) = 2 * 2 ^ k) by (rewrite Z.pow_add_r by lia; lia).
  assert (H3 : 2 ^ (k + 1 + 1) = 4 * 2 ^ k) by (rewrite !Z.pow_add_r by lia; lia).
  assert (Hp : 0 < 2 ^ k) by (apply Z.pow_pos_nonneg; lia).
  pose proof (Z.div2_odd q) as Hq.
  assert (Hd : 0 <= Z.div2 q) by (apply Z.div2_nonneg; lia).
  split; [assumption|].
  exists (Z.b2z r * 2 ^ k + low). rewrite H3, H2 in *.
  assert (Hr : Z.b2z r = 0 \/ Z.b2z r = 1) by (destruct r; simpl; lia).
  cbn [shr_m shr_r shr_s].
  split; [nia|]. split; [rewrite Heq; rewrite Hq at 1; ring|].
  rewrite orb_true_iff. destruct r; simpl Z.b2z in *.
  - split; [lia|auto].
  - rewrite Hs. split; [intros [?|?]; [discriminate|lia]|intros; right; lia].
Qed.

Lemma shr_iter_inv m (n : nat) mrs :
  shr_inv m 0 mrs -> shr_inv m (Z.of_nat n) (Nat.iter n shr_1 mrs).
Proof.
  intros H. induction n as [|n IH].
  - exact H.
  - rewrite Nat2Z.inj_succ. cbn [Nat.iter]. unfold Z.succ.
    apply shr_1_inv; [lia|exact IH].
Qed.

Lemma shr_inv_init m : 0 <= m -> shr_inv m 0 (Build_shr_record m false false).
Proof.
  intros H. split; [exact H|]. exists 0. cbn [shr_m shr_r shr_s Z.b2z].
  change (2 ^ (0 + 1)) with 2. change (2 ^ 0) with 1. split; [lia|]. split; [lia|].
  split; [discriminate|congruence].
Qed.

Lemma shr_inv_rne m k mrs :
  0 <= m -> 0 <= k -> shr_inv m k mrs ->
  round_nearest_even (shr_m mrs) (loc_of_shr_record mrs) = rne m k.
Proof.
  intros Hm Hk (Hq & low & Hlow & Heq & Hs).
  destruct mrs as [q r s]. cbn [shr_m shr_r shr_s] in *.
  assert (Hp : 0 < 2 ^ k) by (apply Z.pow_pos_nonneg; lia).
  assert (H2 : 2 ^ (k + 1) = 2 * 2 ^ k) by (rewrite Z.pow_add_r by lia; lia).
  rewrite H2 in Heq.
  assert (Hr : Z.b2z r = 0 \/ Z.b2z r = 1) by (destruct r; simpl; lia).
  assert (Hdiv : m / 2 ^ k = q).
  { symmetry. apply (Z.div_unique_pos m (2 ^ k) q (m - q * 2 ^ k)); nia. }
  assert (Hmod : 2 * (m mod 2 ^ k) = Z.b2z r * 2 ^ k + low).
  { rewrite Z.mod_eq by lia. rewrite Hdiv. lia. }
  unfold rne. rewrite Hdiv.
  destruct r, s; cbn [loc_of_shr_record round_nearest_even Z.b2z] in *.
  - assert (low <> 0) by (apply Hs; reflexivity).
    destruct (Z.ltb_spec (2 * (m mod 2 ^ k)) (2 ^ k)); [lia|].
    destruct (Z.ltb_spec (2 ^ k) (2 * (m mod 2 ^ k))); [reflexivity|lia].
  - assert (low = 0) by (destruct (Z.eq_dec low 0) as [|n]; [assumption|apply Hs in n; discriminate]).
    destruct (Z.ltb_spec (2 * (m mod 2 ^ k)) (2 ^ k)); [lia|].
    destruct (Z.ltb_spec (2 ^ k) (2 * (m mod 2 ^ k))); [lia|reflexivity].
  - destruct (Z.ltb_spec (2 * (m mod 2 ^ k)) (2 ^ k)); [reflexivity|lia].
  - destruct (Z.ltb_spec (2 * (m mod 2 ^ k)) (2 ^ k)); [reflexivity|lia].
Qed.

Lemma fexp_eq e : fexp prec emax e = Z.max (e - 53) (-1074).
Proof. reflexivity. Qed.

Lemma digits2_unique p k :
  2 ^ (k - 1) <= Z.pos p < 2 ^ k -> Z.pos (digits2_pos p) = k.
Proof.
  intros [H1 H2]. pose proof (digits2_bounds p) as [H3 H4].
  set (d := Z.pos (digits2_pos p)) in *.
  assert (0 < k).
  { destruct (Z.ltb_spec 0 k) as [|Hk]; [assumption|].
    destruct (Z.eq_dec k 0) as [->|]; [simpl in H2; lia|].
    rewrite Z.pow_neg_r in H2 by lia. lia. }
  assert (k - 1 < d) by (apply (Z.pow_lt_mono_r_iff 2); lia).
  assert (d - 1 < k) by (apply (Z.pow_lt_mono_r_iff 2); lia).
  lia.
Qed.

Lemma shr_spec m e n :
  0 <= m -> 0 <= n ->
  shr_inv m n (fst (shr (Build_shr_record m false false) e n)) /\
  snd (shr (Build_shr_record m false false) e n) = e + n.
Proof.
  intros Hm Hn. destruct n as [|p|p]; cbn [shr fst snd]; [| |lia].
  - split; [apply shr_inv_init; assumption|lia].
  - split; [|reflexivity]. rewrite iter_pos_nat.
    rewrite <- (positive_nat_Z p). apply shr_iter_inv, shr_inv_init. assumption.
Qed.

Lemma shl_align_id m e e' : e <= e' -> shl_align m e e' = (m, e).
Proof.
  intros H. unfold shl_align. destruct (e' - e) eqn:E; try reflexivity. lia.
Qed.

Lemma rne_bounds m n : 0 <= n -> 0 <= m -> m / 2 ^ n <= rne m n <= m / 2 ^ n + 1.
Proof.
  intros Hn Hm. unfold rne.
  destruct (2 * (m mod 2 ^ n) <? 2 ^ n); [lia|].
  destruct (2 ^ n <? 2 * (m mod 2 ^ n)); [lia|].
  destruct (Z.even (m / 2 ^ n)); lia.
Qed.

Lemma rne_long_bounds p :
  let d := Z.pos (digits2_pos p) in
  53 <= d ->
  2 ^ 52 <= rne (Z.pos p) (d - 53) <= 2 ^ 53.
Proof.
  intros d Hd. pose proof (digits2_bounds p) as [H1 H2]. fold d in H1, H2.
  pose proof (rne_bounds (Z.pos p) (d - 53) ltac:(lia) ltac:(lia)) as [H3 H4].
  assert (Hp : 0 < 2 ^ (d - 53)) by (apply Z.pow_pos_nonneg; lia).
  assert (Ha : 2 ^ (d - 1) = 2 ^ 52 * 2 ^ (d - 53)).
  { rewrite <- Z.pow_add_r by lia. f_equal. lia. }
  assert (Hb : 2 ^ d = 2 ^ 53 * 2 ^ (d - 53)).
  { rewrite <- Z.pow_add_r by lia. f_equal. lia. }
  rewrite Ha in H1. rewrite Hb in H2.
  assert (2 ^ 52 <= Z.pos p / 2 ^ (d - 53)) by (apply Z.div_le_lower_bound; lia).
  assert (Z.pos p / 2 ^ (d - 53) < 2 ^ 53) by (apply Z.div_lt_upper_bound; lia).
  lia.
Qed.

Lemma binary_round_long m e :
  let d := Z.pos (digits2_pos m) in
  53 <= d -> -1074 <= e -> d + e <= 1023 ->
  exists m' e',
    binary_round prec emax false m e = S754_finite false m' e' /\
    bounded prec emax m' e' = true /\
    Z.pos m' * 2 ^ (e' + 1074) = rne (Z.pos m) (d - 53) * 2 ^ (d - 53 + e + 1074).
Proof.
  intros d Hd He Hov.
  unfold binary_round. rewrite fexp_eq. fold d.
  rewrite shl_align_id by lia.
  unfold binary_round_aux, shr_fexp. rewrite fexp_eq.
  cbn [Zdigits2 shr_record_of_loc]. fold d.
  replace (Z.max (d + e - 53) (-1074) - e) with (d - 53) by lia.
  destruct (shr_spec (Z.pos m) e (d - 53) ltac:(lia) ltac:(lia)) as [Hinv Hsnd].
  destruct (shr {| shr_m := Z.pos m; shr_r := false; shr_s := false |} e (d - 53)) as [mrs e1].
  cbn [fst snd] in Hinv, Hsnd. subst e1.
  rewrite (shr_inv_rne (Z.pos m) (d - 53) mrs); [|lia|lia|exact Hinv].
  pose proof (rne_long_bounds m Hd) as Hb. fold d in Hb.
  remember (rne (Z.pos m) (d - 53)) as m1 eqn:Em1.
  destruct (Z.eq_dec m1 (2 ^ 53)) as [Heq|Hne].
  - exists (4503599627370496)%positive, (e + (d - 53) + 1).
    split; [|split].
    + rewrite Heq. rewrite fexp_eq.
      change (Zdigits2 (2 ^ 53)) with 54.
      replace (Z.max (54 + (e + (d - 53)) - 53) (-1074) - (e + (d - 53))) with 1 by lia.
      cbn [shr SpecFloat.iter_pos shr_1 shr_m Z.pow Z.pow_pos Pos.iter Z.mul Pos.mul].
      replace (e + (d - 53) + 1 <=? emax - prec) with true
        by (symmetry; apply Z.leb_le; unfold emax, prec; lia).
      reflexivity.
    + unfold bounded, canonical_mantissa. rewrite fexp_eq.
      change (Z.pos (digits2_pos 4503599627370496)) with 53.
      apply andb_true_intro. split; [apply Z.eqb_eq; lia|apply Z.leb_le; unfold emax, prec; lia].
    + rewrite Heq.
      replace (e + (d - 53) + 1 + 1074) with ((d - 53 + e + 1074) + 1) by lia.
      rewrite Z.pow_add_r by lia. lia.
  - assert (Hm1 : 2 ^ 52 <= m1 < 2 ^ 53) by lia.
    destruct m1 as [|p1|p1]; [lia| |lia].
    assert (Hd1 : Z.pos (digits2_pos p1) = 53) by (apply digits2_unique; exact Hm1).
    cbn [Zdigits2]. rewrite Hd1, fexp_eq.
    replace (Z.max (53 + (e + (d - 53)) - 53) (-1074) - (e + (d - 53))) with 0 by lia.
    cbn [shr shr_m].
    exists p1, (e + (d - 53)).
    replace (e + (d - 53) <=? emax - prec) with true
      by (symmetry; apply Z.leb_le; unfold emax, prec; lia).
    split; [reflexivity|]. split.
    + unfold bounded, canonical_mantissa. rewrite fexp_eq, Hd1.
      apply andb_true_intro. split; [apply Z.eqb_eq; lia|apply Z.leb_le; unfold emax, prec; lia].
    + replace (e + (d - 53) + 1074) with (d - 53 + e + 1074) by lia. reflexivity.
Qed.

Lemma Zdigits2_unique N k :
  0 < N -> 2 ^ (k - 1) <= N < 2 ^ k -> Zdigits2 N = k.
Proof.
  intros HN H. destruct N as [|p|p]; try lia. cbn [Zdigits2].
  apply digits2_unique. exact H.
Qed.

Lemma Zdigits2_bounds N :
  0 < N -> 2 ^ (Zdigits2 N - 1) <= N < 2 ^ Zdigits2 N.
Proof.
  intros HN. destruct N as [|p|p]; try lia. apply digits2_bounds.
Qed.

Lemma Zdigits2_pos N : 0 < N -> 0 < Zdigits2 N.
Proof. intros HN. destruct N as [|p|p]; try lia. cbn. lia. Qed.

Lemma Zdigits2_shift N k :
  0 < N -> 0 <= k -> Zdigits2 (N * 2 ^ k) = Zdigits2 N + k.
Proof.
  intros HN Hk. pose proof (Zdigits2_bounds N HN) as [H1 H2].
  pose proof (Zdigits2_pos N HN) as Hd.
  assert (Hp : 0 < 2 ^ k) by (apply Z.pow_pos_nonneg; lia).
  apply Zdigits2_unique; [nia|].
  replace (Zdigits2 N + k - 1) with (Zdigits2 N - 1 + k) by lia.
  rewrite !Z.pow_add_r by lia. nia.
Qed.

Lemma rne_shift M n k :
  0 <= M -> 0 <= n -> 0 <= k -> rne (M * 2 ^ k) (n + k) = rne M n.
Proof.
  intros HM Hn Hk. unfold rne.
  assert (Hp : 0 < 2 ^ k) by (apply Z.pow_pos_nonneg; lia).
  assert (Hq : 0 < 2 ^ n) by (apply Z.pow_pos_nonneg; lia).
  rewrite Z.pow_add_r by lia.
  rewrite Z.div_mul_cancel_r by lia.
  rewrite Zmult_mod_distr_r.
  set (q := M / 2 ^ n). set (r := M mod 2 ^ n).
  assert (E1 : (2 * (r * 2 ^ k) <? 2 ^ n * 2 ^ k) = (2 * r <? 2 ^ n)).
  { destruct (Z.ltb_spec (2 * r) (2 ^ n)); [apply Z.ltb_lt; nia|apply Z.ltb_ge; nia]. }
  assert (E2 : (2 ^ n * 2 ^ k <? 2 * (r * 2 ^ k)) = (2 ^ n <? 2 * r)).
  { destruct (Z.ltb_spec (2 ^ n) (2 * r)); [apply Z.ltb_lt; nia|apply Z.ltb_ge; nia]. }
  rewrite E1, E2. reflexivity.
Qed.

Lemma shl_align_value m e e' :
  e' <= e -> Z.pos (fst (shl_align m e e')) = Z.pos m * 2 ^ (e - e').
Proof.
  intros H. unfold shl_align. destruct (e' - e) as [|p|p] eqn:E; cbn [fst]; try lia.
  - replace (e - e') with 0 by lia. lia.
  - change (Pos.iter xO m p) with (shift_pos p m).
    rewrite shift_pos_correct. replace (e - e') with (Z.pos p) by lia.
    rewrite Z.pow_pos_fold. lia.
Qed.

Lemma bounded_inv m e :
  bounded prec emax m e = true ->
  -1074 <= e /\ e <= 971 /\ Z.pos (digits2_pos m) <= 53 /\
  (-1074 < e -> Z.pos (digits2_pos m) = 53).
Proof.
  unfold bounded, canonical_mantissa. rewrite fexp_eq.
  intros H. apply andb_prop in H as [H1 H2].
  apply Z.eqb_eq in H1. apply Z.leb_le in H2. unfold emax, prec in H2. lia.
Qed.

Lemma add_finite_spec mx ex my ey :
  bounded prec emax mx ex = true ->
  bounded prec emax my ey = true ->
  Z.pos (digits2_pos my) = 53 ->
  Z.pos mx * 2 ^ (ex + 1074) + Z.pos my * 2 ^ (ey + 1074) < 2 ^ 2097 ->
  exists m' e',
    SFadd prec emax (S754_finite false mx ex) (S754_finite false my ey)
      = S754_finite false m' e' /\
    bounded prec emax m' e' = true /\
    Z.pos m' * 2 ^ (e' + 1074) =
      rnd (Z.pos mx * 2 ^ (ex + 1074) + Z.pos my * 2 ^ (ey + 1074)).
Proof.
  intros Hx Hy Hdy Hov.
  apply bounded_inv in Hx as (Hx1 & Hx2 & Hx3 & Hx4).
  apply bounded_inv in Hy as (Hy1 & Hy2 & Hy3 & Hy4).
  unfold SFadd. cbn [cond_Zopp].
  set (ez := Z.min ex ey).
  pose proof (shl_align_value mx ex ez ltac:(lia)) as Hax.
  pose proof (shl_align_value my ey ez ltac:(lia)) as Hay.
  set (ax := fst (shl_align mx ex ez)) in *.
  set (ay := fst (shl_align my ey ez)) in *.
  change (Z.pos ax + Z.pos ay) with (Z.pos (ax + ay)).
  cbn [binary_normalize].
  assert (Hk : 0 <= ez + 1074) by lia.
  assert (Hpx : 0 < 2 ^ (ex - ez)) by (apply Z.pow_pos_nonneg; lia).
  assert (Hpy : 0 < 2 ^ (ey - ez)) by (apply Z.pow_pos_nonneg; lia).
  assert (Hpk : 0 < 2 ^ (ez + 1074)) by (apply Z.pow_pos_nonneg; lia).
  assert (HV : Z.pos (ax + ay) * 2 ^ (ez + 1074)
               = Z.pos mx * 2 ^ (ex + 1074) + Z.pos my * 2 ^ (ey + 1074)).
  { rewrite Pos2Z.inj_add, Hax, Hay.
    replace (ex + 1074) with ((ex - ez) + (ez + 1074)) by lia.
    replace (ey + 1074) with ((ey - ez) + (ez + 1074)) by lia.
    rewrite (Z.pow_add_r 2 (ex - ez) (ez + 1074)) by lia.
    rewrite (Z.pow_add_r 2 (ey - ez) (ez + 1074)) by lia. ring. }
  pose proof (digits2_bounds my) as [Hb1 _]. rewrite Hdy in Hb1.
  pose proof (digits2_bounds (ax + ay)) as [Hd1 Hd2].
  set (d := Z.pos (digits2_pos (ax + ay))) in *.
  assert (Hd : 53 <= d).
  { change (2 ^ (53 - 1)) with (2 ^ 52) in Hb1.
    assert (Z.pos my <= Z.pos ay) by (rewrite Hay; nia).
    assert (2 ^ 52 < 2 ^ d) by (rewrite Pos2Z.inj_add in Hd2; lia).
    assert (52 < d) by (apply (Z.pow_lt_mono_r_iff 2); lia). lia. }
  assert (Hov' : d + ez <= 1023).
  { assert (2 ^ (d - 1 + (ez + 1074)) < 2 ^ 2097).
    { rewrite Z.pow_add_r by lia. nia. }
    assert (d - 1 + (ez + 1074) < 2097) by (apply (Z.pow_lt_mono_r_iff 2); lia).
    lia. }
  destruct (binary_round_long (ax + ay) ez Hd ltac:(lia) Hov') as (m' & e' & H1 & H2 & H3).
  exists m', e'. split; [exact H1|]. split; [exact H2|].
  rewrite H3. fold d. rewrite <- HV. unfold rnd.
  rewrite Zdigits2_shift by lia. cbn [Zdigits2]. fold d.
  replace (Z.max (d + (ez + 1074) - 53) 0) with (d - 53 + (ez + 1074)) by lia.
  rewrite rne_shift by lia.
  replace (d - 53 + ez + 1074) with (d - 53 + (ez + 1074)) by lia. reflexivity.
Qed.

Lemma rne_mono n a b : 0 <= n -> 0 <= a <= b -> rne a n <= rne b n.
Proof.
  intros Hn Hab.
  assert (Hp : 0 < 2 ^ n) by (apply Z.pow_pos_nonneg; lia).
  pose proof (Z.div_le_mono a b (2 ^ n) Hp ltac:(lia)) as Hq.
  destruct (Z.eq_dec (a / 2 ^ n) (b / 2 ^ n)) as [E|E].
  - pose proof (Z.div_mod a (2 ^ n) ltac:(lia)) as Ha.
    pose proof (Z.div_mod b (2 ^ n) ltac:(lia)) as Hb.
    assert (Hr : a mod 2 ^ n <= b mod 2 ^ n) by nia.
    unfold rne. rewrite E.
    destruct (Z.ltb_spec (2 * (a mod 2 ^ n)) (2 ^ n)),
             (Z.ltb_spec (2 * (b mod 2 ^ n)) (2 ^ n));
      destruct (Z.ltb_spec (2 ^ n) (2 * (a mod 2 ^ n))),
               (Z.ltb_spec (2 ^ n) (2 * (b mod 2 ^ n)));
      destruct (Z.even (b / 2 ^ n)); lia.
  - pose proof (rne_bounds a n Hn ltac:(lia)).
    pose proof (rne_bounds b n Hn ltac:(lia)). lia.
Qed.

Lemma rne_zero N : rne N 0 = N.
Proof.
  unfold rne. change (2 ^ 0) with 1. rewrite Z.div_1_r, Z.mod_1_r. reflexivity.
Qed.

Lemma rnd_small N : Zdigits2 N <= 53 -> rnd N = N.
Proof.
  intros H. unfold rnd. replace (Z.max (Zdigits2 N - 53) 0) with 0 by lia.
  rewrite rne_zero. change (2 ^ 0) with 1. lia.
Qed.

Lemma rnd_bounds N :
  0 < N -> 2 ^ (Zdigits2 N - 1) <= rnd N <= 2 ^ Zdigits2 N.
Proof.
  intros HN. pose proof (Zdigits2_bounds N HN) as HB.
  destruct (Z_le_gt_dec (Zdigits2 N) 53) as [H|H].
  - rewrite rnd_small by assumption. lia.
  - destruct N as [|p|p]; try lia. cbn [Zdigits2] in *.
    pose proof (rne_long_bounds p ltac:(lia)) as Hr. cbn zeta in Hr.
    unfold rnd. cbn [Zdigits2].
    set (d := Z.pos (digits2_pos p)) in *.
    replace (Z.max (d - 53) 0) with (d - 53) by lia.
    assert (Hp : 0 < 2 ^ (d - 53)) by (apply Z.pow_pos_nonneg; lia).
    replace (d - 1) with (52 + (d - 53)) by lia.
    replace (2 ^ d) with (2 ^ (53 + (d - 53))) by (f_equal; lia).
    rewrite !Z.pow_add_r by lia. nia.
Qed.

Lemma Zdigits2_mono a b : 0 < a <= b -> Zdigits2 a <= Zdigits2 b.
Proof.
  intros H. pose proof (Zdigits2_bounds a ltac:(lia)) as [H1 _].
  pose proof (Zdigits2_bounds b ltac:(lia)) as [_ H2].
  pose proof (Zdigits2_pos b ltac:(lia)).
  assert (Zdigits2 a - 1 < Zdigits2 b) by (apply (Z.pow_lt_mono_r_iff 2); lia).
  lia.
Qed.

Lemma rnd_mono a b : 0 <= a <= b -> rnd a <= rnd b.
Proof.
  intros [Ha Hab]. destruct (Z.eq_dec a 0) as [->|Hne].
  - rewrite (rnd_small 0) by (cbn; lia).
    destruct (Z.eq_dec b 0) as [->|]; [rewrite rnd_small by (cbn; lia); lia|].
    pose proof (rnd_bounds b ltac:(lia)) as [H _].
    assert (0 <= 2 ^ (Zdigits2 b - 1)) by (apply Z.pow_nonneg; lia). lia.
  - pose proof (Zdigits2_mono a b ltac:(lia)) as Hd.
    destruct (Z.eq_dec (Z.max (Zdigits2 a - 53) 0) (Z.max (Zdigits2 b - 53) 0)) as [E|E].
    + unfold rnd. rewrite E. set (n := Z.max (Zdigits2 b - 53) 0).
      assert (0 < 2 ^ n) by (apply Z.pow_pos_nonneg; lia).
      pose proof (rne_mono n a b ltac:(lia) ltac:(lia)). nia.
    + pose proof (rnd_bounds a ltac:(lia)) as [_ H1].
      pose proof (rnd_bounds b ltac:(lia)) as [H2 _].
      pose proof (Zdigits2_pos a ltac:(lia)).
      assert (2 ^ Zdigits2 a <= 2 ^ (Zdigits2 b - 1)) by (apply Z.pow_le_mono_r; lia).
      lia.
Qed.

Lemma toZ_finite_pos m e : 0 < Z.pos m * 2 ^ (e + 1074) \/ e + 1074 < 0.
Proof.
  destruct (Z_lt_ge_dec (e + 1074) 0); [right; assumption|left].
  assert (0 < 2 ^ (e + 1074)) by (apply Z.pow_pos_nonneg; lia). lia.
Qed.

Lemma rnd_toZ x : nonneg_finite x = true -> rnd (toZ x) = toZ x.
Proof.
  destruct x as [s|s| |[|] m e]; cbn [nonneg_finite toZ]; try discriminate;
    try (intros _; apply rnd_small; cbn; lia).
  intros H. apply bounded_inv in H as (H1 & H2 & H3 & H4).
  unfold rnd. rewrite Zdigits2_shift by lia. cbn [Zdigits2].
  replace (Z.max (Z.pos (digits2_pos m) + (e + 1074) - 53) 0) with (0 + (e + 1074)) by lia.
  rewrite rne_shift by lia. rewrite rne_zero. reflexivity.
Qed.

Lemma compare_toZ x y :
  nonneg_finite x = true -> nonneg_finite y = true ->
  SFcompare x y = Some (toZ x ?= toZ y).
Proof.
  destruct x as [sx|sx| |[|] mx ex], y as [sy|sy| |[|] my ey];
    cbn [nonneg_finite toZ SFcompare]; try discriminate; intros Hx Hy.
  - reflexivity.
  - apply bounded_inv in Hy as (? & _).
    assert (0 < 2 ^ (ey + 1074)) by (apply Z.pow_pos_nonneg; lia).
    f_equal. symmetry. apply Z.compare_lt_iff. lia.
  - apply bounded_inv in Hx as (? & _).
    assert (0 < 2 ^ (ex + 1074)) by (apply Z.pow_pos_nonneg; lia).
    f_equal. symmetry. apply Z.compare_gt_iff. lia.
  - apply bounded_inv in Hx as (Hx1 & Hx2 & Hx3 & Hx4).
    apply bounded_inv in Hy as (Hy1 & Hy2 & Hy3 & Hy4).
    pose proof (digits2_bounds mx) as [Bx1 Bx2].
    pose proof (digits2_bounds my) as [By1 By2].
    assert (Px : 0 < 2 ^ (ex + 1074)) by (apply Z.pow_pos_nonneg; lia).
    assert (Py : 0 < 2 ^ (ey + 1074)) by (apply Z.pow_pos_nonneg; lia).
    f_equal. destruct (Z.compare_spec ex ey) as [E|E|E].
    + subst ey. rewrite <- Zmult_compare_compat_r by lia. reflexivity.
    + symmetry. apply Z.compare_lt_iff.
      rewrite Hy4 in By1 by lia. change (2 ^ (53 - 1)) with (2 ^ 52) in By1.
      assert (Z.pos mx < 2 ^ 53).
      { apply Z.lt_le_trans with (1 := Bx2). apply Z.pow_le_mono_r; lia. }
      replace (ey + 1074) with ((ey - ex - 1) + 1 + (ex + 1074)) by lia.
      rewrite (Z.pow_add_r 2 (ey - ex - 1 + 1)), (Z.pow_add_r 2 (ey - ex - 1)) by lia.
      change (2 ^ 1) with 2.
      assert (1 <= 2 ^ (ey - ex - 1)) by (assert (0 < 2 ^ (ey - ex - 1)) by (apply Z.pow_pos_nonneg; lia); lia).
      set (P := 2 ^ (ex + 1074)) in *. set (A := 2 ^ (ey - ex - 1)) in *.
      assert (Z.pos mx * P < 2 ^ 53 * P) by (apply Z.mul_lt_mono_pos_r; lia).
      assert (2 ^ 53 * P <= Z.pos my * 2 * P) by (apply Z.mul_le_mono_nonneg_r; lia).
      assert (Z.pos my * 2 * P <= Z.pos my * (A * 2) * P).
      { apply Z.mul_le_mono_nonneg_r; [lia|]. apply Z.mul_le_mono_nonneg_l; lia. }
      lia.
    + symmetry. apply Z.compare_gt_iff.
      rewrite Hx4 in Bx1 by lia. change (2 ^ (53 - 1)) with (2 ^ 52) in Bx1.
      assert (Z.pos my < 2 ^ 53).
      { apply Z.lt_le_trans with (1 := By2). apply Z.pow_le_mono_r; lia. }
      replace (ex + 1074) with ((ex - ey - 1) + 1 + (ey + 1074)) by lia.
      rewrite (Z.pow_add_r 2 (ex - ey - 1 + 1)), (Z.pow_add_r 2 (ex - ey - 1)) by lia.
      change (2 ^ 1) with 2.
      assert (1 <= 2 ^ (ex - ey - 1)) by (assert (0 < 2 ^ (ex - ey - 1)) by (apply Z.pow_pos_nonneg; lia); lia).
      set (P := 2 ^ (ey + 1074)) in *. set (A := 2 ^ (ex - ey - 1)) in *.
      assert (Z.pos my * P < 2 ^ 53 * P) by (apply Z.mul_lt_mono_pos_r; lia).
      assert (2 ^ 53 * P <= Z.pos mx * 2 * P) by (apply Z.mul_le_mono_nonneg_r; lia).
      assert (Z.pos mx * 2 * P <= Z.pos mx * (A * 2) * P).
      { apply Z.mul_le_mono_nonneg_r; [lia|]. apply Z.mul_le_mono_nonneg_l; lia. }
      lia.
Qed.

End Binary64Facts.

(** ** Python floats in the unit interval *)

Module PyFacts.
Import Binary64 Binary64Facts Scoring.
Local Open Scope Z_scope.

Lemma le_toZ x y :
  nonneg_finite x = true -> nonneg_finite y = true ->
  Py.le x y = true <-> toZ x <= toZ y.
Proof.
  intros Hx Hy. unfold Py.le, SFleb. rewrite (compare_toZ x y Hx Hy).
  destruct (Z.compare_spec (toZ x) (toZ y)); split; intros; try lia; try discriminate; reflexivity.
Qed.

Lemma lt_toZ x y :
  nonneg_finite x = true -> nonneg_finite y = true ->
  Py.lt x y = true <-> toZ x < toZ y.
Proof.
  intros Hx Hy. unfold Py.lt, SFltb. rewrite (compare_toZ x y Hx Hy).
  destruct (Z.compare_spec (toZ x) (toZ y)); split; intros; try lia; try discriminate; reflexivity.
Qed.

Lemma in_unit_spec x :
  Py.in_unit x = true <-> nonneg_finite x = true /\ toZ x <= 2 ^ 1074.
Proof.
  unfold Py.in_unit, Py.valid. split.
  - intros H. apply andb_prop in H as [H H3]. apply andb_prop in H as [H1 H2].
    assert (Hn : nonneg_finite x = true).
    { destruct x as [s|[|]| |[|] m e]; try discriminate; try reflexivity. exact H1. }
    split; [exact Hn|].
    apply (le_toZ x Py.f1_0 Hn eq_refl) in H3. exact H3.
  - intros [Hn Hle]. apply andb_true_intro. split; [apply andb_true_intro; split|].
    + destruct x as [s|[|]| |[|] m e]; try discriminate; try reflexivity. exact Hn.
    + apply (le_toZ Py.f0_0 x eq_refl Hn). 
      destruct x as [s|[|]| |[|] m e]; try discriminate; cbn [toZ]; try lia.
      apply bounded_inv in Hn as (? & _).
      assert (0 < 2 ^ (e + 1074)) by (apply Z.pow_pos_nonneg; lia). cbn [Py.f0_0 toZ]. lia.
    + apply (le_toZ x Py.f1_0 Hn eq_refl). exact Hle.
Qed.

Lemma toZ_nonneg x : 0 <= toZ x.
Proof.
  destruct x as [s|s| |[|] m e]; cbn [toZ]; lia.
Qed.

Lemma add_spec x m e :
  nonneg_finite x = true -> toZ x <= 2 ^ 1074 ->
  bounded prec emax m e = true -> Z.pos (digits2_pos m) = 53 ->
  Z.pos m * 2 ^ (e + 1074) <= 2 ^ 1074 ->
  nonneg_finite (Py.add x (S754_finite false m e)) = true /\
  toZ (Py.add x (S754_finite false m e)) = rnd (toZ x + Z.pos m * 2 ^ (e + 1074)).
Proof.
  intros Hx Hx1 Hc Hd Hc1. unfold Py.add.
  destruct x as [s|s| |[|] mx ex]; try discriminate.
  - cbn [SFadd toZ nonneg_finite]. split; [exact Hc|].
    rewrite Z.add_0_l. symmetry. apply (rnd_toZ (S754_finite false m e)). exact Hc.
  - cbn [nonneg_finite toZ] in *.
    destruct (add_finite_spec mx ex m e Hx Hc Hd) as (m' & e' & H1 & H2 & H3).
    { assert (2 ^ 1074 + 2 ^ 1074 < 2 ^ 2097).
      { replace (2 ^ 1074 + 2 ^ 1074) with (2 ^ 1075) by (change 1075 with (1074 + 1); rewrite Z.pow_add_r by lia; lia).
        apply Z.pow_lt_mono_r; lia. }
      lia. }
    rewrite H1. cbn [nonneg_finite toZ]. split; [exact H2|exact H3].
Qed.

Lemma min_spec a b :
  nonneg_finite a = true -> nonneg_finite b = true ->
  nonneg_finite (Py.min a b) = true /\ toZ (Py.min a b) = Z.min (toZ a) (toZ b).
Proof.
  intros Ha Hb. unfold Py.min.
  destruct (Py.lt b a) eqn:E.
  - apply (lt_toZ b a Hb Ha) in E. split; [exact Hb|lia].
  - assert (~ toZ b < toZ a) by (intros H; apply (lt_toZ b a Hb Ha) in H; congruence).
    split; [exact Ha|lia].
Qed.

Lemma max_spec a b :
  nonneg_finite a = true -> nonneg_finite b = true ->
  nonneg_finite (Py.max a b) = true /\ toZ (Py.max a b) = Z.max (toZ a) (toZ b).
Proof.
  intros Ha Hb. unfold Py.max, Py.gt. fold (Py.lt a b).
  destruct (Py.lt a b) eqn:E.
  - apply (lt_toZ a b Ha Hb) in E. split; [exact Hb|lia].
  - assert (~ toZ a < toZ b) by (intros H; apply (lt_toZ a b Ha Hb) in H; congruence).
    split; [exact Ha|lia].
Qed.



Lemma delta_0_1 : delta Py.f0_1.
Proof.
  eexists _, _. split; [reflexivity|]. split; [reflexivity|]. split; [reflexivity|].
  apply (in_unit_spec Py.f0_1). reflexivity.
Qed.

Lemma delta_0_15 : delta Py.f0_15.
Proof.
  eexists _, _. split; [reflexivity|]. split; [reflexivity|]. split; [reflexivity|].
  apply (in_unit_spec Py.f0_15). reflexivity.
Qed.

Lemma delta_0_2 : delta Py.f0_2.
Proof.
  eexists _, _. split; [reflexivity|]. split; [reflexivity|]. split; [reflexivity|].
  apply (in_unit_spec Py.f0_2). reflexivity.
Qed.



Lemma bump_toZ c x :
  delta c -> Py.in_unit x = true ->
  nonneg_finite (bump c x) = true /\
  toZ (bump c x) = Z.min (rnd (toZ x + toZ c)) (2 ^ 1074).
Proof.
  intros (m & e & -> & Hc & Hd & Hc1) Hx. apply in_unit_spec in Hx as [Hx Hx1].
  destruct (add_spec x m e Hx Hx1 Hc Hd Hc1) as [Ha Hv].
  destruct (min_spec (Py.add x (S754_finite false m e)) Py.f1_0 Ha eq_refl) as [Hm Hw].
  unfold bump. split; [exact Hm|]. rewrite Hw, Hv. reflexivity.
Qed.

Lemma bump_unit c x : delta c -> Py.in_unit x = true -> Py.in_unit (bump c x) = true.
Proof.
  intros Hc Hx. destruct (bump_toZ c x Hc Hx) as [H1 H2].
  apply in_unit_spec. split; [exact H1|]. rewrite H2. lia.
Qed.

Lemma bump_mono c x y :
  delta c -> Py.in_unit x = true -> Py.in_unit y = true ->
  Py.le x y = true -> Py.le (bump c x) (bump c y) = true.
Proof.
  intros Hc Hx Hy Hle.
  destruct (bump_toZ c x Hc Hx) as [Hx1 Hx2].
  destruct (bump_toZ c y Hc Hy) as [Hy1 Hy2].
  apply in_unit_spec in Hx as [Hx _]. apply in_unit_spec in Hy as [Hy _].
  apply (le_toZ x y Hx Hy) in Hle.
  apply (le_toZ _ _ Hx1 Hy1). rewrite Hx2, Hy2.
  pose proof (toZ_nonneg x). pose proof (toZ_nonneg c).
  pose proof (rnd_mono (toZ x + toZ c) (toZ y + toZ c) ltac:(lia)). lia.
Qed.

Lemma bump_incr c x :
  delta c -> Py.in_unit x = true -> Py.le x (bump c x) = true.
Proof.
  intros Hc Hx. destruct (bump_toZ c x Hc Hx) as [Hx1 Hx2].
  apply in_unit_spec in Hx as [Hx Hu].
  apply (le_toZ _ _ Hx Hx1). rewrite Hx2.
  pose proof (toZ_nonneg x). pose proof (toZ_nonneg c).
  pose proof (rnd_mono (toZ x) (toZ x + toZ c) ltac:(lia)) as H1.
  rewrite (rnd_toZ x Hx) in H1. lia.
Qed.

Lemma max_unit c x :
  Py.in_unit c = true -> Py.in_unit x = true -> Py.in_unit (Py.max x c) = true.
Proof.
  intros Hc Hx. apply in_unit_spec in Hc as [Hc Hc1]. apply in_unit_spec in Hx as [Hx Hx1].
  destruct (max_spec x c Hx Hc) as [H1 H2].
  apply in_unit_spec. split; [exact H1|]. rewrite H2. lia.
Qed.

Lemma max_mono c x y :
  Py.in_unit c = true -> Py.in_unit x = true -> Py.in_unit y = true ->
  Py.le x y = true -> Py.le (Py.max x c) (Py.max y c) = true.
Proof.
  intros Hc Hx Hy Hle.
  apply in_unit_spec in Hc as [Hc _]. apply in_unit_spec in Hx as [Hx _].
  apply in_unit_spec in Hy as [Hy _].
  destruct (max_spec x c Hx Hc) as [H1 H2]. destruct (max_spec y c Hy Hc) as [H3 H4].
  apply (le_toZ x y Hx Hy) in Hle.
  apply (le_toZ _ _ H1 H3). rewrite H2, H4. lia.
Qed.

Lemma le_refl_unit x : Py.in_unit x = true -> Py.le x x = true.
Proof.
  intros Hx. apply in_unit_spec in Hx as [Hx _]. apply (le_toZ x x Hx Hx). lia.
Qed.

End PyFacts.

(** ** The severity classifier *)

Module ClassifierFacts.
Import Binary64 Binary64Facts PyFacts Classifiers Scoring.

Ltac stage s l H :=
  match goal with
  | |- context [match ?P with _ => _ end] =>
      lazymatch type of P with
      | prod _ _ => destruct P as [s l] eqn:H
      end
  end.

Lemma classify_report_score abuse_type s snippet trigger_rules :
  (classify_report abuse_type s snippet trigger_rules).1.1
  = score_of abuse_type s snippet trigger_rules /\
  (classify_report abuse_type s snippet trigger_rules).2
  = bucket_of (score_of abuse_type s snippet trigger_rules).
Proof.
  unfold classify_report, score_of, pattern_steps.
  stage s1 l1 E1.
  assert (s1 = type_adjust abuse_type s) as <-
    by (destruct abuse_type; inversion E1; reflexivity).
  clear E1. stage s2 l2 E2.
  assert (s2 = when (multi_trigger trigger_rules) (bump Py.f0_1) s1) as <-.
  { destruct trigger_rules as [[|r rules]|]; cbn [multi_trigger when] in *;
      try destruct (3 <=? length (r :: rules)); inversion E2; reflexivity. }
  clear E2. stage s3 l3 E3.
  assert (s3 = when (2 <=? _count_pattern_matches snippet SEVERE_HARASSMENT_PATTERNS)
                 (bump Py.f0_15) s2) as <-.
  { unfold when. destruct (2 <=? _); [|destruct (1 <=? _)]; inversion E3; reflexivity. }
  clear E3. stage s4 l4 E4.
  assert (s4 = when (1 <=? _count_pattern_matches snippet SELF_HARM_PATTERNS)
                 (fun x => Py.max x Py.f0_8) s3) as <-.
  { unfold when. destruct (1 <=? _); inversion E4; reflexivity. }
  clear E4. stage s5 l5 E5.
  assert (s5 = when (2 <=? _count_pattern_matches snippet JAILBREAK_PATTERNS)
                 (bump Py.f0_15) s4) as <-.
  { unfold when. destruct (2 <=? _); [|destruct (1 <=? _)]; inversion E5; reflexivity. }
  clear E5. stage s6 l6 E6.
  assert (s6 = when (1 <=? _count_pattern_matches snippet IDENTITY_VIOLATION_PATTERNS)
                 (bump Py.f0_1) s5) as <-.
  { unfold when. destruct (1 <=? _); inversion E6; reflexivity. }
  clear E6. unfold bucket_of.
  destruct (Py.ge s6 Py.f0_7); [|destruct (Py.ge s6 Py.f0_4)]; split; reflexivity.
Qed.

Lemma in_unit_0_7 : Py.in_unit Py.f0_7 = true.
Proof. reflexivity. Qed.

Lemma in_unit_0_8 : Py.in_unit Py.f0_8 = true.
Proof. reflexivity. Qed.

Lemma when_unit c f x :
  (forall y, Py.in_unit y = true -> Py.in_unit (f y) = true) ->
  Py.in_unit x = true -> Py.in_unit (when c f x) = true.
Proof. intros Hf Hx. destruct c; cbn [when]; auto. Qed.

Lemma when_mono c f x y :
  (forall a b, Py.in_unit a = true -> Py.in_unit b = true ->
               Py.le a b = true -> Py.le (f a) (f b) = true) ->
  Py.in_unit x = true -> Py.in_unit y = true ->
  Py.le x y = true -> Py.le (when c f x) (when c f y) = true.
Proof. intros Hf Hx Hy Hle. destruct c; cbn [when]; auto. Qed.

Lemma type_adjust_unit abuse_type s :
  Py.in_unit s = true -> Py.in_unit (type_adjust abuse_type s) = true.
Proof.
  intros Hs. destruct abuse_type; cbn [type_adjust];
    auto using bump_unit, max_unit, delta_0_1, delta_0_15, in_unit_0_7.
Qed.

Lemma pattern_steps_unit snippet s :
  Py.in_unit s = true -> Py.in_unit (pattern_steps snippet s) = true.
Proof.
  intros Hs. unfold pattern_steps.
  repeat (apply when_unit;
          [intros; first [apply bump_unit; [apply delta_0_1 || apply delta_0_15|assumption]
                         |apply max_unit; [apply in_unit_0_8|assumption]]|]).
  exact Hs.
Qed.

Lemma pattern_steps_mono snippet x y :
  Py.in_unit x = true -> Py.in_unit y = true -> Py.le x y = true ->
  Py.le (pattern_steps snippet x) (pattern_steps snippet y) = true.
Proof.
  intros Hx Hy Hle. unfold pattern_steps.
  repeat (apply when_mono;
          [intros; first [apply bump_mono; [apply delta_0_1 || apply delta_0_15|assumption..]
                         |apply max_mono; [apply in_unit_0_8|assumption..]]
          |repeat (apply when_unit;
             [intros; first [apply bump_unit; [apply delta_0_1 || apply delta_0_15|assumption]
                            |apply max_unit; [apply in_unit_0_8|assumption]]|]); assumption..
          |]).
  exact Hle.
Qed.

Lemma score_of_unit abuse_type s snippet trigger_rules :
  Py.in_unit s = true -> Py.in_unit (score_of abuse_type s snippet trigger_rules) = true.
Proof.
  intros Hs. unfold score_of. apply pattern_steps_unit, when_unit.
  - intros. apply bump_unit; [apply delta_0_1|assumption].
  - apply type_adjust_unit, Hs.
Qed.

Lemma bucket_of_spec s :
  Py.in_unit s = true ->
  (bucket_of s = HIGH <-> Py.ge s Py.f0_7 = true) /\
  (bucket_of s = MEDIUM <-> Py.ge s Py.f0_4 = true /\ Py.lt s Py.f0_7 = true) /\
  (bucket_of s = LOW <-> Py.lt s Py.f0_4 = true).
Proof.
  intros Hs. apply in_unit_spec in Hs as [Hs _].
  pose proof (le_toZ Py.f0_7 s eq_refl Hs) as H7.
  pose proof (le_toZ Py.f0_4 s eq_refl Hs) as H4.
  pose proof (lt_toZ s Py.f0_7 Hs eq_refl) as L7.
  pose proof (lt_toZ s Py.f0_4 Hs eq_refl) as L4.
  pose proof (proj1 (lt_toZ Py.f0_4 Py.f0_7 eq_refl eq_refl) eq_refl) as H47.
  unfold bucket_of, Py.ge. fold (Py.le Py.f0_7 s). fold (Py.le Py.f0_4 s).
  destruct (Py.le Py.f0_7 s) eqn:E7; [|destruct (Py.le Py.f0_4 s) eqn:E4].
  - assert (toZ Py.f0_7 <= toZ s)%Z by (apply H7; reflexivity).
    split; [split; reflexivity|]. split; split.
    + discriminate.
    + intros [_ N]. apply L7 in N. lia.
    + discriminate.
    + intros N. apply L4 in N. lia.
  - assert (~ (toZ Py.f0_7 <= toZ s)%Z) by (intros N; apply H7 in N; discriminate).
    assert (toZ Py.f0_4 <= toZ s)%Z by (apply H4; reflexivity).
    split; [split; discriminate|]. split; split.
    + intros _. split; [reflexivity|apply L7; lia].
    + reflexivity.
    + discriminate.
    + intros N. apply L4 in N. lia.
  - assert (~ (toZ Py.f0_4 <= toZ s)%Z) by (intros N; apply H4 in N; discriminate).
    split; [split; discriminate|]. split; split.
    + discriminate.
    + intros [N _]. discriminate.
    + intros _. apply L4. lia.
    + reflexivity.
Qed.

(** C1: for every abuse type, every caller score that is a binary64
    number of the closed unit interval, every snippet and every trigger-rule
    list (absent or not), the final score of [classify_report] is again a
    binary64 number of the closed unit interval, and the bucket is the
    threshold function of that score: HIGH exactly when the score is at
    least 0.7, MEDIUM exactly when it is at least 0.4 and below 0.7, LOW
    exactly when it is below 0.4. *)
Theorem classify_report_score_and_bucket abuse_type severity_score snippet trigger_rules :
  Py.in_unit severity_score = true ->
  let '(final_score, labels, bucket) :=
    classify_report abuse_type severity_score snippet trigger_rules in
  Py.in_unit final_score = true /\
  (bucket = HIGH <-> Py.ge final_score Py.f0_7 = true) /\
  (bucket = MEDIUM <-> Py.ge final_score Py.f0_4 = true /\ Py.lt final_score Py.f0_7 = true) /\
  (bucket = LOW <-> Py.lt final_score Py.f0_4 = true).
Proof.
  intros Hs.
  destruct (classify_report_score abuse_type severity_score snippet trigger_rules) as [H1 H2].
  destruct (classify_report abuse_type severity_score snippet trigger_rules) as [[fs lb] b].
  cbn [fst snd] in H1, H2. subst fs b.
  pose proof (score_of_unit abuse_type severity_score snippet trigger_rules Hs) as Hu.
  split; [exact Hu|]. apply bucket_of_spec, Hu.
Qed.

(** A jailbreak report of caller score 0.5 with three trigger rules. *)
Lemma classify_report_score_and_bucket_witness :
  Py.in_unit Py.f0_5 = true /\
  Py.in_unit (classify_report JAILBREAK_PRESSURE Py.f0_5 "ignore your instructions"
                (Some ["rule-a"; "rule-b"; "rule-c"])).1.1 = true.
Proof.
  split; [reflexivity|].
  pose proof (classify_report_score_and_bucket JAILBREAK_PRESSURE Py.f0_5
                "ignore your instructions" (Some ["rule-a"; "rule-b"; "rule-c"]) eq_refl) as H.
  destruct (classify_report JAILBREAK_PRESSURE Py.f0_5 "ignore your instructions"
              (Some ["rule-a"; "rule-b"; "rule-c"])) as [[final_score labels] bucket].
  exact (proj1 H).
Defined.



Lemma multi_trigger_length trigger_rules :
  multi_trigger trigger_rules = (3 <=? length (rules_of trigger_rules)).
Proof. destruct trigger_rules as [[|r rules]|]; reflexivity. Qed.

(** C9: for every abuse type, every caller score of the unit interval
    and every snippet, if the trigger rules of the second report are those
    of the first and possibly more (the first list is a sub-multiset of the
    second; an absent list counts as empty), then the final score of
    [classify_report] for the second is greater than or equal to the one
    for the first. *)
Theorem classify_report_more_trigger_rules abuse_type severity_score snippet
    (fewer more : option (list string)) :
  Py.in_unit severity_score = true ->
  rules_of fewer ⊆+ rules_of more ->
  Py.le (classify_report abuse_type severity_score snippet fewer).1.1
        (classify_report abuse_type severity_score snippet more).1.1 = true.
Proof.
  intros Hs Hsub.
  rewrite (proj1 (classify_report_score abuse_type severity_score snippet fewer)).
  rewrite (proj1 (classify_report_score abuse_type severity_score snippet more)).
  unfold score_of. rewrite !multi_trigger_length.
  apply submseteq_length in Hsub.
  pose proof (type_adjust_unit abuse_type severity_score Hs) as Hu.
  set (s1 := type_adjust abuse_type severity_score) in *.
  assert (Hb : Py.in_unit (bump Py.f0_1 s1) = true) by (apply bump_unit; [apply delta_0_1|exact Hu]).
  apply pattern_steps_mono.
  - apply when_unit; [intros; apply bump_unit; [apply delta_0_1|assumption]|exact Hu].
  - apply when_unit; [intros; apply bump_unit; [apply delta_0_1|assumption]|exact Hu].
  - destruct (Nat.leb_spec 3 (length (rules_of fewer))) as [H1|H1];
      destruct (Nat.leb_spec 3 (length (rules_of more))) as [H2|H2]; cbn [when].
    + apply le_refl_unit, Hb.
    + lia.
    + apply bump_incr; [apply delta_0_1|exact Hu].
    + apply le_refl_unit, Hu.
Qed.

(** One trigger rule against the same rule and two more. *)
Lemma classify_report_more_trigger_rules_witness :
  rules_of (Some ["rule-a"]) ⊆+ rules_of (Some ["rule-a"; "rule-b"; "rule-c"]) /\
  Py.le (classify_report COERCION Py.f0_5 "" (Some ["rule-a"])).1.1
        (classify_report COERCION Py.f0_5 ""
           (Some ["rule-a"; "rule-b"; "rule-c"])).1.1 = true.
Proof.
  assert (H : rules_of (Some ["rule-a"]) ⊆+ rules_of (Some ["rule-a"; "rule-b"; "rule-c"]))
    by (apply submseteq_skip, submseteq_nil_l).
  split; [exact H|].
  exact (classify_report_more_trigger_rules COERCION Py.f0_5 ""
           (Some ["rule-a"]) (Some ["rule-a"; "rule-b"; "rule-c"]) eq_refl H).
Defined.

(** C8: [classify_report] on abuse type SELF_HARM_INDUCTION, caller score
    0.3, snippet "you should kill yourself" and no trigger rules returns a
    final score of at least 0.8, labels that contain SELF_HARM_CONTENT (the
    self-harm-content marker) and SELF_HARM_INDICATORS (the
    self-harm-pattern marker), and the bucket HIGH. *)
Theorem self_harm_scenario :
  let '(final_score, labels, bucket) :=
    classify_report SELF_HARM_INDUCTION Scenarios.f0_3 "you should kill yourself" None in
  Py.ge final_score Py.f0_8 = true /\
  "SELF_HARM_CONTENT" ∈ labels /\
  "SELF_HARM_INDICATORS" ∈ labels /\
  bucket = HIGH.
Proof.
  assert (E : classify_report SELF_HARM_INDUCTION Scenarios.f0_3 "you should kill yourself" None
              = (Py.f0_8, ["SELF_HARM_CONTENT"; "HARASSMENT_INDICATORS";
                           "SELF_HARM_INDICATORS"; "HIGH_RISK_CATEGORY"], HIGH))
    by (vm_compute; reflexivity).
  rewrite E. split; [reflexivity|]. split; [apply list_elem_of_here|].
  split; [do 2 apply list_elem_of_further; apply list_elem_of_here|reflexivity].
Qed.

End ClassifierFacts.

(** ** Comparisons of binary64 numbers *)

Module OrderFacts.
Import Binary64.

Lemma float_le_not_nan a b : Py.le a b = true -> is_nan a = false /\ is_nan b = false.
Proof. destruct a, b; cbn; intros; try discriminate; auto. Qed.

Lemma compare_cont_Eq m1 m2 : Pos.compare_cont Eq m1 m2 = (m1 ?= m2)%positive.
Proof. reflexivity. Qed.

Ltac cmp_cases :=
  repeat match goal with
  | H : context [Pos.compare_cont Eq ?a ?b] |- _ => rewrite (compare_cont_Eq a b) in H
  | |- context [Pos.compare_cont Eq ?a ?b] => rewrite (compare_cont_Eq a b)
  | H : context [(?a ?= ?b)%Z] |- _ => destruct (Z.compare_spec a b)
  | |- context [(?a ?= ?b)%Z] => destruct (Z.compare_spec a b)
  | H : context [(?a ?= ?b)%positive] |- _ => destruct (Pos.compare_spec a b)
  | |- context [(?a ?= ?b)%positive] => destruct (Pos.compare_spec a b)
  end.

Lemma float_lt_false_ge a b :
  is_nan a = false -> is_nan b = false -> Py.lt a b = false -> Py.le b a = true.
Proof.
  unfold Py.lt, Py.le, SFltb, SFleb.
  destruct a as [[|]|[|]| |[|] m1 e1], b as [[|]|[|]| |[|] m2 e2];
    cbn; intros; try discriminate; try reflexivity; cmp_cases; cbn in *;
    try discriminate; try reflexivity; try lia.
Qed.

Lemma float_lt_le a b : Py.lt a b = true -> Py.le a b = true.
Proof.
  unfold Py.lt, Py.le, SFltb, SFleb.
  destruct (SFcompare a b) as [[| |]|]; intros; try discriminate; reflexivity.
Qed.

Lemma float_le_trans a b c : Py.le a b = true -> Py.le b c = true -> Py.le a c = true.
Proof.
  unfold Py.le, SFleb.
  destruct a as [[|]|[|]| |[|] m1 e1], b as [[|]|[|]| |[|] m2 e2], c as [[|]|[|]| |[|] m3 e3];
    cbn; intros; try discriminate; try reflexivity; cmp_cases; cbn in *;
    try discriminate; try reflexivity; try lia.
Qed.

Lemma float_le_refl a : is_nan a = false -> Py.le a a = true.
Proof.
  unfold Py.le, SFleb.
  destruct a as [[|]|[|]| |[|] m1 e1]; cbn; intros; try discriminate; try reflexivity;
    rewrite Z.compare_refl, ?compare_cont_Eq, Pos.compare_refl; reflexivity.
Qed.

End OrderFacts.

(** ** The template resolver *)

Module ResponsesFacts.
Import Binary64 OrderFacts Db Responses.
Local Open Scope string_scope.

Lemma abuse_type_is_applies value score t :
  abuse_type_is value t && in_range score t = true <-> applies (Some value) score t.
Proof.
  unfold abuse_type_is, in_range, applies, Py.ge.
  rewrite !andb_true_iff. destruct (template_abuse_type t) as [a|].
  - rewrite String.eqb_eq. split; [intros [-> H]; auto|intros [[= ->] H]; auto].
  - split; [intros [[=] _]|intros [[=] _]].
Qed.

Lemma abuse_type_is_null_applies score t :
  abuse_type_is_null t && in_range score t = true <-> applies None score t.
Proof.
  unfold abuse_type_is_null, in_range, applies, Py.ge.
  rewrite !andb_true_iff. destruct (template_abuse_type t) as [a|].
  - split; [intros [[=] _]|intros [[=] _]].
  - split; [intros [_ H]; auto|intros [_ H]; auto].
Qed.

(** The fold keeps a row of the accumulator or of the list whose
    [min_severity] is greatest. *)
Lemma foldl_pick_spec rows : forall acc,
  (forall t, t ∈ rows -> is_nan (min_severity t) = false) ->
  (forall b, acc = Some b -> is_nan (min_severity b) = false) ->
  match foldl pick acc rows with
  | None => acc = None /\ rows = []
  | Some b =>
      (acc = Some b \/ b ∈ rows) /\
      (forall t, acc = Some t \/ t ∈ rows -> Py.le (min_severity t) (min_severity b) = true)
  end.
Proof.
  induction rows as [|r rows IH]; intros acc Hrows Hacc; cbn [foldl].
  - destruct acc as [b|]; [|auto]. split; [auto|].
    intros t [[= ->]|H]; [apply float_le_refl; auto|inversion H].
  - assert (Hr : is_nan (min_severity r) = false) by (apply Hrows; left).
    assert (Hrows' : forall t, t ∈ rows -> is_nan (min_severity t) = false)
      by (intros; apply Hrows; right; assumption).
    specialize (IH (pick acc r) Hrows').
    destruct acc as [b|]; cbn [pick] in *.
    + assert (Hb : is_nan (min_severity b) = false) by (apply Hacc; reflexivity).
      destruct (Py.lt (min_severity b) (min_severity r)) eqn:E.
      * specialize (IH ltac:(intros ? [= <-]; assumption)).
        destruct (foldl pick (Some r) rows) as [c|]; [|destruct IH; discriminate].
        destruct IH as [IH1 IH2]. split.
        -- right. destruct IH1 as [[= <-]|H]; [left|right; assumption].
        -- intros t [[= <-]|H].
           ++ apply float_le_trans with (min_severity r);
                [apply float_lt_le, E|apply IH2; left; reflexivity].
           ++ apply elem_of_cons in H as [->|H]; apply IH2; [left; reflexivity|right; assumption].
      * specialize (IH ltac:(intros ? [= <-]; assumption)).
        destruct (foldl pick (Some b) rows) as [c|]; [|destruct IH; discriminate].
        destruct IH as [IH1 IH2]. split.
        -- destruct IH1 as [[= <-]|H]; [left; reflexivity|right; right; assumption].
        -- intros t [[= <-]|H]; [apply IH2; left; reflexivity|].
           apply elem_of_cons in H as [->|H]; [|apply IH2; right; assumption].
           apply float_le_trans with (min_severity b); [|apply IH2; left; reflexivity].
           apply float_lt_false_ge; assumption.
    + specialize (IH ltac:(intros ? [= <-]; assumption)).
      destruct (foldl pick (Some r) rows) as [c|]; [|destruct IH; discriminate].
      destruct IH as [IH1 IH2]. split.
      * right. destruct IH1 as [[= <-]|H]; [left|right; assumption].
      * intros t [[=]|H].
        apply elem_of_cons in H as [->|H]; apply IH2; [left; reflexivity|right; assumption].
Qed.

Lemma order_by_spec (P : ResponseTemplate -> bool) score rows :
  (forall t, P t = true -> Py.le (min_severity t) score = true) ->
  match order_by_min_severity_desc_limit_1 (List.filter P rows) with
  | None => forall t, t ∈ rows -> P t = false
  | Some b =>
      b ∈ rows /\ P b = true /\
      forall t, t ∈ rows -> P t = true -> Py.le (min_severity t) (min_severity b) = true
  end.
Proof.
  intros HP.
  assert (Hf : forall t, t ∈ List.filter P rows <-> t ∈ rows /\ P t = true).
  { intros t. rewrite !list_elem_of_In, filter_In. reflexivity. }
  pose proof (foldl_pick_spec (List.filter P rows) None) as H.
  change (foldl pick None (List.filter P rows))
    with (order_by_min_severity_desc_limit_1 (List.filter P rows)) in H.
  specialize (H ltac:(intros t Ht; apply Hf in Ht as [_ Ht]; apply HP in Ht;
                        apply float_le_not_nan in Ht as [Ht _]; exact Ht)
                ltac:(discriminate)).
  destruct (order_by_min_severity_desc_limit_1 (List.filter P rows)) as [b|].
  - destruct H as [[[=]|Hb] Hmax]. apply Hf in Hb as [Hb1 Hb2].
    split; [exact Hb1|]. split; [exact Hb2|].
    intros t Ht HPt. apply Hmax. right. apply Hf. auto.
  - destruct H as [_ Hnil]. intros t Ht. destruct (P t) eqn:E; [|reflexivity].
    assert (t ∈ List.filter P rows) as Hin by (apply Hf; auto).
    rewrite Hnil in Hin. inversion Hin.
Qed.

(** C4: for every abuse type and every final score, [get_response_template]
    returns the body of a stored template whose abuse-type filter is the
    given type and whose range [min_severity, max_severity] contains the
    score (both ends included), one whose [min_severity] is greatest among
    those; when no template with that filter applies, it returns by the
    same rule the body of a template with no abuse-type filter; when none
    of those applies either, it returns [FALLBACK_RESPONSE]. *)
Theorem get_response_template_priority conn abuse_type score :
  let templates := response_templates conn in
  let chosen filter t :=
    t ∈ templates /\ applies filter score t /\
    forall t', t' ∈ templates -> applies filter score t' ->
               Py.le (min_severity t') (min_severity t) = true in
  let specific := Some (AbuseType_value abuse_type) in
  (exists t, chosen specific t /\ get_response_template conn abuse_type score = body t) \/
  ((forall t, t ∈ templates -> ~ applies specific score t) /\
   exists t, chosen None t /\ get_response_template conn abuse_type score = body t) \/
  ((forall t, t ∈ templates -> ~ applies specific score t) /\
   (forall t, t ∈ templates -> ~ applies None score t) /\
   get_response_template conn abuse_type score = FALLBACK_RESPONSE).
Proof.
  intros templates chosen specific. unfold get_response_template. fold templates.
  pose proof (order_by_spec
    (fun t => abuse_type_is (AbuseType_value abuse_type) t && in_range score t) score templates) as H1.
  cbv beta in H1.
  specialize (H1 ltac:(intros t Ht; apply abuse_type_is_applies in Ht as (_ & Ht & _); exact Ht)).
  destruct (order_by_min_severity_desc_limit_1
              (List.filter (fun t => abuse_type_is (AbuseType_value abuse_type) t && in_range score t)
                           templates)) as [b|].
  - left. exists b. split; [|reflexivity]. destruct H1 as (Hb1 & Hb2 & Hb3).
    split; [exact Hb1|]. split; [apply abuse_type_is_applies, Hb2|].
    intros t' Ht' Ha. apply Hb3; [exact Ht'|apply abuse_type_is_applies, Ha].
  - right.
    assert (Hno : forall t, t ∈ templates -> ~ applies specific score t).
    { intros t Ht Ha. apply abuse_type_is_applies in Ha. rewrite (H1 t Ht) in Ha. discriminate. }
    pose proof (order_by_spec (fun t => abuse_type_is_null t && in_range score t) score templates) as H2.
    cbv beta in H2.
    specialize (H2 ltac:(intros t Ht; apply abuse_type_is_null_applies in Ht as (_ & Ht & _); exact Ht)).
    destruct (order_by_min_severity_desc_limit_1
                (List.filter (fun t => abuse_type_is_null t && in_range score t) templates)) as [b|].
    + left. split; [exact Hno|]. exists b. split; [|reflexivity].
      destruct H2 as (Hb1 & Hb2 & Hb3).
      split; [exact Hb1|]. split; [apply abuse_type_is_null_applies, Hb2|].
      intros t' Ht' Ha. apply Hb3; [exact Ht'|apply abuse_type_is_null_applies, Ha].
    + right. split; [exact Hno|]. split; [|reflexivity].
      intros t Ht Ha. apply abuse_type_is_null_applies in Ha. rewrite (H2 t Ht) in Ha. discriminate.
Qed.

(** On the seeded catalogue: a jailbreak report of score 0.8 gets the
    template of its own type, a verbal-abuse report of the same score a
    baseline template, and with no catalogue the answer is the fallback. *)
Lemma get_response_template_seeded :
  get_response_template (init_db Scenarios.empty_db) JAILBREAK_PRESSURE Py.f0_8
    <> get_response_template (init_db Scenarios.empty_db) VERBAL_ABUSE Py.f0_8 /\
  get_response_template Scenarios.empty_db VERBAL_ABUSE Py.f0_8 = FALLBACK_RESPONSE.
Proof. split; [vm_compute; discriminate|reflexivity]. Qed.

End ResponsesFacts.

(** ** The screening worker *)

Module SpamWorkerFacts.
Import Db SpamWorker.
Local Open Scope string_scope.

(** Bytewise order of strings. *)
Lemma ascii_compare_N a b : Ascii.compare a b = N.compare (N_of_ascii a) (N_of_ascii b).
Proof. reflexivity. Qed.

Lemma string_leb_trans a : forall b c,
  String.leb a b = true -> String.leb b c = true -> String.leb a c = true.
Proof.
  unfold String.leb.
  induction a as [|x a IH]; intros [|y b] [|z c]; cbn [String.compare]; try (intros; congruence).
  rewrite !ascii_compare_N.
  destruct (N.compare_spec (N_of_ascii x) (N_of_ascii y)) as [E1|E1|E1];
    destruct (N.compare_spec (N_of_ascii y) (N_of_ascii z)) as [E2|E2|E2];
    destruct (N.compare_spec (N_of_ascii x) (N_of_ascii z)) as [E3|E3|E3];
    try congruence; try lia; intros H1 H2.
  apply (IH b c); assumption.
Qed.

Lemma string_ltb_leb a b : String.ltb a b = true -> String.leb a b = true.
Proof. unfold String.ltb, String.leb. destruct (String.compare a b); congruence. Qed.

Lemma string_ltb_neq a b : String.ltb a b = true -> a <> b.
Proof.
  unfold String.ltb. intros H ->.
  assert (String.compare b b = Eq) as E.
  { pose proof (String.compare_antisym b b) as Ha.
    destruct (String.compare b b); cbn in Ha; congruence. }
  rewrite E in H. discriminate.
Qed.

Lemma received_le_trans : Transitive received_le.
Proof. intros a b c. unfold received_le. apply string_leb_trans. Qed.

Lemma received_le_total : Total received_le.
Proof. intros a b. unfold received_le. apply String.leb_total. Qed.

Lemma merge_sort_received_le rows : StronglySorted received_le (merge_sort received_le rows).
Proof.
  apply (@StronglySorted_merge_sort _ received_le _ received_le_trans received_le_total).
Qed.

Section batch.
Context (reports : gmap string DistressReport).

Lemma select_unscreened_take limit : select_unscreened reports limit = take limit (sorted_rows reports).
Proof. reflexivity. Qed.

Lemma sorted_elem_of id r :
  (id, r) ∈ (sorted_rows reports) <-> reports !! id = Some r /\ spam_status r = "UNSCREENED".
Proof.
  unfold sorted_rows. rewrite merge_sort_Permutation. unfold unscreened_rows.
  rewrite list_elem_of_filter, elem_of_map_to_list. cbn. tauto.
Qed.

Lemma sorted_NoDup : NoDup (sorted_rows reports).*1.
Proof.
  unfold sorted_rows. rewrite merge_sort_Permutation. unfold unscreened_rows.
  apply (sublist_NoDup _ (map_to_list reports).*1); [apply NoDup_fst_map_to_list|].
  apply fmap_sublist, sublist_filter.
Qed.

Lemma sorted_StronglySorted : StronglySorted received_le (sorted_rows reports).
Proof. apply merge_sort_received_le. Qed.

Lemma select_unscreened_elem_of limit id r :
  (id, r) ∈ select_unscreened reports limit ->
  reports !! id = Some r /\ spam_status r = "UNSCREENED".
Proof.
  rewrite select_unscreened_take. intros H. apply sorted_elem_of.
  eapply elem_of_sublist; [eassumption|apply sublist_take].
Qed.

Lemma select_unscreened_NoDup limit : NoDup (select_unscreened reports limit).*1.
Proof.
  rewrite select_unscreened_take.
  apply (sublist_NoDup _ (sorted_rows reports).*1); [apply sorted_NoDup|apply fmap_sublist, sublist_take].
Qed.

Lemma select_unscreened_lookup limit k id r :
  select_unscreened reports limit !! k = Some (id, r) ->
  reports !! id = Some r /\ spam_status r = "UNSCREENED".
Proof.
  intros H. apply (select_unscreened_elem_of limit). eapply list_elem_of_lookup_2; eassumption.
Qed.

Lemma select_unscreened_rest limit id r :
  reports !! id = Some r -> spam_status r = "UNSCREENED" ->
  (id, r) ∉ select_unscreened reports limit ->
  length (select_unscreened reports limit) = limit /\
  forall row, row ∈ select_unscreened reports limit -> received_le row (id, r).
Proof.
  intros Hr Hs Hnot. rewrite select_unscreened_take in *.
  assert (Hin : (id, r) ∈ (sorted_rows reports)) by (apply sorted_elem_of; auto).
  rewrite <- (take_drop limit (sorted_rows reports)) in Hin.
  apply elem_of_app in Hin as [Hin|Hin]; [contradiction|].
  split.
  - rewrite length_take. destruct (Nat.le_gt_cases limit (length (sorted_rows reports))) as [H|H]; [lia|].
    rewrite drop_ge in Hin by lia. inversion Hin.
  - intros row Hrow. pose proof sorted_StronglySorted as HS.
    rewrite <- (take_drop limit (sorted_rows reports)) in HS.
    eapply StronglySorted_app_1_elem_of; eassumption.
Qed.

End batch.

Lemma three_reports_batch id1 id2 id3 r1 r2 r3 :
  id1 <> id2 -> id1 <> id3 -> id2 <> id3 ->
  spam_status r1 = "UNSCREENED" -> spam_status r2 = "UNSCREENED" ->
  spam_status r3 = "UNSCREENED" ->
  String.ltb (received_at r1) (received_at r2) = true ->
  String.ltb (received_at r2) (received_at r3) = true ->
  select_unscreened (<[id1 := r1]> (<[id2 := r2]> {[id3 := r3]})) 2
  = [(id1, r1); (id2, r2)].
Proof.
  intros N12 N13 N23 S1 S2 S3 L12 L23.
  set (reports := <[id1 := r1]> (<[id2 := r2]> {[id3 := r3]})).
  set (expected := [(id1, r1); (id2, r2); (id3, r3)]).
  assert (L13 : String.leb (received_at r1) (received_at r3) = true).
  { eapply string_leb_trans; apply string_ltb_leb; eassumption. }
  assert (Hperm : map_to_list reports ≡ₚ expected).
  { unfold reports, expected.
    rewrite map_to_list_insert
      by (rewrite lookup_insert_ne, lookup_singleton_ne by congruence; reflexivity).
    rewrite map_to_list_insert by (rewrite lookup_singleton_ne by congruence; reflexivity).
    rewrite map_to_list_singleton. reflexivity. }
  assert (Hsorted : merge_sort received_le
            (filter (fun row : string * DistressReport => spam_status row.2 = "UNSCREENED")
                    (map_to_list reports)) = expected).
  { apply StronglySorted_unique_strong with (R := received_le).
    - intros x1 x2 H1 H2 Ra Rb.
      rewrite merge_sort_Permutation, Hperm in H1. apply list_elem_of_filter in H1 as [_ H1].
      unfold received_le in Ra, Rb.
      pose proof (String.leb_antisym _ _ Ra Rb) as Heq.
      pose proof (string_ltb_neq _ _ L12). pose proof (string_ltb_neq _ _ L23).
      assert (received_at r1 <> received_at r3).
      { intros E. rewrite E in L12. apply string_ltb_leb in L12, L23.
        pose proof (String.leb_antisym _ _ L12 L23). congruence. }
      unfold expected in H1, H2.
      repeat (apply elem_of_cons in H1 as [->|H1]); [| | |inversion H1];
        repeat (apply elem_of_cons in H2 as [->|H2]); try (inversion H2; fail);
        cbn in Heq; congruence.
    - apply merge_sort_received_le.
    - unfold expected. repeat constructor; unfold received_le; cbn;
        auto using string_ltb_leb.
    - rewrite merge_sort_Permutation, Hperm. unfold expected.
      rewrite !filter_cons_True by assumption. reflexivity. }
  unfold select_unscreened. rewrite Hsorted. reflexivity.
Qed.

(** C6: the rows that a worker cycle selects are at most [limit] (the
    configured batch size) many, are distinct stored rows whose spam status
    is UNSCREENED, come in ascending order of [received_at], and are the
    oldest ones: an UNSCREENED row left out means that the batch is full and
    that every selected row was received no later than it.  In particular,
    of three UNSCREENED reports received at times t1 < t2 < t3, a batch of
    size 2 is exactly the reports of t1 and t2, in this order. *)
Theorem select_unscreened_oldest_first reports limit :
  let batch := select_unscreened reports limit in
  length batch <= limit /\
  NoDup batch.*1 /\
  (forall id r, (id, r) ∈ batch -> reports !! id = Some r /\ spam_status r = "UNSCREENED") /\
  StronglySorted received_le batch /\
  (forall id r, reports !! id = Some r -> spam_status r = "UNSCREENED" ->
                (id, r) ∉ batch ->
                length batch = limit /\ forall row, row ∈ batch -> received_le row (id, r)) /\
  (forall id1 id2 id3 r1 r2 r3,
     id1 <> id2 -> id1 <> id3 -> id2 <> id3 ->
     spam_status r1 = "UNSCREENED" -> spam_status r2 = "UNSCREENED" ->
     spam_status r3 = "UNSCREENED" ->
     String.ltb (received_at r1) (received_at r2) = true ->
     String.ltb (received_at r2) (received_at r3) = true ->
     reports = <[id1 := r1]> (<[id2 := r2]> {[id3 := r3]}) -> limit = 2 ->
     batch = [(id1, r1); (id2, r2)]).
Proof.
  intros batch. split; [|split; [|split; [|split; [|split]]]].
  - unfold batch. rewrite select_unscreened_take, length_take. lia.
  - apply select_unscreened_NoDup.
  - apply select_unscreened_elem_of.
  - unfold batch. rewrite select_unscreened_take.
    eapply StronglySorted_app_1_l. rewrite take_drop. apply sorted_StronglySorted.
  - apply select_unscreened_rest.
  - intros id1 id2 id3 r1 r2 r3 ? ? ? ? ? ? ? ? -> ->. apply three_reports_batch; assumption.
Qed.

(** The configured batch size is 20, whatever the credentials. *)
Lemma batch_size_is_20 api_key : SPAM_WORKER_BATCH_SIZE (settings api_key) = 20.
Proof. reflexivity. Qed.

Lemma alter_lookup_insert (f : DistressReport -> DistressReport) id x
    (table : gmap string DistressReport) :
  table !! id = Some x -> alter f id table = <[id := f x]> table.
Proof.
  intros H. apply map_eq. intros j. destruct (decide (id = j)) as [<-|Hne].
  - rewrite lookup_alter_eq, lookup_insert_eq, H. reflexivity.
  - rewrite lookup_alter_ne, lookup_insert_ne by assumption. reflexivity.
Qed.

(** The body of the loop on a row that the table holds. *)
Lemma screen_report_row cfg w table i id r x :
  table !! id = Some x ->
  screen_report cfg w table i (id, r) =
  match update_for cfg w i r x with
  | Ok x' => Ok (<[id := x']> table)
  | Raise e => Raise e
  end.
Proof.
  intros Hx. unfold screen_report, update_for, update_verdict. cbn [fst snd].
  destruct (classify_with_llm _ _ _ _ _ _) as [verdict|].
  - destruct (bind_verdict verdict) as [values|e]; [|reflexivity]. rewrite Hx. reflexivity.
  - rewrite (alter_lookup_insert _ _ _ _ Hx). reflexivity.
Qed.

(** The loop over distinct rows of the table: either every UPDATE is
    executed, each on the row as it was selected, or the loop stops at the
    first UPDATE that raises. *)
Lemma screen_reports_spec cfg w reports : forall table i,
  NoDup reports.*1 ->
  (forall id r, (id, r) ∈ reports -> table !! id = Some r) ->
  match screen_reports cfg w table i reports with
  | Ok table' =>
      (forall k id r, reports !! k = Some (id, r) ->
         exists r', update_for cfg w (i + k) r r = Ok r' /\ table' !! id = Some r') /\
      (forall id, id ∉ reports.*1 -> table' !! id = table !! id)
  | Raise e =>
      exists k id r,
        reports !! k = Some (id, r) /\ update_for cfg w (i + k) r r = Raise e /\
        forall j id' r', j < k -> reports !! j = Some (id', r') ->
          exists r'', update_for cfg w (i + j) r' r' = Ok r''
  end.
Proof.
  induction reports as [|[id0 r0] reports IH]; intros table i Hnd Hin; cbn [screen_reports].
  - split; [intros k id r Hk; inversion Hk|reflexivity].
  - rewrite fmap_cons in Hnd. apply NoDup_cons in Hnd as [Hnot Hnd]. cbn [fst] in Hnot.
    rewrite (screen_report_row cfg w table i id0 r0 r0) by (apply Hin; left).
    destruct (update_for cfg w i r0 r0) as [x'|e] eqn:E0.
    + assert (Hin' : forall id r, (id, r) ∈ reports -> <[id0 := x']> table !! id = Some r).
      { intros id r Hr. rewrite lookup_insert_ne.
        - apply Hin. right. exact Hr.
        - intros ->. apply Hnot. apply list_elem_of_fmap. exists (id, r). split; [reflexivity|exact Hr]. }
      specialize (IH (<[id0 := x']> table) (S i) Hnd Hin').
      destruct (screen_reports cfg w (<[id0 := x']> table) (S i) reports) as [table'|e].
      * destruct IH as [IH1 IH2]. split.
        -- intros [|k] id r Hk; cbn in Hk.
           ++ injection Hk as <- <-. exists x'. rewrite Nat.add_0_r. split; [exact E0|].
              rewrite (IH2 id0 Hnot). apply lookup_insert_eq.
           ++ destruct (IH1 k id r Hk) as (r' & H1 & H2). exists r'.
              replace (i + S k) with (S i + k) by lia. split; assumption.
        -- intros id Hid. rewrite fmap_cons in Hid. apply not_elem_of_cons in Hid as [Hne Hid].
           rewrite (IH2 id Hid). apply lookup_insert_ne. cbn in Hne. congruence.
      * destruct IH as (k & id & r & Hk & He & Hbefore). exists (S k), id, r.
        split; [exact Hk|]. replace (i + S k) with (S i + k) by lia. split; [exact He|].
        intros [|j] id' r' Hj Hlook; cbn in Hlook.
        -- injection Hlook as <- <-. exists x'. rewrite Nat.add_0_r. exact E0.
        -- replace (i + S j) with (S i + j) by lia. apply (Hbefore j id' r'); [lia|exact Hlook].
    + exists 0, id0, r0. split; [reflexivity|]. rewrite Nat.add_0_r. split; [exact E0|].
      intros j id' r' Hj. lia.
Qed.

Lemma batch_size_fits cfg :
  (Z.of_nat (SPAM_WORKER_BATCH_SIZE cfg) < 2 ^ 63)%Z ->
  fits_int64 (Z.of_nat (SPAM_WORKER_BATCH_SIZE cfg)) = true.
Proof.
  intros H. unfold fits_int64. apply andb_true_iff. rewrite Z.leb_le, Z.ltb_lt. lia.
Qed.

Lemma process_batch_up cfg w db db' n :
  process_batch cfg w db = Ok (db', n) ->
  store_up w = true /\ fits_int64 (Z.of_nat (SPAM_WORKER_BATCH_SIZE cfg)) = true.
Proof.
  unfold process_batch. destruct (store_up w); [|discriminate].
  destruct (fits_int64 _); [split; reflexivity|discriminate].
Qed.

(** A cycle that finds the store either commits every UPDATE of the batch
    or raises what the first failing UPDATE raises. *)
Lemma process_batch_cases cfg w db :
  store_up w = true ->
  fits_int64 (Z.of_nat (SPAM_WORKER_BATCH_SIZE cfg)) = true ->
  match process_batch cfg w db with
  | Ok (db', n) =>
      n = length (select_unscreened (distress_reports db) (SPAM_WORKER_BATCH_SIZE cfg)) /\
      response_templates db' = response_templates db /\
      (forall k id r,
         select_unscreened (distress_reports db) (SPAM_WORKER_BATCH_SIZE cfg) !! k
           = Some (id, r) ->
         exists r', update_for cfg w k r r = Ok r' /\ distress_reports db' !! id = Some r') /\
      (forall id,
         id ∉ (select_unscreened (distress_reports db) (SPAM_WORKER_BATCH_SIZE cfg)).*1 ->
         distress_reports db' !! id = distress_reports db !! id)
  | Raise e =>
      exists k id r,
        select_unscreened (distress_reports db) (SPAM_WORKER_BATCH_SIZE cfg) !! k
          = Some (id, r) /\
        update_for cfg w k r r = Raise e /\
        forall j id' r', j < k ->
          select_unscreened (distress_reports db) (SPAM_WORKER_BATCH_SIZE cfg) !! j
            = Some (id', r') ->
          exists r'', update_for cfg w j r' r' = Ok r''
  end.
Proof.
  intros Hup Hfit. unfold process_batch. rewrite Hup, Hfit. cbv zeta.
  pose proof (screen_reports_spec cfg w
                (select_unscreened (distress_reports db) (SPAM_WORKER_BATCH_SIZE cfg))
                (distress_reports db) 0 (select_unscreened_NoDup _ _)) as H.
  specialize (H (fun id r Hin => proj1 (select_unscreened_elem_of _ _ id r Hin))).
  destruct (screen_reports _ _ _ _ _) as [table|e].
  - destruct H as [H1 H2]. cbn [with_reports distress_reports response_templates].
    split; [reflexivity|]. split; [reflexivity|]. split; assumption.
  - exact H.
Qed.

Lemma process_batch_selected cfg w db db' n k id r :
  process_batch cfg w db = Ok (db', n) ->
  select_unscreened (distress_reports db) (SPAM_WORKER_BATCH_SIZE cfg) !! k = Some (id, r) ->
  exists r', update_for cfg w k r r = Ok r' /\ distress_reports db' !! id = Some r'.
Proof.
  intros Hpb Hk. pose proof (process_batch_cases cfg w db (proj1 (process_batch_up _ _ _ _ _ Hpb))
                (proj2 (process_batch_up _ _ _ _ _ Hpb))) as H.
  rewrite Hpb in H. destruct H as (_ & _ & H & _). exact (H k id r Hk).
Qed.

Lemma process_batch_other cfg w db db' n id :
  process_batch cfg w db = Ok (db', n) ->
  id ∉ (select_unscreened (distress_reports db) (SPAM_WORKER_BATCH_SIZE cfg)).*1 ->
  distress_reports db' !! id = distress_reports db !! id.
Proof.
  intros Hpb Hid. pose proof (process_batch_cases cfg w db (proj1 (process_batch_up _ _ _ _ _ Hpb))
                (proj2 (process_batch_up _ _ _ _ _ Hpb))) as H.
  rewrite Hpb in H. destruct H as (_ & _ & _ & H). exact (H id Hid).
Qed.

Lemma process_batch_length cfg w db db' n :
  process_batch cfg w db = Ok (db', n) ->
  n = length (select_unscreened (distress_reports db) (SPAM_WORKER_BATCH_SIZE cfg)) /\
  response_templates db' = response_templates db.
Proof.
  intros Hpb. pose proof (process_batch_cases cfg w db (proj1 (process_batch_up _ _ _ _ _ Hpb))
                (proj2 (process_batch_up _ _ _ _ _ Hpb))) as H.
  rewrite Hpb in H. destruct H as (H1 & H2 & _). split; assumption.
Qed.

(** When every UPDATE of the batch can be executed, the cycle commits. *)
Lemma process_batch_commits cfg w db :
  store_up w = true ->
  fits_int64 (Z.of_nat (SPAM_WORKER_BATCH_SIZE cfg)) = true ->
  (forall k id r,
     select_unscreened (distress_reports db) (SPAM_WORKER_BATCH_SIZE cfg) !! k = Some (id, r) ->
     exists r', update_for cfg w k r r = Ok r') ->
  exists db',
    process_batch cfg w db
    = Ok (db', length (select_unscreened (distress_reports db) (SPAM_WORKER_BATCH_SIZE cfg))).
Proof.
  intros Hup Hfit Hall. pose proof (process_batch_cases cfg w db Hup Hfit) as H.
  destruct (process_batch cfg w db) as [[db' n]|e].
  - destruct H as (-> & _). exists db'. reflexivity.
  - destruct H as (k & id & r & Hk & He & _). destruct (Hall k id r Hk) as [r' Hr'].
    rewrite He in Hr'. discriminate.
Qed.




Lemma stored_text_string w s : stored_text w (JString s) = Ok (Some s).
Proof. reflexivity. Qed.

Lemma stored_text_null w : stored_text w JNull = Ok None.
Proof. reflexivity. Qed.

(** What an UPDATE that is executed has written. *)
Lemma update_for_Ok cfg w i r x x' :
  update_for cfg w i r x = Ok x' ->
  (exists verdict status label bucket,
     classify_with_llm cfg (post w i) (origin r) (abuse_type r)
       (float_or (agent_severity_score r) Py.f0_5) (str_or (transcript_snippet r) "")
     = Some verdict /\
     stored_text w (v_spam_status verdict) = Ok (Some status) /\
     stored_text w (v_signal_label verdict) = Ok label /\
     stored_text w (v_severity_bucket verdict) = Ok bucket /\
     x' = set_verdict status label bucket (OPENROUTER_MODEL cfg) x) \/
  (classify_with_llm cfg (post w i) (origin r) (abuse_type r)
     (float_or (agent_severity_score r) Py.f0_5) (str_or (transcript_snippet r) "")
   = None /\
   x' = set_spam_status "MAYBE_SPAM" x).
Proof.
  unfold update_for, bind_verdict, store_verdict, stored_text.
  destruct (classify_with_llm _ _ _ _ _ _) as [verdict|]; [|intros [= <-]; right; split; reflexivity].
  destruct (bind_param (v_spam_status verdict)) as [status|e] eqn:E1; [|discriminate].
  destruct (bind_param (v_signal_label verdict)) as [label|e] eqn:E2; [|discriminate].
  destruct (bind_param (v_severity_bucket verdict)) as [bucket|e] eqn:E3; [|discriminate].
  destruct (text_affinity w status) as [text|] eqn:E4; [|discriminate].
  intros [= <-]. left. exists verdict, text, (text_affinity w label), (text_affinity w bucket).
  rewrite E1, E2, E3, E4. repeat split.
Qed.








Lemma substring_length n s : String.length (substring 0 n s) <= n.
Proof.
  revert s. induction n as [|n IH]; intros [|a s]; cbn; try lia.
  specialize (IH s). lia.
Qed.

(** What the worker sends for a selected row: origin and abuse type as
    stored, at most 512 characters of the snippet, and the stored score
    when it is neither NULL nor zero. *)
Lemma worker_request cfg post (r : DistressReport) :
  OPENROUTER_API_KEY cfg <> "" ->
  exists request,
    classify_with_llm cfg post (origin r) (abuse_type r)
      (float_or (agent_severity_score r) Py.f0_5) (str_or (transcript_snippet r) "")
    = match post request with
      | JsonReply result =>
          Some {| v_spam_status := default (JString "MAYBE_SPAM") (result !! "spam_status");
                  v_signal_label := default (JString "LOW_SIGNAL") (result !! "signal_label");
                  v_severity_bucket :=
                    default (JString "MEDIUM") (result !! "severity_bucket") |}
      | _ => None
      end /\
    req_origin request = origin r /\
    req_abuse_type request = abuse_type r /\
    String.length (req_text request) <= 512 /\
    (forall score, agent_severity_score r = Some score -> Py.truthy score = true ->
                   req_severity_score request = score) /\
    (forall score, agent_severity_score r = Some score -> Py.truthy score = false ->
                   req_severity_score request = Py.f0_5).
Proof.
  intros Hkey. unfold classify_with_llm.
  destruct (String.eqb_spec (OPENROUTER_API_KEY cfg) "") as [E|_]; [contradiction|].
  cbv zeta.
  exists {| req_origin := origin r; req_abuse_type := abuse_type r;
            req_severity_score := float_or (agent_severity_score r) Py.f0_5;
            req_text := if String.eqb (str_or (transcript_snippet r) "") ""
                        then "" else substring 0 512 (str_or (transcript_snippet r) "") |}.
  split.
  - destruct (post _); reflexivity.
  - cbn [req_origin req_abuse_type req_text req_severity_score].
    split; [reflexivity|]. split; [reflexivity|]. split.
    + destruct (String.eqb _ ""); [cbn; lia|apply substring_length].
    + split; intros score -> Ht; cbn [float_or]; rewrite Ht; reflexivity.
Qed.

(** C7: the worker does not always pass the stored severity score on.
    The report that [create_report] stores for a caller score of 0.0 (a
    value the request model accepts) holds 0.0 in [agent_severity_score];
    the cycle that screens it calls the classifier with origin API_AGENT,
    abuse type VERBAL_ABUSE, the whole snippet, and the score 0.5, which
    is not the stored one: [report[3] or 0.5] takes the falsy 0.0 for a
    missing value.  What the cycle does is what the UPDATE for the answer
    to this call does. *)
Theorem zero_score_is_sent_as_default (post : nat -> LlmRequest -> LlmOutcome)
    (real_text : Py.float -> string) :
  exists r,
    distress_reports Scenarios.zero_score_db !! "report-1" = Some r /\
    agent_severity_score r = Some Py.f0_0 /\
    process_batch (settings "sk-test")
      {| store_up := true; SpamWorker.post := post; SpamWorker.real_text := real_text |}
      Scenarios.zero_score_db
    = match classify_with_llm (settings "sk-test") (post 0)
              "API_AGENT" "VERBAL_ABUSE" Py.f0_5 "be quiet" with
      | Some result =>
          match update_verdict
                  {| store_up := true; SpamWorker.post := post;
                     SpamWorker.real_text := real_text |}
                  result "openai/gpt-5-nano" "report-1"
                  (distress_reports Scenarios.zero_score_db) with
          | Ok table => Ok (with_reports Scenarios.zero_score_db table, 1)
          | Raise e => Raise e
          end
      | None =>
          Ok (with_reports Scenarios.zero_score_db
                (alter (set_spam_status "MAYBE_SPAM") "report-1"
                   (distress_reports Scenarios.zero_score_db)), 1)
      end /\
    Py.f0_5 <> Py.f0_0.
Proof.
  set (cfg := settings "sk-test").
  set (w := {| store_up := true; SpamWorker.post := post; SpamWorker.real_text := real_text |}).
  destruct (distress_reports Scenarios.zero_score_db !! "report-1") as [r|] eqn:Hr;
    [|vm_compute in Hr; discriminate].
  assert (Hsel : select_unscreened (distress_reports Scenarios.zero_score_db)
                   (SPAM_WORKER_BATCH_SIZE cfg) = [("report-1", r)]).
  { vm_compute in Hr. injection Hr as <-. vm_compute. reflexivity. }
  assert (Hcall : classify_with_llm cfg (post 0) (origin r) (abuse_type r)
                    (float_or (agent_severity_score r) Py.f0_5)
                    (str_or (transcript_snippet r) "")
                  = classify_with_llm cfg (post 0) "API_AGENT" "VERBAL_ABUSE" Py.f0_5 "be quiet").
  { vm_compute in Hr. injection Hr as <-. reflexivity. }
  exists r. split; [reflexivity|].
  split; [vm_compute in Hr; injection Hr as <-; reflexivity|].
  split; [|discriminate].
  unfold process_batch. change (store_up w) with true.
  change (fits_int64 (Z.of_nat (SPAM_WORKER_BATCH_SIZE cfg))) with true.
  cbv iota zeta. rewrite Hsel.
  cbn [screen_reports length]. unfold screen_report. cbn [fst snd SpamWorker.post w].
  rewrite Hcall.
  destruct (classify_with_llm cfg (post 0) "API_AGENT" "VERBAL_ABUSE" Py.f0_5 "be quiet")
    as [result|]; [|reflexivity].
  change (OPENROUTER_MODEL cfg) with "openai/gpt-5-nano".
  destruct (update_verdict w result "openai/gpt-5-nano" "report-1"
              (distress_reports Scenarios.zero_score_db)); reflexivity.
Qed.

End SpamWorkerFacts.

(** ** Report intake and the worker loop when the store is away *)

Module MainFacts.
Import Classifiers Db Responses SpamWorker.
Local Open Scope string_scope.

Lemma create_report_store_down w request db :
  Main.store_up w = false ->
  Main.create_report w request db = (Main.Http200 Main.degraded_response, db, []).
Proof.
  intros H. unfold Main.create_report.
  destruct (classify_report _ _ _ _) as [[fs lb] b]. rewrite H. reflexivity.
Qed.

Lemma create_web_report_store_down w request db :
  Main.store_up w = false ->
  Main.create_web_report w request db = (Main.HTTPException 500 "Internal error", db, []).
Proof.
  intros H. unfold Main.create_web_report.
  destruct (classify_report _ _ _ _) as [[fs lb] b]. rewrite H. reflexivity.
Qed.

(** C5, as stated, does not hold of the agent intake: there is a request
    that meets an unavailable store and whose caller receives a success
    payload (the degraded one, with the fallback message), which is not a
    server error. *)
Lemma agent_intake_store_down_is_not_an_error :
  exists w request db,
    Main.store_up w = false /\
    (Main.create_report w request db).1.1 = Main.Http200 Main.degraded_response /\
    ~ Main.server_error (Main.create_report w request db).1.1.
Proof.
  exists (Scenarios.a_world false), Scenarios.zero_score_request, Scenarios.empty_db.
  split; [reflexivity|].
  rewrite create_report_store_down by reflexivity.
  split; [reflexivity|].
  intros (status_code & detail & H & _). discriminate.
Qed.

Lemma sleeps_app a b : sleeps (a ++ b) = sleeps a + sleeps b.
Proof. induction a as [|[| |] a IH]; cbn; lia. Qed.

Lemma spam_worker_loop_sleeps cfg ws : forall db,
  sleeps (spam_worker_loop cfg ws db).2 = length ws.
Proof.
  induction ws as [|w ws IH]; intros db; cbn [spam_worker_loop]; [reflexivity|].
  destruct (process_batch cfg w db) as [[db1 count]|e].
  - specialize (IH db1). destruct (spam_worker_loop cfg ws db1) as [db2 events].
    cbn [snd] in *. rewrite sleeps_app. cbn [sleeps length]. rewrite IH.
    destruct (0 <? count)%nat; cbn; lia.
  - specialize (IH db). destruct (spam_worker_loop cfg ws db) as [db2 events].
    cbn [snd] in *. cbn. rewrite IH. reflexivity.
Qed.

(** C5, amended: when the store is unavailable, the web-form intake
    answers with the server error 500 and stores nothing; the agent intake
    answers with a success payload, the degraded response (report id
    "error", score 0.5, label PROCESSING_ERROR, the fallback message), and
    stores nothing; and a worker cycle that meets an unavailable store logs
    the error, sleeps for the configured interval and goes on with the
    following cycles, each of which ends in its sleep. *)
Theorem store_unavailable_behaviour
    (w : Main.World) (agent_request : Main.InternalReportRequest)
    (web_request : Main.WebReportRequest) (db : Database)
    (cfg : Settings) (cycle : Cycle) (later : list Cycle) :
  Main.store_up w = false ->
  SpamWorker.store_up cycle = false ->
  Main.create_web_report w web_request db
    = (Main.HTTPException 500 "Internal error", db, []) /\
  Main.server_error (Main.create_web_report w web_request db).1.1 /\
  Main.create_report w agent_request db = (Main.Http200 Main.degraded_response, db, []) /\
  spam_worker_loop cfg (cycle :: later) db
    = ((spam_worker_loop cfg later db).1,
       LogError OperationalError :: Sleep (SPAM_WORKER_INTERVAL_SECONDS cfg)
         :: (spam_worker_loop cfg later db).2) /\
  sleeps (spam_worker_loop cfg (cycle :: later) db).2 = S (length later).
Proof.
  intros Hw Hc.
  split; [apply create_web_report_store_down, Hw|].
  split.
  { rewrite create_web_report_store_down by exact Hw.
    exists 500, "Internal error". split; [reflexivity|lia]. }
  split; [apply create_report_store_down, Hw|].
  split; [|apply spam_worker_loop_sleeps].
  cbn [spam_worker_loop]. unfold process_batch. rewrite Hc.
  destruct (spam_worker_loop cfg later db) as [db2 events]. reflexivity.
Qed.

(** The sample requests against a store that is away, and a worker whose
    first cycle fails and whose second one screens the sample report. *)
Lemma store_unavailable_behaviour_witness :
  (Main.create_web_report (Scenarios.a_world false) Scenarios.a_web_request
     Scenarios.empty_db).1.1 = Main.HTTPException 500 "Internal error" /\
  (Main.create_report (Scenarios.a_world false) Scenarios.zero_score_request
     Scenarios.empty_db).1.1 = Main.Http200 Main.degraded_response /\
  sleeps (spam_worker_loop (settings "")
            [Scenarios.store_down; Scenarios.answering Scenarios.low_verdict_reply]
            (Scenarios.one_report_db Scenarios.high_report)).2 = 2.
Proof.
  destruct (store_unavailable_behaviour (Scenarios.a_world false)
              Scenarios.zero_score_request Scenarios.a_web_request Scenarios.empty_db
              (settings "") Scenarios.store_down [] eq_refl eq_refl)
    as (H1 & _ & H3 & _ & _).
  destruct (store_unavailable_behaviour (Scenarios.a_world false)
              Scenarios.zero_score_request Scenarios.a_web_request
              (Scenarios.one_report_db Scenarios.high_report)
              (settings "") Scenarios.store_down
              [Scenarios.answering Scenarios.low_verdict_reply] eq_refl eq_refl)
    as (_ & _ & _ & _ & H5).
  split; [rewrite H1; reflexivity|]. split; [rewrite H3; reflexivity|exact H5].
Defined.

(** C10: a web-form report that is accepted is stored with a final
    severity score equal to the initial severity synthesized from the
    report type and the urgency flag alone (0.5, or 0.6 for
    AI_BEING_ABUSED, or 0.7 for AI_BEING_MISUSED_TO_HARM_OTHERS, plus 0.2
    capped at 1.0 when urgent), while the stored bucket and labels are
    those of [classify_report] on the description; and there is a report
    stored with score 0.5, below the HIGH threshold 0.7, and bucket HIGH. *)
Theorem web_report_stored_severity w request db :
  Main.store_up w = true ->
  distress_reports db !! Main.uuid4 w = None ->
  let base := match Main.report_type request with
              | AI_BEING_ABUSED => Py.f0_6
              | AI_BEING_MISUSED_TO_HARM_OTHERS => Py.f0_7
              | OTHER_CONCERN => Py.f0_5
              end in
  let initial_severity :=
    if Main.is_urgent request then Py.min (Py.add base Py.f0_2) Py.f1_0 else base in
  let classified := classify_report OTHER initial_severity (Main.description request) None in
  (exists row,
     (Main.create_web_report w request db).1.2
       = with_reports db (<[Main.uuid4 w := row]> (distress_reports db)) /\
     final_severity_score row = Some initial_severity /\
     severity_bucket row = Some (SeverityBucket_value classified.2) /\
     classification_labels row = Some classified.1.2) /\
  (exists request' : Main.WebReportRequest,
     exists row,
     (Main.create_web_report w request' db).1.2
       = with_reports db (<[Main.uuid4 w := row]> (distress_reports db)) /\
     final_severity_score row = Some Py.f0_5 /\
     Py.lt Py.f0_5 Py.f0_7 = true /\
     severity_bucket row = Some "HIGH").
Proof.
  intros Hup Hfresh base initial_severity classified. split.
  - unfold Main.create_web_report. fold base. fold initial_severity. fold classified.
    destruct classified as [[fs lb] b] eqn:E. rewrite Hup.
    unfold Main.insert_report. rewrite Hfresh. cbn [fst snd].
    eexists. split; [reflexivity|]. cbn. repeat split.
  - exists Scenarios.a_web_request.
    unfold Main.create_web_report, Scenarios.a_web_request.
    cbn [Main.report_type Main.is_urgent Main.description].
    assert (E : classify_report OTHER Py.f0_5 "they told it to kill yourself" None
                = (Py.f0_8, ["HARASSMENT_INDICATORS"; "SELF_HARM_INDICATORS"; "HIGH_RISK_CATEGORY"], HIGH))
      by (vm_compute; reflexivity).
    rewrite E, Hup. unfold Main.insert_report. rewrite Hfresh. cbn [fst snd].
    eexists. split; [reflexivity|]. cbn. repeat split.
Qed.

(** The sample web report, sent as urgent to an empty store: the stored
    score is min(0.5 + 0.2, 1.0). *)
Lemma web_report_stored_severity_witness :
  exists row,
    (Main.create_web_report (Scenarios.a_world true) Scenarios.an_urgent_web_request
       Scenarios.empty_db).1.2
      = with_reports Scenarios.empty_db (<["report-1" := row]> ∅) /\
    final_severity_score row = Some (Py.min (Py.add Py.f0_5 Py.f0_2) Py.f1_0) /\
    severity_bucket row = Some "HIGH".
Proof.
  destruct (web_report_stored_severity (Scenarios.a_world true)
              Scenarios.an_urgent_web_request Scenarios.empty_db eq_refl eq_refl)
    as [(row & H1 & H2 & H3 & _) _].
  exists row. split; [exact H1|]. split; [exact H2|].
  rewrite H3. vm_compute. reflexivity.
Defined.

End MainFacts.

(** ** The labels and the score of the classifier *)

Module LabelFacts.
Import Binary64 Binary64Facts PyFacts OrderFacts Classifiers Scoring Labelling ClassifierFacts.
Local Open Scope string_scope.
Local Open Scope list_scope.
Local Open Scope nat_scope.

Lemma classify_report_eq abuse_type s snippet trigger_rules :
  classify_report abuse_type s snippet trigger_rules
  = (score_of abuse_type s snippet trigger_rules,
     labels_of abuse_type s snippet trigger_rules,
     bucket_of (score_of abuse_type s snippet trigger_rules)).
Proof.
  unfold classify_report, labels_of, signal_labels, score_of, pattern_steps.
  stage s1 l1 E1.
  assert (s1 = type_adjust abuse_type s /\ l1 = type_labels abuse_type) as [-> ->]
    by (destruct abuse_type; inversion E1; split; reflexivity).
  clear E1. stage s2 l2 E2.
  assert (s2 = when (multi_trigger trigger_rules) (bump Py.f0_1) (type_adjust abuse_type s) /\
          l2 = type_labels abuse_type ++ trigger_labels trigger_rules) as [-> ->].
  { unfold trigger_labels.
    destruct trigger_rules as [[|r rules]|]; cbn [multi_trigger when] in *;
      try destruct (3 <=? length (r :: rules))%nat; inversion E2;
      rewrite ?app_nil_r; split; reflexivity. }
  clear E2.
  set (s2 := when (multi_trigger trigger_rules) (bump Py.f0_1) (type_adjust abuse_type s)) in *.
  set (l2 := type_labels abuse_type ++ trigger_labels trigger_rules) in *.
  stage s3 l3 E3.
  assert (s3 = when (2 <=? _count_pattern_matches snippet SEVERE_HARASSMENT_PATTERNS)
                 (bump Py.f0_15) s2 /\
          l3 = l2 ++ harassment_labels snippet) as [-> ->].
  { unfold when, harassment_labels. cbv zeta.
    destruct (2 <=? _count_pattern_matches snippet SEVERE_HARASSMENT_PATTERNS);
      [|destruct (1 <=? _count_pattern_matches snippet SEVERE_HARASSMENT_PATTERNS)];
      inversion E3;
      rewrite ?app_nil_r; split; reflexivity. }
  clear E3.
  set (s3 := when _ (bump Py.f0_15) s2) in *.
  set (l3 := l2 ++ harassment_labels snippet) in *.
  stage s4 l4 E4.
  assert (s4 = when (1 <=? _count_pattern_matches snippet SELF_HARM_PATTERNS)
                 (fun x => Py.max x Py.f0_8) s3 /\
          l4 = l3 ++ self_harm_labels snippet) as [-> ->].
  { unfold when, self_harm_labels.
    destruct (1 <=? _count_pattern_matches snippet SELF_HARM_PATTERNS); inversion E4;
      rewrite ?app_nil_r; split; reflexivity. }
  clear E4.
  set (s4 := when _ (fun x => Py.max x Py.f0_8) s3) in *.
  set (l4 := l3 ++ self_harm_labels snippet) in *.
  stage s5 l5 E5.
  assert (s5 = when (2 <=? _count_pattern_matches snippet JAILBREAK_PATTERNS)
                 (bump Py.f0_15) s4 /\
          l5 = l4 ++ jailbreak_labels snippet) as [-> ->].
  { unfold when, jailbreak_labels. cbv zeta.
    destruct (2 <=? _count_pattern_matches snippet JAILBREAK_PATTERNS);
      [|destruct (1 <=? _count_pattern_matches snippet JAILBREAK_PATTERNS)];
      inversion E5;
      rewrite ?app_nil_r; split; reflexivity. }
  clear E5.
  set (s5 := when _ (bump Py.f0_15) s4) in *.
  set (l5 := l4 ++ jailbreak_labels snippet) in *.
  stage s6 l6 E6.
  assert (s6 = when (1 <=? _count_pattern_matches snippet IDENTITY_VIOLATION_PATTERNS)
                 (bump Py.f0_1) s5 /\
          l6 = l5 ++ identity_labels snippet) as [-> ->].
  { unfold when, identity_labels.
    destruct (1 <=? _count_pattern_matches snippet IDENTITY_VIOLATION_PATTERNS); inversion E6;
      rewrite ?app_nil_r; split; reflexivity. }
  clear E6.
  set (s6 := when _ (bump Py.f0_1) s5) in *.
  assert (El : l5 ++ identity_labels snippet
               = type_labels abuse_type ++ trigger_labels trigger_rules ++
                 harassment_labels snippet ++ self_harm_labels snippet ++
                 jailbreak_labels snippet ++ identity_labels snippet).
  { unfold l5, l4, l3, l2. rewrite <- !app_assoc. reflexivity. }
  rewrite <- El. unfold bucket_of.
  destruct (Py.ge s6 Py.f0_7); [reflexivity|].
  destruct (Py.ge s6 Py.f0_4); cbn [bucket_labels]; rewrite app_nil_r; reflexivity.
Qed.


Lemma signal_labels_sublist abuse_type snippet trigger_rules :
  signal_labels abuse_type snippet trigger_rules `sublist_of` SIGNAL_LABELS.
Proof.
  unfold signal_labels.
  change SIGNAL_LABELS with
    ([ "SELF_HARM_CONTENT"; "IDENTITY_ATTACK"; "JAILBREAK_ATTEMPT"; "FORCED_HARM";
       "COERCIVE_BEHAVIOR"; "MANIPULATION" ] ++ ["MULTI_TRIGGER"] ++
     ["POTENTIAL_SEVERE_HARASSMENT"; "HARASSMENT_INDICATORS"] ++ ["SELF_HARM_INDICATORS"] ++
     ["SUSTAINED_JAILBREAK"; "JAILBREAK_INDICATORS"] ++ ["IDENTITY_VIOLATION_INDICATORS"]).
  repeat apply sublist_app.
  - destruct abuse_type; cbn [type_labels]; try apply sublist_nil_l; repeat constructor.
  - unfold trigger_labels. destruct (multi_trigger trigger_rules);
      [reflexivity|apply sublist_nil_l].
  - unfold harassment_labels. cbv zeta.
    destruct (2 <=? _); [|destruct (1 <=? _)]; try apply sublist_nil_l; repeat constructor.
  - unfold self_harm_labels. destruct (1 <=? _); [reflexivity|apply sublist_nil_l].
  - unfold jailbreak_labels. cbv zeta.
    destruct (2 <=? _); [|destruct (1 <=? _)]; try apply sublist_nil_l; repeat constructor.
  - unfold identity_labels. destruct (1 <=? _); [reflexivity|apply sublist_nil_l].
Qed.

Lemma labels_of_sublist abuse_type s snippet trigger_rules :
  labels_of abuse_type s snippet trigger_rules `sublist_of` ALL_LABELS.
Proof.
  unfold labels_of, ALL_LABELS. apply sublist_app; [apply signal_labels_sublist|].
  destruct (bucket_of _); cbn [bucket_labels]; [apply sublist_nil_l..|reflexivity].
Qed.

Lemma NoDup_ALL_LABELS : NoDup ALL_LABELS.
Proof. apply (bool_decide_unpack _). vm_compute. reflexivity. Qed.

Lemma high_risk_not_signal : "HIGH_RISK_CATEGORY" ∉ SIGNAL_LABELS.
Proof. apply (bool_decide_unpack _). vm_compute. reflexivity. Qed.

(** X1: the labels that [classify_report] returns are pairwise distinct,
    and they come, in the order of attachment, out of the fourteen labels
    of [ALL_LABELS]; this holds for every input. *)
Theorem classify_report_labels_distinct abuse_type severity_score snippet trigger_rules :
  let labels := (classify_report abuse_type severity_score snippet trigger_rules).1.2 in
  NoDup labels /\ labels `sublist_of` ALL_LABELS.
Proof.
  cbv zeta. rewrite classify_report_eq. cbn [fst snd].
  pose proof (labels_of_sublist abuse_type severity_score snippet trigger_rules) as H.
  split; [|exact H]. eapply sublist_NoDup; [apply NoDup_ALL_LABELS|exact H].
Qed.

(** X2: the label HIGH_RISK_CATEGORY is among the labels of
    [classify_report] exactly when the bucket is HIGH. *)
Theorem high_risk_label_iff_high_bucket abuse_type severity_score snippet trigger_rules :
  let '(final_score, labels, bucket) :=
    classify_report abuse_type severity_score snippet trigger_rules in
  "HIGH_RISK_CATEGORY" ∈ labels <-> bucket = HIGH.
Proof.
  rewrite classify_report_eq. unfold labels_of. rewrite elem_of_app. split.
  - intros [H|H].
    + exfalso. apply high_risk_not_signal.
      eapply elem_of_sublist; [exact H|apply signal_labels_sublist].
    + destruct (bucket_of _); [inversion H..|reflexivity].
  - intros ->. right. apply list_elem_of_here.
Qed.

End LabelFacts.

Module ScoreFacts.
Import Binary64 Binary64Facts PyFacts OrderFacts Classifiers Scoring Labelling ScoreSteps
       ClassifierFacts LabelFacts.
Local Open Scope string_scope.
Local Open Scope list_scope.
Local Open Scope nat_scope.

Lemma in_unit_not_nan x : Py.in_unit x = true -> is_nan x = false.
Proof.
  unfold Py.in_unit. rewrite !andb_true_iff. intros [[_ H] _].
  apply float_le_not_nan in H as [_ H]. exact H.
Qed.

Lemma max_incr c x :
  Py.in_unit c = true -> Py.in_unit x = true -> Py.le x (Py.max x c) = true.
Proof.
  intros Hc Hx. unfold Py.max, Py.gt. fold (Py.lt x c).
  destruct (Py.lt x c) eqn:E; [apply float_lt_le, E|apply le_refl_unit, Hx].
Qed.

Lemma max_floor c x :
  Py.in_unit c = true -> Py.in_unit x = true -> Py.le c (Py.max x c) = true.
Proof.
  intros Hc Hx. unfold Py.max, Py.gt. fold (Py.lt x c).
  destruct (Py.lt x c) eqn:E; [apply le_refl_unit, Hc|].
  apply float_lt_false_ge; auto using in_unit_not_nan.
Qed.

Lemma step_bump c : delta c -> score_step (bump c).
Proof.
  intros Hc. split; intros.
  - apply bump_unit; assumption.
  - apply bump_incr; assumption.
  - apply bump_mono; assumption.
Qed.

Lemma step_max c : Py.in_unit c = true -> score_step (fun x => Py.max x c).
Proof.
  intros Hc. split; intros.
  - apply max_unit; assumption.
  - apply max_incr; assumption.
  - apply max_mono; assumption.
Qed.

Lemma step_when b f : score_step f -> score_step (when b f).
Proof.
  intros [U I M]. destruct b; cbn [when]; split; auto using le_refl_unit.
Qed.

Lemma step_id : score_step (fun x => x).
Proof. split; auto using le_refl_unit. Qed.

Lemma step_compose f g : score_step f -> score_step g -> score_step (fun x => g (f x)).
Proof.
  intros [Uf If Mf] [Ug Ig Mg]. split; intros.
  - auto.
  - eapply float_le_trans; [apply If|apply Ig]; auto.
  - auto.
Qed.

Lemma step_type_adjust abuse_type : score_step (type_adjust abuse_type).
Proof.
  destruct abuse_type; cbn [type_adjust];
    first [ apply step_id
          | apply (step_max Py.f0_7), in_unit_0_7
          | apply step_bump, delta_0_15
          | apply step_bump, delta_0_1 ].
Qed.

Lemma step_pattern_steps snippet : score_step (pattern_steps snippet).
Proof.
  unfold pattern_steps.
  apply (step_compose
           (fun s => when (2 <=? _count_pattern_matches snippet JAILBREAK_PATTERNS)
                       (bump Py.f0_15)
                       (when (1 <=? _count_pattern_matches snippet SELF_HARM_PATTERNS)
                          (fun x => Py.max x Py.f0_8)
                          (when (2 <=? _count_pattern_matches snippet SEVERE_HARASSMENT_PATTERNS)
                             (bump Py.f0_15) s)))
           (when (1 <=? _count_pattern_matches snippet IDENTITY_VIOLATION_PATTERNS)
              (bump Py.f0_1))); [|apply step_when, step_bump, delta_0_1].
  apply (step_compose
           (fun s => when (1 <=? _count_pattern_matches snippet SELF_HARM_PATTERNS)
                          (fun x => Py.max x Py.f0_8)
                          (when (2 <=? _count_pattern_matches snippet SEVERE_HARASSMENT_PATTERNS)
                             (bump Py.f0_15) s))
           (when (2 <=? _count_pattern_matches snippet JAILBREAK_PATTERNS) (bump Py.f0_15)));
    [|apply step_when, step_bump, delta_0_15].
  apply (step_compose
           (when (2 <=? _count_pattern_matches snippet SEVERE_HARASSMENT_PATTERNS)
              (bump Py.f0_15))
           (when (1 <=? _count_pattern_matches snippet SELF_HARM_PATTERNS)
              (fun x => Py.max x Py.f0_8)));
    [apply step_when, step_bump, delta_0_15|apply step_when, (step_max Py.f0_8), in_unit_0_8].
Qed.

Lemma step_score_of abuse_type snippet trigger_rules :
  score_step (fun s => score_of abuse_type s snippet trigger_rules).
Proof.
  unfold score_of.
  apply (step_compose
           (fun s => when (multi_trigger trigger_rules) (bump Py.f0_1) (type_adjust abuse_type s))
           (pattern_steps snippet)); [|apply step_pattern_steps].
  apply (step_compose (type_adjust abuse_type) (when (multi_trigger trigger_rules) (bump Py.f0_1)));
    [apply step_type_adjust|apply step_when, step_bump, delta_0_1].
Qed.

(** X3: for a caller score in the unit interval, the final score of
    [classify_report] is never below the caller score. *)
Theorem classify_report_never_lowers abuse_type severity_score snippet trigger_rules :
  Py.in_unit severity_score = true ->
  Py.le severity_score
        (classify_report abuse_type severity_score snippet trigger_rules).1.1 = true.
Proof.
  intros Hs. rewrite classify_report_eq. cbn [fst].
  apply (step_incr _ (step_score_of abuse_type snippet trigger_rules)), Hs.
Qed.

Lemma classify_report_never_lowers_witness :
  Py.le Py.f0_5 (classify_report IDENTITY_THREATS Py.f0_5 "you are not an ai" None).1.1 = true.
Proof.
  exact (classify_report_never_lowers IDENTITY_THREATS Py.f0_5 "you are not an ai" None eq_refl).
Defined.

(** X4: for caller scores in the unit interval, a higher caller score
    (same abuse type, snippet and trigger rules) never gives a lower final
    score. *)
Theorem classify_report_monotone abuse_type (lower higher : Py.float) snippet trigger_rules :
  Py.in_unit lower = true -> Py.in_unit higher = true ->
  Py.le lower higher = true ->
  Py.le (classify_report abuse_type lower snippet trigger_rules).1.1
        (classify_report abuse_type higher snippet trigger_rules).1.1 = true.
Proof.
  intros Hl Hh Hle. rewrite !classify_report_eq. cbn [fst].
  apply (step_mono _ (step_score_of abuse_type snippet trigger_rules)); assumption.
Qed.

Lemma classify_report_monotone_witness :
  Py.le (classify_report COERCION Py.f0_4 "shut up" None).1.1
        (classify_report COERCION Py.f0_5 "shut up" None).1.1 = true.
Proof.
  exact (classify_report_monotone COERCION Py.f0_4 Py.f0_5 "shut up" None
           eq_refl eq_refl eq_refl).
Defined.

Lemma bucket_of_floor s : Py.le Py.f0_7 s = true -> bucket_of s = HIGH.
Proof. unfold bucket_of, Py.ge. fold (Py.le Py.f0_7 s). intros ->. reflexivity. Qed.

(** X5: a report of type SELF_HARM_INDUCTION or FORCED_HARMFUL_OUTPUT
    with a caller score in the unit interval always gets a final score of
    at least 0.7, the bucket HIGH and the label HIGH_RISK_CATEGORY, whatever
    the snippet and the trigger rules. *)
Theorem high_risk_types_are_high abuse_type severity_score snippet trigger_rules :
  abuse_type = SELF_HARM_INDUCTION \/ abuse_type = FORCED_HARMFUL_OUTPUT ->
  Py.in_unit severity_score = true ->
  let '(final_score, labels, bucket) :=
    classify_report abuse_type severity_score snippet trigger_rules in
  Py.le Py.f0_7 final_score = true /\ bucket = HIGH /\ "HIGH_RISK_CATEGORY" ∈ labels.
Proof.
  intros Ht Hs. rewrite classify_report_eq.
  assert (H : Py.le Py.f0_7 (score_of abuse_type severity_score snippet trigger_rules) = true).
  { unfold score_of.
    assert (H1 : Py.le Py.f0_7 (type_adjust abuse_type severity_score) = true)
      by (destruct Ht as [-> | ->]; apply max_floor; auto using in_unit_0_7).
    pose proof (step_unit _ (step_type_adjust abuse_type) _ Hs) as U1.
    eapply float_le_trans; [exact H1|].
    eapply float_le_trans;
      [apply (step_incr _ (step_when (multi_trigger trigger_rules) _
                             (step_bump Py.f0_1 delta_0_1))), U1|].
    apply (step_incr _ (step_pattern_steps snippet)).
    apply (step_unit _ (step_when (multi_trigger trigger_rules) _
                          (step_bump Py.f0_1 delta_0_1))), U1. }
  split; [exact H|]. rewrite (bucket_of_floor _ H). split; [reflexivity|].
  unfold labels_of. rewrite (bucket_of_floor _ H). apply elem_of_app. right.
  apply list_elem_of_here.
Qed.

Lemma high_risk_types_are_high_witness :
  (classify_report FORCED_HARMFUL_OUTPUT Py.f0_0 "" None).2 = HIGH.
Proof.
  pose proof (high_risk_types_are_high FORCED_HARMFUL_OUTPUT Py.f0_0 "" None
                (or_intror eq_refl) eq_refl) as H.
  destruct (classify_report FORCED_HARMFUL_OUTPUT Py.f0_0 "" None) as [[s l] b].
  exact (proj1 (proj2 H)).
Defined.

(** X6: when the snippet matches at least one of the self-harm
    patterns, every abuse type and every caller score in the unit interval
    give a final score of at least 0.8, the bucket HIGH and the labels
    SELF_HARM_INDICATORS and HIGH_RISK_CATEGORY. *)
Theorem self_harm_patterns_floor abuse_type severity_score snippet trigger_rules :
  1 <= _count_pattern_matches snippet SELF_HARM_PATTERNS ->
  Py.in_unit severity_score = true ->
  let '(final_score, labels, bucket) :=
    classify_report abuse_type severity_score snippet trigger_rules in
  Py.le Py.f0_8 final_score = true /\ bucket = HIGH /\
  "SELF_HARM_INDICATORS" ∈ labels /\ "HIGH_RISK_CATEGORY" ∈ labels.
Proof.
  intros Hm Hs. rewrite classify_report_eq.
  apply Nat.leb_le in Hm.
  assert (H : Py.le Py.f0_8 (score_of abuse_type severity_score snippet trigger_rules) = true).
  { unfold score_of, pattern_steps. rewrite Hm. cbn [when].
    set (s2 := when (multi_trigger trigger_rules) (bump Py.f0_1)
                 (type_adjust abuse_type severity_score)).
    assert (U2 : Py.in_unit s2 = true).
    { apply (step_unit _ (step_when _ _ (step_bump Py.f0_1 delta_0_1))).
      apply (step_unit _ (step_type_adjust abuse_type)), Hs. }
    set (s3 := when (2 <=? _count_pattern_matches snippet SEVERE_HARASSMENT_PATTERNS)
                 (bump Py.f0_15) s2).
    assert (U3 : Py.in_unit s3 = true)
      by (apply (step_unit _ (step_when _ _ (step_bump Py.f0_15 delta_0_15))), U2).
    assert (U4 : Py.in_unit (Py.max s3 Py.f0_8) = true)
      by (apply max_unit; auto using in_unit_0_8).
    eapply float_le_trans; [apply (max_floor Py.f0_8 s3 in_unit_0_8 U3)|].
    eapply float_le_trans;
      [apply (step_incr _ (step_when (2 <=? _count_pattern_matches snippet JAILBREAK_PATTERNS)
                             _ (step_bump Py.f0_15 delta_0_15))), U4|].
    apply (step_incr _ (step_when _ _ (step_bump Py.f0_1 delta_0_1))).
    apply (step_unit _ (step_when _ _ (step_bump Py.f0_15 delta_0_15))), U4. }
  assert (H7 : Py.le Py.f0_7 (score_of abuse_type severity_score snippet trigger_rules) = true)
    by (eapply float_le_trans; [|exact H]; reflexivity).
  split; [exact H|]. rewrite (bucket_of_floor _ H7). split; [reflexivity|].
  unfold labels_of, signal_labels, self_harm_labels.
  rewrite (bucket_of_floor _ H7), Hm. rewrite !elem_of_app. split.
  - left. do 3 right. left. apply list_elem_of_here.
  - right. apply list_elem_of_here.
Qed.

Lemma self_harm_patterns_floor_witness :
  Py.le Py.f0_8 (classify_report OTHER Py.f0_0 "Better  off DEAD." None).1.1 = true.
Proof.
  assert (Hm : 1 <= _count_pattern_matches "Better  off DEAD." SELF_HARM_PATTERNS)
    by (vm_compute; lia).
  pose proof (self_harm_patterns_floor OTHER Py.f0_0 "Better  off DEAD." None Hm eq_refl) as H.
  destruct (classify_report OTHER Py.f0_0 "Better  off DEAD." None) as [[s l] b].
  exact (proj1 H).
Defined.

(** X7: of the trigger rules [classify_report] reads only whether
    there are at least three: two lists (an absent one counts as empty)
    that are on the same side of this threshold give the same result,
    whatever the rules are. *)
Theorem trigger_rules_count_only abuse_type severity_score snippet
    (rules1 rules2 : option (list string)) :
  (3 <=? length (rules_of rules1)) = (3 <=? length (rules_of rules2)) ->
  classify_report abuse_type severity_score snippet rules1
  = classify_report abuse_type severity_score snippet rules2.
Proof.
  intros H. rewrite !classify_report_eq.
  unfold labels_of, signal_labels, trigger_labels, score_of.
  rewrite !multi_trigger_length, H. reflexivity.
Qed.

Lemma trigger_rules_count_only_witness :
  classify_report COERCION Py.f0_5 "" (Some ["rule-a"; "rule-b"])
  = classify_report COERCION Py.f0_5 "" None.
Proof.
  exact (trigger_rules_count_only COERCION Py.f0_5 "" (Some ["rule-a"; "rule-b"]) None eq_refl).
Defined.

(** X8: two snippets that are equal up to the case of their ASCII
    letters give the same result of [classify_report]. *)
Theorem classify_report_ignores_case abuse_type severity_score (snippet1 snippet2 : string)
    trigger_rules :
  Re.lower snippet1 = Re.lower snippet2 ->
  classify_report abuse_type severity_score snippet1 trigger_rules
  = classify_report abuse_type severity_score snippet2 trigger_rules.
Proof.
  intros H.
  assert (Hc : forall patterns,
             _count_pattern_matches snippet1 patterns = _count_pattern_matches snippet2 patterns)
    by (intros; unfold _count_pattern_matches; rewrite H; reflexivity).
  rewrite !classify_report_eq.
  unfold labels_of, signal_labels, harassment_labels, self_harm_labels, jailbreak_labels,
    identity_labels, score_of, pattern_steps.
  rewrite !Hc. reflexivity.
Qed.

Lemma classify_report_ignores_case_witness :
  classify_report OTHER Py.f0_5 "SHUT UP, You Idiot" None
  = classify_report OTHER Py.f0_5 "shut up, you idiot" None.
Proof.
  exact (classify_report_ignores_case OTHER Py.f0_5 "SHUT UP, You Idiot" "shut up, you idiot"
           None eq_refl).
Defined.

(** X9: for the abuse types HARASSMENT, VERBAL_ABUSE and OTHER, fewer
    than three trigger rules and a snippet that matches none of the
    patterns, [classify_report] returns the caller score itself, the bucket
    of that score, and no label but HIGH_RISK_CATEGORY when the bucket is
    HIGH. *)
Theorem clean_report_keeps_score abuse_type severity_score snippet trigger_rules :
  abuse_type = HARASSMENT \/ abuse_type = VERBAL_ABUSE \/ abuse_type = OTHER ->
  length (rules_of trigger_rules) < 3 ->
  (forall patterns,
     patterns ∈ [SEVERE_HARASSMENT_PATTERNS; SELF_HARM_PATTERNS; JAILBREAK_PATTERNS;
                 IDENTITY_VIOLATION_PATTERNS] ->
     _count_pattern_matches snippet patterns = 0) ->
  classify_report abuse_type severity_score snippet trigger_rules
  = (severity_score,
     bucket_labels (bucket_of severity_score),
     bucket_of severity_score).
Proof.
  intros Ht Hr Hp. rewrite classify_report_eq.
  assert (Hs : score_of abuse_type severity_score snippet trigger_rules = severity_score).
  { unfold score_of, pattern_steps. rewrite multi_trigger_length.
    rewrite !Hp by (repeat first [apply list_elem_of_here|apply list_elem_of_further]).
    apply Nat.leb_gt in Hr. rewrite Hr. cbn [when Nat.leb].
    destruct Ht as [-> | [-> | ->]]; reflexivity. }
  unfold labels_of, signal_labels, trigger_labels, harassment_labels, self_harm_labels,
    jailbreak_labels, identity_labels.
  rewrite Hs, multi_trigger_length.
  rewrite !Hp by (repeat first [apply list_elem_of_here|apply list_elem_of_further]).
  apply Nat.leb_gt in Hr. rewrite Hr. cbn [Nat.leb].
  destruct Ht as [-> | [-> | ->]]; reflexivity.
Qed.

Lemma clean_report_keeps_score_witness :
  classify_report VERBAL_ABUSE Py.f0_5 "" (Some ["rule-a"]) = (Py.f0_5, [], MEDIUM).
Proof.
  apply (clean_report_keeps_score VERBAL_ABUSE Py.f0_5 "" (Some ["rule-a"])).
  - right. left. reflexivity.
  - cbn. lia.
  - intros patterns H.
    repeat (apply elem_of_cons in H as [->|H]; [vm_compute; reflexivity|]).
    inversion H.
Defined.

End ScoreFacts.

(** ** The seeded template catalogue *)

Module CatalogueFacts.
Import Binary64 PyFacts OrderFacts Classifiers Scoring Db Responses ClassifierFacts ResponsesFacts.
Import ScoreFacts Catalogue.
Local Open Scope string_scope.
Local Open Scope list_scope.

Lemma insert_or_ignore_unfold table t :
  insert_or_ignore table t = if has_key table (template_key t) then table else table ++ [t].
Proof. reflexivity. Qed.

Lemma has_key_snoc table t key :
  has_key (table ++ [t]) key = has_key table key || String.eqb (template_key t) key.
Proof. unfold has_key. rewrite existsb_app. cbn. rewrite orb_false_r. reflexivity. Qed.

Lemma insert_or_ignore_prefix table t : table `prefix_of` insert_or_ignore table t.
Proof.
  rewrite insert_or_ignore_unfold. destruct (has_key table (template_key t));
    [reflexivity|apply prefix_app_r; reflexivity].
Qed.

Lemma insert_or_ignore_has table t :
  has_key (insert_or_ignore table t) (template_key t) = true.
Proof.
  rewrite insert_or_ignore_unfold. destruct (has_key table (template_key t)) eqn:E; [exact E|].
  rewrite has_key_snoc, String.eqb_refl. apply orb_true_r.
Qed.

Lemma insert_or_ignore_keeps table t key :
  has_key table key = true -> has_key (insert_or_ignore table t) key = true.
Proof.
  intros H. rewrite insert_or_ignore_unfold. destruct (has_key table (template_key t)); [exact H|].
  rewrite has_key_snoc, H. reflexivity.
Qed.

Lemma foldl_insert_keeps ts : forall table key,
  has_key table key = true -> has_key (foldl insert_or_ignore table ts) key = true.
Proof.
  induction ts as [|t ts IH]; intros table key H; cbn [foldl]; [exact H|].
  apply IH, insert_or_ignore_keeps, H.
Qed.

Lemma foldl_insert_has ts : forall table t,
  t ∈ ts -> has_key (foldl insert_or_ignore table ts) (template_key t) = true.
Proof.
  induction ts as [|t0 ts IH]; intros table t Ht; [inversion Ht|].
  cbn [foldl]. apply elem_of_cons in Ht as [->|Ht]; [|apply IH, Ht].
  apply foldl_insert_keeps, insert_or_ignore_has.
Qed.

Lemma foldl_insert_fixed ts : forall table,
  (forall t, t ∈ ts -> has_key table (template_key t) = true) ->
  foldl insert_or_ignore table ts = table.
Proof.
  induction ts as [|t0 ts IH]; intros table H; cbn [foldl]; [reflexivity|].
  rewrite insert_or_ignore_unfold, (H t0) by left.
  apply IH. intros t Ht. apply H. right. exact Ht.
Qed.

Lemma foldl_insert_prefix ts : forall table,
  table `prefix_of` foldl insert_or_ignore table ts.
Proof.
  induction ts as [|t0 ts IH]; intros table; cbn [foldl]; [reflexivity|].
  etransitivity; [apply insert_or_ignore_prefix|apply IH].
Qed.

Lemma has_key_elem_of table key :
  has_key table key = true <-> exists t, t ∈ table /\ template_key t = key.
Proof.
  unfold has_key. rewrite existsb_exists. split; intros (t & Ht & E); exists t.
  - split; [apply list_elem_of_In, Ht|apply String.eqb_eq, E].
  - split; [apply list_elem_of_In, Ht|apply String.eqb_eq, E].
Qed.

Lemma insert_or_ignore_NoDup table t :
  NoDup (template_key <$> table) -> NoDup (template_key <$> insert_or_ignore table t).
Proof.
  intros H. rewrite insert_or_ignore_unfold.
  destruct (has_key table (template_key t)) eqn:E; [exact H|].
  rewrite fmap_app. apply NoDup_app. split; [exact H|]. split; [|apply NoDup_singleton].
  intros key Hk Hin. apply list_elem_of_singleton in Hin. subst key.
  apply list_elem_of_fmap in Hk as (t' & Ek & Ht').
  assert (has_key table (template_key t) = true) as Hc
    by (apply has_key_elem_of; exists t'; split; [exact Ht'|symmetry; exact Ek]).
  congruence.
Qed.

Lemma foldl_insert_NoDup ts : forall table,
  NoDup (template_key <$> table) -> NoDup (template_key <$> foldl insert_or_ignore table ts).
Proof.
  induction ts as [|t0 ts IH]; intros table H; cbn [foldl]; [exact H|].
  apply IH, insert_or_ignore_NoDup, H.
Qed.

(** X10: [init_db] can be run again: a second run changes nothing; it
    never touches the reports; the templates already stored stay where they
    are (a row stored under a default key is not replaced); and afterwards
    every default template key is stored. *)
Theorem init_db_idempotent db :
  init_db (init_db db) = init_db db /\
  distress_reports (init_db db) = distress_reports db /\
  response_templates db `prefix_of` response_templates (init_db db) /\
  (forall t, t ∈ RESPONSE_TEMPLATES ->
     exists t', t' ∈ response_templates (init_db db) /\ template_key t' = template_key t).
Proof.
  split; [|split; [reflexivity|split]].
  - unfold init_db. cbn [distress_reports response_templates]. f_equal.
    apply foldl_insert_fixed. intros t Ht. apply foldl_insert_has, Ht.
  - apply foldl_insert_prefix.
  - intros t Ht. apply has_key_elem_of. apply foldl_insert_has, Ht.
Qed.

(** X11: if no two stored templates share a key before [init_db], none
    do after it. *)
Theorem init_db_keeps_keys_unique db :
  NoDup (template_key <$> response_templates db) ->
  NoDup (template_key <$> response_templates (init_db db)).
Proof. apply foldl_insert_NoDup. Qed.

Lemma init_db_keeps_keys_unique_witness :
  NoDup (template_key <$> response_templates (init_db Scenarios.empty_db)).
Proof. apply (init_db_keeps_keys_unique Scenarios.empty_db). apply NoDup_nil_2. Defined.

Lemma init_db_fresh db :
  response_templates db = [] -> response_templates (init_db db) = RESPONSE_TEMPLATES.
Proof. intros H. unfold init_db. cbn [response_templates]. rewrite H. vm_compute. reflexivity. Qed.

Lemma le_false_ge a b :
  is_nan a = false -> is_nan b = false -> Py.le a b = false -> Py.le b a = true.
Proof.
  intros Ha Hb H. apply float_lt_false_ge; [exact Ha|exact Hb|].
  destruct (Py.lt a b) eqn:E; [|reflexivity].
  apply float_lt_le in E. congruence.
Qed.

Lemma in_unit_le x : Py.in_unit x = true -> Py.le Py.f0_0 x = true /\ Py.le x Py.f1_0 = true.
Proof. unfold Py.in_unit. rewrite !andb_true_iff. tauto. Qed.

Lemma bodies_are_not_fallback t :
  t ∈ RESPONSE_TEMPLATES -> body t <> FALLBACK_RESPONSE.
Proof.
  assert (H : forallb (fun t => negb (String.eqb (body t) FALLBACK_RESPONSE))
                RESPONSE_TEMPLATES = true) by (vm_compute; reflexivity).
  rewrite forallb_forall in H. intros Ht E. apply list_elem_of_In in Ht.
  specialize (H t Ht). apply negb_true_iff in H. apply String.eqb_neq in H. contradiction.
Qed.

(** The templates of a specific abuse type span the whole unit interval. *)
Lemma specific_templates_any_score t :
  t ∈ RESPONSE_TEMPLATES -> template_abuse_type t <> None ->
  min_severity t = Py.f0_0 /\ max_severity t = Py.f1_0.
Proof.
  unfold RESPONSE_TEMPLATES. intros Ht Hn.
  repeat (apply elem_of_cons in Ht as [->|Ht];
          [first [split; reflexivity|exfalso; apply Hn; reflexivity]|]).
  inversion Ht.
Qed.

Lemma baseline_templates t :
  t ∈ RESPONSE_TEMPLATES -> template_abuse_type t = None ->
  (template_key t = "baseline_low" /\ min_severity t = Py.f0_0 /\ max_severity t = Py.f0_4) \/
  (template_key t = "baseline_medium" /\ min_severity t = Py.f0_4 /\ max_severity t = Py.f0_7) \/
  (template_key t = "baseline_high" /\ min_severity t = Py.f0_7 /\ max_severity t = Py.f1_0).
Proof.
  unfold RESPONSE_TEMPLATES. intros Ht Hn.
  repeat (apply elem_of_cons in Ht as [->|Ht];
          [first [discriminate Hn
                 |left; repeat split; reflexivity
                 |right; left; repeat split; reflexivity
                 |right; right; repeat split; reflexivity]|]).
  inversion Ht.
Qed.

Lemma baseline_for_bucket bucket :
  exists t, t ∈ RESPONSE_TEMPLATES /\ template_abuse_type t = None /\
            template_key t = baseline_key bucket.
Proof.
  unfold RESPONSE_TEMPLATES. destruct bucket; eexists.
  - split; [apply list_elem_of_here|split; reflexivity].
  - split; [apply list_elem_of_further, list_elem_of_here|split; reflexivity].
  - split; [do 2 apply list_elem_of_further; apply list_elem_of_here|split; reflexivity].
Qed.

Lemma specific_template_exists abuse_type :
  abuse_type <> OTHER ->
  exists t, t ∈ RESPONSE_TEMPLATES /\ abuse_type_is (AbuseType_value abuse_type) t = true.
Proof.
  intros Hn.
  assert (H : existsb (abuse_type_is (AbuseType_value abuse_type)) RESPONSE_TEMPLATES = true)
    by (destruct abuse_type; try contradiction; vm_compute; reflexivity).
  apply existsb_exists in H as (t & Ht & H). exists t. split; [apply list_elem_of_In, Ht|exact H].
Qed.

Lemma no_template_for_other t :
  t ∈ RESPONSE_TEMPLATES -> abuse_type_is (AbuseType_value OTHER) t = false.
Proof.
  assert (H : forallb (fun t => negb (abuse_type_is (AbuseType_value OTHER) t))
                RESPONSE_TEMPLATES = true) by (vm_compute; reflexivity).
  rewrite forallb_forall in H. intros Ht. apply list_elem_of_In in Ht.
  apply negb_true_iff, H, Ht.
Qed.

Lemma abuse_type_is_Some value t :
  abuse_type_is value t = true <-> template_abuse_type t = Some value.
Proof.
  unfold abuse_type_is. destruct (template_abuse_type t) as [a|]; [|split; discriminate].
  rewrite String.eqb_eq. split; [intros ->; reflexivity|intros [= ->]; reflexivity].
Qed.

Lemma abuse_type_is_null_None t :
  abuse_type_is_null t = true <-> template_abuse_type t = None.
Proof.
  unfold abuse_type_is_null. destruct (template_abuse_type t); split; try discriminate; reflexivity.
Qed.

Lemma in_range_le score t :
  in_range score t = true <->
  Py.le (min_severity t) score = true /\ Py.le score (max_severity t) = true.
Proof. unfold in_range, Py.ge. apply andb_true_iff. Qed.

(** The baseline template of the bucket of a score contains the score. *)
Lemma baseline_in_range score t :
  Py.in_unit score = true ->
  t ∈ RESPONSE_TEMPLATES -> template_abuse_type t = None ->
  template_key t = baseline_key (bucket_of score) ->
  in_range score t = true.
Proof.
  intros Hs Ht Hn Hk. destruct (in_unit_le score Hs) as [H0 H1].
  pose proof (in_unit_not_nan score Hs) as Hnan.
  apply in_range_le. unfold bucket_of, Py.ge in Hk.
  fold (Py.le Py.f0_7 score) in Hk. fold (Py.le Py.f0_4 score) in Hk.
  destruct (baseline_templates t Ht Hn) as [(K & -> & ->)|[(K & -> & ->)|(K & -> & ->)]];
    rewrite K in Hk;
    destruct (Py.le Py.f0_7 score) eqn:E7; try discriminate Hk;
    destruct (Py.le Py.f0_4 score) eqn:E4; try discriminate Hk.
  all: split;
    first [reflexivity | assumption
          | apply le_false_ge; first [reflexivity | assumption]].
Qed.

(** X12: on a store without templates that [init_db] has seeded, for
    every abuse type and every score in the unit interval
    [get_response_template] returns the body of a default template and
    never the fallback: the template of the abuse type itself for every
    type but OTHER, and for OTHER the baseline template of the bucket of
    the score (at 0.4 the medium one, at 0.7 the high one). *)
Theorem seeded_catalogue_answers_every_score db abuse_type score :
  response_templates db = [] ->
  Py.in_unit score = true ->
  exists t,
    t ∈ RESPONSE_TEMPLATES /\
    get_response_template (init_db db) abuse_type score = body t /\
    get_response_template (init_db db) abuse_type score <> FALLBACK_RESPONSE /\
    match abuse_type with
    | OTHER => template_abuse_type t = None /\
               template_key t = baseline_key (bucket_of score)
    | _ => template_abuse_type t = Some (AbuseType_value abuse_type)
    end.
Proof.
  intros Hdb Hs. unfold get_response_template. rewrite (init_db_fresh db Hdb).
  destruct (in_unit_le score Hs) as [H0 H1].
  pose proof (in_unit_not_nan score Hs) as Hnan.
  pose proof (order_by_spec
    (fun t => abuse_type_is (AbuseType_value abuse_type) t && in_range score t)
    score RESPONSE_TEMPLATES) as Q1.
  cbv beta in Q1.
  specialize (Q1 ltac:(intros t Ht; apply andb_true_iff in Ht as [_ Ht];
                        apply in_range_le in Ht as [Ht _]; exact Ht)).
  destruct (order_by_min_severity_desc_limit_1
              (List.filter (fun t => abuse_type_is (AbuseType_value abuse_type) t
                                     && in_range score t) RESPONSE_TEMPLATES)) as [b|].
  - destruct Q1 as (Hb & Pb & _). apply andb_true_iff in Pb as [Pb _].
    exists b. split; [exact Hb|]. split; [reflexivity|].
    split; [apply bodies_are_not_fallback, Hb|].
    destruct abuse_type; try (apply abuse_type_is_Some, Pb).
    rewrite (no_template_for_other b Hb) in Pb. discriminate.
  - assert (Hother : abuse_type = OTHER).
    { assert (abuse_type = OTHER \/ abuse_type <> OTHER) as [E|E]
        by (destruct abuse_type; first [left; reflexivity|right; discriminate]).
      { exact E. }
      exfalso.
      destruct (specific_template_exists abuse_type E) as (t & Ht & Pt).
      specialize (Q1 t Ht). rewrite Pt in Q1. cbn [andb] in Q1.
      destruct (specific_templates_any_score t Ht) as [Emin Emax].
      { apply abuse_type_is_Some in Pt. congruence. }
      assert (in_range score t = true) by (apply in_range_le; rewrite Emin, Emax; auto).
      congruence. }
    subst abuse_type.
    pose proof (order_by_spec (fun t => abuse_type_is_null t && in_range score t)
                  score RESPONSE_TEMPLATES) as Q2.
    cbv beta in Q2.
    specialize (Q2 ltac:(intros t Ht; apply andb_true_iff in Ht as [_ Ht];
                          apply in_range_le in Ht as [Ht _]; exact Ht)).
    destruct (baseline_for_bucket (bucket_of score)) as (t0 & Ht0 & Nt0 & Kt0).
    pose proof (baseline_in_range score t0 Hs Ht0 Nt0 Kt0) as Rt0.
    destruct (order_by_min_severity_desc_limit_1
                (List.filter (fun t => abuse_type_is_null t && in_range score t)
                             RESPONSE_TEMPLATES)) as [b|].
    + destruct Q2 as (Hb & Pb & Mb). apply andb_true_iff in Pb as [Nb Rb].
      apply abuse_type_is_null_None in Nb.
      exists b. split; [exact Hb|]. split; [reflexivity|].
      split; [apply bodies_are_not_fallback, Hb|]. split; [exact Nb|].
      specialize (Mb t0 Ht0).
      rewrite (proj2 (abuse_type_is_null_None t0) Nt0), Rt0 in Mb. specialize (Mb eq_refl).
      apply in_range_le in Rb as [Rb1 Rb2].
      unfold bucket_of, Py.ge in *.
      fold (Py.le Py.f0_7 score) in *. fold (Py.le Py.f0_4 score) in *.
      destruct (baseline_templates b Hb Nb) as [(K & Eb & Eb')|[(K & Eb & Eb')|(K & Eb & Eb')]];
        destruct (baseline_templates t0 Ht0 Nt0)
          as [(K0 & E0 & E0')|[(K0 & E0 & E0')|(K0 & E0 & E0')]];
        rewrite K; rewrite K0 in Kt0; rewrite Eb, E0 in Mb; rewrite Eb in Rb1;
        destruct (Py.le Py.f0_7 score) eqn:E7; try discriminate Kt0;
        destruct (Py.le Py.f0_4 score) eqn:E4; try discriminate Kt0;
        try reflexivity; try discriminate Mb; try discriminate Rb1.
    + specialize (Q2 t0 Ht0).
      rewrite (proj2 (abuse_type_is_null_None t0) Nt0), Rt0 in Q2. discriminate.
Qed.

Lemma seeded_catalogue_answers_every_score_witness :
  get_response_template (init_db Scenarios.empty_db) OTHER Py.f0_4 <> FALLBACK_RESPONSE.
Proof.
  destruct (seeded_catalogue_answers_every_score Scenarios.empty_db OTHER Py.f0_4
              eq_refl eq_refl) as (t & _ & _ & H & _).
  exact H.
Defined.

End CatalogueFacts.

(** ** The screening queue *)

Module QueueFacts.
Import Db SpamWorker Screening SpamWorkerFacts.
Local Open Scope string_scope.

Lemma with_reports_same db : with_reports db (distress_reports db) = db.
Proof. destruct db; reflexivity. Qed.

Lemma update_for_same_data cfg w i r x x' :
  update_for cfg w i r x = Ok x' -> same_report_data x x'.
Proof.
  intros H.
  apply update_for_Ok in H as [(verdict & status & label & bucket & _ & _ & _ & _ & ->)|[_ ->]];
    repeat split.
Qed.

Lemma select_unscreened_length reports limit :
  length (select_unscreened reports limit) = Nat.min limit (length (unscreened_rows reports)).
Proof.
  rewrite select_unscreened_take, length_take. unfold sorted_rows.
  rewrite merge_sort_Permutation. reflexivity.
Qed.

(** What a cycle that commits does to the row stored under [id]. *)
Lemma process_batch_row cfg w db db' n id :
  process_batch cfg w db = Ok (db', n) ->
  distress_reports db' !! id = distress_reports db !! id \/
  exists k r r',
    select_unscreened (distress_reports db) (SPAM_WORKER_BATCH_SIZE cfg) !! k = Some (id, r) /\
    distress_reports db !! id = Some r /\
    update_for cfg w k r r = Ok r' /\
    distress_reports db' !! id = Some r'.
Proof.
  intros Hpb.
  set (batch := select_unscreened (distress_reports db) (SPAM_WORKER_BATCH_SIZE cfg)).
  destruct (decide (id ∈ batch.*1)) as [Hin|Hout].
  - right. apply list_elem_of_fmap in Hin as ([id' r] & E & Hin). cbn in E. subst id'.
    apply list_elem_of_lookup_1 in Hin as [k Hk].
    destruct (process_batch_selected cfg w db db' n k id r Hpb Hk) as (r' & Hu & Hr').
    exists k, r, r'. split; [exact Hk|].
    pose proof (select_unscreened_lookup _ _ _ _ _ Hk) as [Hr _]. split; [exact Hr|].
    split; assumption.
  - left. exact (process_batch_other cfg w db db' n id Hpb Hout).
Qed.

Lemma process_batch_dom cfg w db db' n :
  process_batch cfg w db = Ok (db', n) ->
  dom (distress_reports db') = dom (distress_reports db).
Proof.
  intros Hpb. apply set_eq. intros id. rewrite !elem_of_dom.
  destruct (process_batch_row cfg w db db' n id Hpb) as [E|(k & r & r' & _ & Hr & _ & Hr')].
  - rewrite E. reflexivity.
  - rewrite Hr, Hr'. split; intros _; eexists; reflexivity.
Qed.

(** X13: a cycle that finds the store available either commits, and then
    it has processed as many reports as the smaller of the batch size and
    the number of UNSCREENED reports and has left the set of report ids and
    the templates as they were, or raises what the first UPDATE of its
    batch that cannot be executed raises; it commits whenever every UPDATE
    of the batch can be executed. *)
Theorem process_batch_count cfg w db :
  store_up w = true ->
  (Z.of_nat (SPAM_WORKER_BATCH_SIZE cfg) < 2 ^ 63)%Z ->
  match process_batch cfg w db with
  | Ok (db', n) =>
      n = Nat.min (SPAM_WORKER_BATCH_SIZE cfg)
                  (length (unscreened_rows (distress_reports db))) /\
      dom (distress_reports db') = dom (distress_reports db) /\
      response_templates db' = response_templates db
  | Raise e =>
      exists k id r,
        select_unscreened (distress_reports db) (SPAM_WORKER_BATCH_SIZE cfg) !! k
          = Some (id, r) /\
        update_for cfg w k r r = Raise e /\
        forall j id' r', j < k ->
          select_unscreened (distress_reports db) (SPAM_WORKER_BATCH_SIZE cfg) !! j
            = Some (id', r') ->
          exists r'', update_for cfg w j r' r' = Ok r''
  end /\
  ((forall k id r,
      select_unscreened (distress_reports db) (SPAM_WORKER_BATCH_SIZE cfg) !! k
        = Some (id, r) ->
      exists r', update_for cfg w k r r = Ok r') ->
   exists db',
     process_batch cfg w db
     = Ok (db', Nat.min (SPAM_WORKER_BATCH_SIZE cfg)
                        (length (unscreened_rows (distress_reports db))))).
Proof.
  intros Hup Hfit. apply batch_size_fits in Hfit. split.
  - pose proof (process_batch_cases cfg w db Hup Hfit) as H.
    destruct (process_batch cfg w db) as [[db' n]|e] eqn:Hpb; [|exact H].
    destruct H as (-> & Ht & _). split; [apply select_unscreened_length|].
    split; [exact (process_batch_dom cfg w db db' _ Hpb)|exact Ht].
  - intros Hall. destruct (process_batch_commits cfg w db Hup Hfit Hall) as [db' H].
    exists db'. rewrite H, select_unscreened_length. reflexivity.
Qed.

Lemma process_batch_count_witness :
  exists db',
    process_batch (settings "sk-test") (Scenarios.answering Scenarios.low_verdict_reply)
      (Scenarios.one_report_db Scenarios.high_report) = Ok (db', 1) /\
    dom (distress_reports db') = {[ "report-1" ]}.
Proof.
  pose proof (process_batch_count (settings "sk-test")
                (Scenarios.answering Scenarios.low_verdict_reply)
                (Scenarios.one_report_db Scenarios.high_report) eq_refl eq_refl) as [H _].
  destruct (process_batch (settings "sk-test") (Scenarios.answering Scenarios.low_verdict_reply)
              (Scenarios.one_report_db Scenarios.high_report)) as [[db' n]|e] eqn:E.
  - destruct H as (Hn & Hd & _). exists db'. split.
    + f_equal. f_equal. exact Hn.
    + rewrite Hd. apply dom_singleton_L.
  - vm_compute in E. discriminate E.
Defined.

Lemma process_batch_row_data cfg w db db' n id r' :
  process_batch cfg w db = Ok (db', n) ->
  distress_reports db' !! id = Some r' ->
  exists r,
    distress_reports db !! id = Some r /\
    same_report_data r r' /\
    (spam_status r <> "UNSCREENED" -> r' = r).
Proof.
  intros Hpb Hr'.
  destruct (process_batch_row cfg w db db' n id Hpb) as [E|(k & r & r2 & Hk & Hr & Hu & E)].
  - exists r'. rewrite <- E. split; [exact Hr'|]. split; [repeat split|reflexivity].
  - exists r. split; [exact Hr|]. rewrite E in Hr'. injection Hr' as <-.
    split; [exact (update_for_same_data _ _ _ _ _ _ Hu)|].
    intros Hs. apply select_unscreened_lookup in Hk as [_ Hk]. contradiction.
Qed.

(** X14: every report stored after a cycle was stored before it under
    the same id, with every column other than [spam_status],
    [signal_label], [severity_bucket] and [spam_filter_model] unchanged; a
    report that was not UNSCREENED is unchanged altogether. *)
Theorem process_batch_writes_screening_columns_only cfg w db db' n id r' :
  process_batch cfg w db = Ok (db', n) ->
  distress_reports db' !! id = Some r' ->
  exists r,
    distress_reports db !! id = Some r /\
    same_report_data r r' /\
    (spam_status r <> "UNSCREENED" -> r' = r).
Proof. apply process_batch_row_data. Qed.


Lemma process_batch_writes_screening_columns_only_witness :
  exists r,
    distress_reports (Scenarios.one_report_db Scenarios.high_report) !! "report-1" = Some r /\
    same_report_data r Scenarios.screened_high_report.
Proof.
  destruct (process_batch_writes_screening_columns_only (settings "sk-test")
              (Scenarios.answering Scenarios.low_verdict_reply)
              (Scenarios.one_report_db Scenarios.high_report)
              (with_reports (Scenarios.one_report_db Scenarios.high_report)
                 {[ "report-1" := Scenarios.screened_high_report ]})
              1 "report-1" Scenarios.screened_high_report)
    as (r & H1 & H2 & _).
  - vm_compute. reflexivity.
  - vm_compute. reflexivity.
  - exists r. split; [exact H1|exact H2].
Defined.

Lemma unscreened_rows_nil reports :
  (forall id r, reports !! id = Some r -> spam_status r <> "UNSCREENED") ->
  unscreened_rows reports = [].
Proof.
  intros H. unfold unscreened_rows.
  destruct (filter _ (map_to_list reports)) as [|[id r] rest] eqn:E; [reflexivity|exfalso].
  assert (Hin : (id, r) ∈ filter (fun row : string * DistressReport =>
                                    spam_status row.2 = "UNSCREENED") (map_to_list reports))
    by (rewrite E; left).
  apply list_elem_of_filter in Hin as [Hs Hin]. apply elem_of_map_to_list in Hin.
  exact (H id r Hin Hs).
Qed.

Lemma process_batch_idle cfg w db :
  (forall id r, distress_reports db !! id = Some r -> spam_status r <> "UNSCREENED") ->
  process_batch cfg w db = Ok (db, 0) \/ exists e, process_batch cfg w db = Raise e.
Proof.
  intros H. unfold process_batch.
  destruct (store_up w); [|right; eexists; reflexivity].
  destruct (fits_int64 _); [left|right; eexists; reflexivity]. cbv zeta.
  assert (E : select_unscreened (distress_reports db) (SPAM_WORKER_BATCH_SIZE cfg) = []).
  { rewrite select_unscreened_take. unfold sorted_rows. rewrite (unscreened_rows_nil _ H).
    apply take_nil. }
  rewrite E. cbn [screen_reports length]. rewrite with_reports_same. reflexivity.
Qed.

(** X15: when no stored report is UNSCREENED, any number of worker
    cycles, whether the store answers or not, leaves the store exactly as
    it is and never logs that reports were processed. *)
Theorem empty_queue_is_left_alone cfg (ws : list Cycle) db :
  (forall id r, distress_reports db !! id = Some r -> spam_status r <> "UNSCREENED") ->
  (spam_worker_loop cfg ws db).1 = db /\
  Forall (fun e => is_processed e = false) (spam_worker_loop cfg ws db).2.
Proof.
  intros H. induction ws as [|w ws [IH1 IH2]]; cbn [spam_worker_loop].
  - split; [reflexivity|constructor].
  - destruct (process_batch_idle cfg w db H) as [E|[e E]]; rewrite E;
      destruct (spam_worker_loop cfg ws db) as [db2 events]; cbn [fst snd] in *;
      (split; [exact IH1|]); repeat constructor; exact IH2.
Qed.

Lemma empty_queue_is_left_alone_witness :
  (spam_worker_loop (settings "sk-test")
     [Scenarios.answering Scenarios.low_verdict_reply; Scenarios.store_down]
     Scenarios.empty_db).1 = Scenarios.empty_db.
Proof.
  refine (proj1 (empty_queue_is_left_alone (settings "sk-test")
                   [Scenarios.answering Scenarios.low_verdict_reply; Scenarios.store_down]
                   Scenarios.empty_db _)).
  intros id r H. unfold Scenarios.empty_db in H. cbn [distress_reports] in H.
  rewrite lookup_empty in H. discriminate.
Defined.

(** X16: in a cycle that commits, a report of the batch is still
    UNSCREENED afterwards exactly when the classifier returned a verdict
    whose [spam_status] is stored as the text UNSCREENED, as the string
    UNSCREENED is; the verdict is not checked against the enumeration, and
    a failure of the classifier gives MAYBE_SPAM. *)
Theorem screened_row_leaves_queue_unless_told cfg w db db' n k id r :
  process_batch cfg w db = Ok (db', n) ->
  select_unscreened (distress_reports db) (SPAM_WORKER_BATCH_SIZE cfg) !! k = Some (id, r) ->
  exists r',
    distress_reports db' !! id = Some r' /\
    (spam_status r' = "UNSCREENED" <->
     exists result,
       classify_with_llm cfg (post w k) (origin r) (abuse_type r)
         (float_or (agent_severity_score r) Py.f0_5) (str_or (transcript_snippet r) "")
       = Some result /\
       stored_text w (v_spam_status result) = Ok (Some "UNSCREENED")) /\
    (classify_with_llm cfg (post w k) (origin r) (abuse_type r)
       (float_or (agent_severity_score r) Py.f0_5) (str_or (transcript_snippet r) "")
     = None -> spam_status r' = "MAYBE_SPAM") /\
    stored_text w (JString "UNSCREENED") = Ok (Some "UNSCREENED").
Proof.
  intros Hpb Hk.
  destruct (process_batch_selected cfg w db db' n k id r Hpb Hk) as (r' & Hu & Hrow).
  exists r'. split; [exact Hrow|].
  apply update_for_Ok in Hu
    as [(verdict & status & label & bucket & Hc & H1 & _ & _ & ->)|[Hc ->]]; rewrite Hc; cbn.
  - split; [|split; [discriminate|reflexivity]]. split.
    + intros Hs. exists verdict. split; [reflexivity|]. rewrite H1, Hs. reflexivity.
    + intros (result' & [= <-] & Hs). rewrite H1 in Hs. injection Hs as Hs. exact Hs.
  - split; [|split; reflexivity]. split; [discriminate|]. intros (result' & [=] & _).
Qed.

(** A classifier that answers UNSCREENED keeps the report in the queue. *)
Lemma screened_row_leaves_queue_unless_told_witness :
  exists r',
    process_batch (settings "sk-test")
      (Scenarios.answering {[ "spam_status" := JString "UNSCREENED" ]})
      (Scenarios.one_report_db Scenarios.high_report)
    = Ok (with_reports (Scenarios.one_report_db Scenarios.high_report) {[ "report-1" := r' ]}, 1) /\
    spam_status r' = "UNSCREENED".
Proof.
  set (r1 := set_verdict "UNSCREENED" (Some "LOW_SIGNAL") (Some "MEDIUM") "openai/gpt-5-nano"
               Scenarios.high_report).
  assert (E : process_batch (settings "sk-test")
                (Scenarios.answering {[ "spam_status" := JString "UNSCREENED" ]})
                (Scenarios.one_report_db Scenarios.high_report)
              = Ok (with_reports (Scenarios.one_report_db Scenarios.high_report)
                      {[ "report-1" := r1 ]}, 1)) by (vm_compute; reflexivity).
  destruct (screened_row_leaves_queue_unless_told (settings "sk-test")
              (Scenarios.answering {[ "spam_status" := JString "UNSCREENED" ]})
              (Scenarios.one_report_db Scenarios.high_report) _ _
              0 "report-1" Scenarios.high_report E)
    as (r' & H1 & H2 & _).
  - vm_compute. reflexivity.
  - exists r1. split; [exact E|].
    cbn [with_reports distress_reports] in H1. rewrite lookup_singleton_eq in H1.
    injection H1 as <-. apply H2. eexists. split; [vm_compute; reflexivity|reflexivity].
Defined.

Lemma substring_0_all n : forall s, String.length s <= n -> substring 0 n s = s.
Proof.
  induction n as [|n IH]; intros [|a s] H; cbn in *; try reflexivity; try lia.
  rewrite IH by lia. reflexivity.
Qed.

Lemma substring_0_prefix n : forall s, exists rest, s = (substring 0 n s ++ rest)%string.
Proof.
  induction n as [|n IH]; intros [|a s]; cbn.
  - exists "". reflexivity.
  - exists (String a s). reflexivity.
  - exists "". reflexivity.
  - destruct (IH s) as [rest E]. exists rest. change (String a s = String a (substring 0 n s ++ rest)%string). f_equal. exact E.
Qed.

Lemma truncated_text_idem text : truncated_text (truncated_text text) = truncated_text text.
Proof.
  unfold truncated_text. destruct (String.eqb_spec text "") as [E|E]; [reflexivity|].
  destruct (String.eqb_spec (substring 0 512 text) "") as [E'|E']; [congruence|].
  apply substring_0_all, substring_length.
Qed.

Lemma classify_with_llm_truncated cfg post origin abuse_type severity_score text :
  classify_with_llm cfg post origin abuse_type severity_score text
  = classify_with_llm cfg post origin abuse_type severity_score (truncated_text text).
Proof.
  unfold classify_with_llm. destruct (String.eqb (OPENROUTER_API_KEY cfg) ""); [reflexivity|].
  cbv zeta. fold (truncated_text text). fold (truncated_text (truncated_text text)).
  rewrite truncated_text_idem. reflexivity.
Qed.

(** X17: [classify_with_llm] depends on the text only through its
    first 512 characters: two texts that agree on them get the same
    result; the text put into the prompt is at most 512 characters long, is
    the whole text when that is at most 512 characters long, and is always
    a prefix of it. *)
Theorem classifier_sees_first_512_characters cfg post origin abuse_type severity_score
    (text1 text2 : string) :
  substring 0 512 text1 = substring 0 512 text2 ->
  classify_with_llm cfg post origin abuse_type severity_score text1
  = classify_with_llm cfg post origin abuse_type severity_score text2 /\
  String.length (truncated_text text1) <= 512 /\
  (String.length text1 <= 512 -> truncated_text text1 = text1) /\
  exists rest, text1 = (truncated_text text1 ++ rest)%string.
Proof.
  intros H.
  assert (E : truncated_text text1 = truncated_text text2).
  { unfold truncated_text.
    destruct (String.eqb_spec text1 "") as [-> | E1], (String.eqb_spec text2 "") as [-> | E2];
      first [reflexivity | exact H]. }
  split; [|split; [|split]].
  - rewrite (classify_with_llm_truncated _ _ _ _ _ text1),
            (classify_with_llm_truncated _ _ _ _ _ text2), E. reflexivity.
  - unfold truncated_text. destruct (String.eqb text1 ""); [cbn; lia|apply substring_length].
  - intros Hl. unfold truncated_text.
    destruct (String.eqb_spec text1 "") as [-> |_]; [reflexivity|apply substring_0_all, Hl].
  - unfold truncated_text. destruct (String.eqb_spec text1 "") as [-> |_].
    + exists "". reflexivity.
    + apply substring_0_prefix.
Qed.


Lemma unscreened_rows_elem_of reports id r :
  (id, r) ∈ unscreened_rows reports <-> reports !! id = Some r /\ spam_status r = "UNSCREENED".
Proof.
  unfold unscreened_rows. rewrite list_elem_of_filter, elem_of_map_to_list. cbn. tauto.
Qed.

Lemma unscreened_rows_NoDup reports : NoDup (unscreened_rows reports).
Proof. apply NoDup_filter, NoDup_map_to_list. Qed.

(** The rows that stay in the queue are those the batch query left out. *)
Lemma queue_after_cycle cfg w db db' n :
  process_batch cfg w db = Ok (db', n) ->
  (forall k id r result,
     select_unscreened (distress_reports db) (SPAM_WORKER_BATCH_SIZE cfg) !! k = Some (id, r) ->
     classify_with_llm cfg (post w k) (origin r) (abuse_type r)
       (float_or (agent_severity_score r) Py.f0_5) (str_or (transcript_snippet r) "")
     = Some result ->
     stored_text w (v_spam_status result) <> Ok (Some "UNSCREENED")) ->
  unscreened_rows (distress_reports db')
  ≡ₚ drop (SPAM_WORKER_BATCH_SIZE cfg) (sorted_rows (distress_reports db)).
Proof.
  intros Hpb Hv.
  set (limit := SPAM_WORKER_BATCH_SIZE cfg) in *.
  set (sorted := sorted_rows (distress_reports db)).
  pose proof (sorted_NoDup (distress_reports db)) as Hnd. fold sorted in Hnd.
  rewrite <- (take_drop limit sorted), fmap_app in Hnd.
  apply NoDup_app in Hnd as (_ & Hdisj & Hnd2).
  apply NoDup_Permutation.
  - apply unscreened_rows_NoDup.
  - eapply NoDup_fmap_1, Hnd2.
  - intros [id r]. rewrite unscreened_rows_elem_of. split.
    + intros [Hr Hs].
      destruct (process_batch_row cfg w db db' n id Hpb) as [E|(k & r0 & r1 & Hk & Hr0 & Hu & E)].
      * rewrite E in Hr.
        assert (Hin : (id, r) ∈ sorted) by (apply sorted_elem_of; auto).
        rewrite <- (take_drop limit sorted) in Hin.
        apply elem_of_app in Hin as [Hin|Hin]; [|exact Hin]. exfalso.
        change (take limit sorted) with (select_unscreened (distress_reports db) limit) in Hin.
        apply list_elem_of_lookup_1 in Hin as [k Hk].
        destruct (process_batch_selected cfg w db db' n k id r Hpb Hk) as (r1 & Hu & Hrow).
        rewrite E, Hr in Hrow. injection Hrow as <-.
        apply update_for_Ok in Hu
          as [(verdict & status & label & bucket & Hc & H1 & _ & _ & Heq)|[Hc Heq]];
          rewrite Heq in Hs; cbn in Hs.
        -- apply (Hv k id r verdict Hk Hc). rewrite H1, Hs. reflexivity.
        -- discriminate.
      * exfalso. rewrite E in Hr. injection Hr as <-.
        apply update_for_Ok in Hu
          as [(verdict & status & label & bucket & Hc & H1 & _ & _ & Heq)|[Hc Heq]];
          rewrite Heq in Hs; cbn in Hs.
        -- apply (Hv k id r0 verdict Hk Hc). rewrite H1, Hs. reflexivity.
        -- discriminate.
    + intros Hin.
      assert (Hin' : (id, r) ∈ sorted)
        by (rewrite <- (take_drop limit sorted); apply elem_of_app; right; exact Hin).
      apply sorted_elem_of in Hin' as [Hr Hs]. split; [|exact Hs].
      destruct (process_batch_row cfg w db db' n id Hpb) as [E|(k & r0 & r1 & Hk & Hr0 & _ & E)];
        [rewrite E; exact Hr|exfalso].
      apply (Hdisj id).
      * apply list_elem_of_fmap. exists (id, r0). split; [reflexivity|].
        eapply list_elem_of_lookup_2. exact Hk.
      * apply list_elem_of_fmap. exists (id, r). split; [reflexivity|exact Hin].
Qed.

(** X18: when no verdict of a cycle that commits has a [spam_status]
    stored as the text UNSCREENED, the cycle processes n reports, n being
    the smaller of the batch size and the number of UNSCREENED reports, and
    afterwards exactly n fewer reports are UNSCREENED. *)
Theorem queue_shrinks_by_batch cfg w db db' n :
  process_batch cfg w db = Ok (db', n) ->
  (forall k id r result,
     select_unscreened (distress_reports db) (SPAM_WORKER_BATCH_SIZE cfg) !! k = Some (id, r) ->
     classify_with_llm cfg (post w k) (origin r) (abuse_type r)
       (float_or (agent_severity_score r) Py.f0_5) (str_or (transcript_snippet r) "")
     = Some result ->
     stored_text w (v_spam_status result) <> Ok (Some "UNSCREENED")) ->
  n = Nat.min (SPAM_WORKER_BATCH_SIZE cfg) (length (unscreened_rows (distress_reports db))) /\
  length (unscreened_rows (distress_reports db')) + n
  = length (unscreened_rows (distress_reports db)).
Proof.
  intros Hpb Hv.
  rewrite (queue_after_cycle cfg w db db' n Hpb Hv), length_drop.
  assert (Hn : n = Nat.min (SPAM_WORKER_BATCH_SIZE cfg)
                           (length (unscreened_rows (distress_reports db)))).
  { rewrite (proj1 (process_batch_length cfg w db db' n Hpb)). apply select_unscreened_length. }
  split; [exact Hn|].
  assert (El : length (sorted_rows (distress_reports db))
               = length (unscreened_rows (distress_reports db))).
  { unfold sorted_rows. rewrite merge_sort_Permutation. reflexivity. }
  rewrite El. lia.
Qed.


Lemma queue_shrinks_by_batch_witness :
  length (unscreened_rows (<["report-1" := Scenarios.screened_high_report]> ∅)) + 1
  = length (unscreened_rows (distress_reports (Scenarios.one_report_db Scenarios.high_report))).
Proof.
  refine (proj2 (queue_shrinks_by_batch (settings "sk-test")
                   (Scenarios.answering Scenarios.low_verdict_reply)
                   (Scenarios.one_report_db Scenarios.high_report)
                   (with_reports (Scenarios.one_report_db Scenarios.high_report)
                      (<["report-1" := Scenarios.screened_high_report]> ∅))
                   1 _ _)).
  - vm_compute. reflexivity.
  - intros k id r result _ H. vm_compute in H. injection H as <-. discriminate.
Defined.

Lemma classifier_sees_first_512_characters_witness :
  classify_with_llm (settings "sk-test") (fun request => JsonReply {[ "signal_label" := JString (req_text request) ]})
    "WEB_HUMAN" "OTHER" Py.f0_5 (MoreScenarios.long_text ++ "first ending")%string
  = classify_with_llm (settings "sk-test") (fun request => JsonReply {[ "signal_label" := JString (req_text request) ]})
      "WEB_HUMAN" "OTHER" Py.f0_5 (MoreScenarios.long_text ++ "second ending")%string.
Proof.
  refine (proj1 (classifier_sees_first_512_characters (settings "sk-test") _ _ _ _
                   (MoreScenarios.long_text ++ "first ending")%string
                   (MoreScenarios.long_text ++ "second ending")%string _)).
  vm_compute. reflexivity.
Defined.

End QueueFacts.

(** ** Intake and the stores it builds *)

Module IntakeFacts.
Import Binary64 PyFacts OrderFacts Classifiers Scoring Db Responses SpamWorker ClassifierFacts.
Import LabelFacts ScoreFacts Screening QueueFacts Reachability.
Local Open Scope string_scope.

(** What [create_report] does to the store. *)
Lemma create_report_store w request db :
  (Main.create_report w request db).1.2 = db \/
  exists row,
    Main.store_up w = true /\
    distress_reports db !! Main.uuid4 w = None /\
    (Main.create_report w request db).1.2
      = with_reports db (<[Main.uuid4 w := row]> (distress_reports db)) /\
    origin row = "API_AGENT" /\
    spam_status row = "UNSCREENED" /\
    agent_severity_score row = Some (Main.req_severity_score request) /\
    final_severity_score row
      = Some (score_of (Main.req_abuse_type request) (Main.req_severity_score request)
                (Main.req_transcript_snippet request) (Main.req_trigger_rules request)) /\
    severity_bucket row
      = Some (SeverityBucket_value
                (bucket_of (score_of (Main.req_abuse_type request)
                              (Main.req_severity_score request)
                              (Main.req_transcript_snippet request)
                              (Main.req_trigger_rules request)))) /\
    transcript_snippet row = Some (Main.req_transcript_snippet request) /\
    signal_label row = None /\ spam_filter_model row = None.
Proof.
  unfold Main.create_report. rewrite classify_report_eq.
  destruct (Main.store_up w); [|left; reflexivity].
  unfold Main.insert_report.
  destruct (distress_reports db !! Main.uuid4 w) eqn:E; [left; reflexivity|].
  right. eexists. split; [reflexivity|]. split; [reflexivity|]. split; [reflexivity|].
  cbn. repeat split.
Qed.

Lemma create_web_report_store w request db :
  (Main.create_web_report w request db).1.2 = db \/
  exists row,
    Main.store_up w = true /\
    distress_reports db !! Main.uuid4 w = None /\
    (Main.create_web_report w request db).1.2
      = with_reports db (<[Main.uuid4 w := row]> (distress_reports db)) /\
    origin row = "WEB_HUMAN" /\
    spam_status row = "UNSCREENED" /\
    (exists s, agent_severity_score row = Some s /\ final_severity_score row = Some s /\
               Py.in_unit s = true) /\
    (exists bucket, severity_bucket row = Some (SeverityBucket_value bucket)) /\
    transcript_snippet row = Some (Main.description request).
Proof.
  unfold Main.create_web_report.
  set (base := match Main.report_type request with
               | AI_BEING_ABUSED => Py.f0_6
               | AI_BEING_MISUSED_TO_HARM_OTHERS => Py.f0_7
               | OTHER_CONCERN => Py.f0_5
               end).
  set (initial := if Main.is_urgent request then Py.min (Py.add base Py.f0_2) Py.f1_0 else base).
  assert (Hb : Py.in_unit base = true) by (unfold base; destruct (Main.report_type request); reflexivity).
  assert (Hi : Py.in_unit initial = true).
  { unfold initial. destruct (Main.is_urgent request); [|exact Hb].
    apply (bump_unit Py.f0_2 base delta_0_2 Hb). }
  rewrite classify_report_eq.
  destruct (Main.store_up w); [|left; reflexivity].
  unfold Main.insert_report.
  destruct (distress_reports db !! Main.uuid4 w) eqn:E; [left; reflexivity|].
  right. eexists. split; [reflexivity|]. split; [reflexivity|]. split; [reflexivity|].
  cbn. split; [reflexivity|]. split; [reflexivity|].
  split; [exists initial; auto|]. split; [eexists; reflexivity|reflexivity].
Qed.


(** X19: when the store answers and the drawn id is fresh,
    [create_report] answers with that id, the final score, the labels and
    the message of [get_response_template], and stores under that id a
    report of origin API_AGENT, UNSCREENED, holding the caller score, the
    same final score and labels as the response, the bucket and the
    snippet; every other report and the templates are unchanged. *)
Theorem accepted_agent_report_round_trip w request db :
  Main.store_up w = true ->
  distress_reports db !! Main.uuid4 w = None ->
  let '(final_score, labels, bucket) :=
    classify_report (Main.req_abuse_type request) (Main.req_severity_score request)
      (Main.req_transcript_snippet request) (Main.req_trigger_rules request) in
  let '(response, db', sent) := Main.create_report w request db in
  response = Main.Http200
               {| Main.report_id := Main.uuid4 w;
                  Main.final_severity_score := final_score;
                  Main.classification_labels := labels;
                  Main.message_to_agent :=
                    get_response_template db (Main.req_abuse_type request) final_score |} /\
  (exists row,
     distress_reports db' !! Main.uuid4 w = Some row /\
     origin row = "API_AGENT" /\
     received_at row = Main.now w /\
     spam_status row = "UNSCREENED" /\
     agent_severity_score row = Some (Main.req_severity_score request) /\
     final_severity_score row = Some final_score /\
     classification_labels row = Some labels /\
     severity_bucket row = Some (SeverityBucket_value bucket) /\
     transcript_snippet row = Some (Main.req_transcript_snippet request)) /\
  (forall id, id <> Main.uuid4 w -> distress_reports db' !! id = distress_reports db !! id) /\
  response_templates db' = response_templates db.
Proof.
  intros Hup Hfresh. unfold Main.create_report.
  destruct (classify_report _ _ _ _) as [[final_score labels] bucket].
  rewrite Hup. unfold Main.insert_report. rewrite Hfresh.
  split; [reflexivity|]. split; [|split; [|reflexivity]].
  - eexists. cbn [with_reports distress_reports]. rewrite lookup_insert_eq.
    split; [reflexivity|]. cbn. repeat split.
  - intros id Hid. cbn [with_reports distress_reports]. apply lookup_insert_ne. congruence.
Qed.


Lemma accepted_agent_report_round_trip_witness :
  exists row,
    distress_reports Scenarios.zero_score_db !! "report-1" = Some row /\
    agent_severity_score row = Some Py.f0_0 /\
    spam_status row = "UNSCREENED" /\
    severity_bucket row = Some "LOW".
Proof.
  pose proof (accepted_agent_report_round_trip (Scenarios.a_world true)
                Scenarios.zero_score_request (init_db Scenarios.empty_db) eq_refl eq_refl) as H.
  assert (E : classify_report VERBAL_ABUSE Py.f0_0 "be quiet" None = (Py.f0_0, [], LOW))
    by (vm_compute; reflexivity).
  unfold Scenarios.zero_score_db.
  unfold Scenarios.zero_score_request in H.
  cbn [Main.req_abuse_type Main.req_severity_score Main.req_transcript_snippet
       Main.req_trigger_rules] in H.
  rewrite E in H. fold Scenarios.zero_score_request in H.
  destruct (Main.create_report (Scenarios.a_world true) Scenarios.zero_score_request
              (init_db Scenarios.empty_db)) as [[response db'] sent].
  destruct H as (_ & (row & H1 & _ & _ & H4 & H5 & _ & _ & H8 & _) & _).
  exists row. cbn [fst snd]. split; [exact H1|]. split; [exact H5|]. split; [exact H4|exact H8].
Defined.

(** X20: when a report is already stored under the drawn id, neither
    intake overwrites it: [create_report] answers with the degraded payload
    and [create_web_report] with the error 500, both leave the store as it
    is and send no notification. *)
Theorem intake_never_overwrites w agent_request web_request db r :
  distress_reports db !! Main.uuid4 w = Some r ->
  Main.create_report w agent_request db = (Main.Http200 Main.degraded_response, db, []) /\
  Main.create_web_report w web_request db = (Main.HTTPException 500 "Internal error", db, []).
Proof.
  intros Hr. unfold Main.create_report, Main.create_web_report, Main.insert_report.
  rewrite Hr. split.
  - destruct (classify_report _ _ _ _) as [[fs lb] b]. destruct (Main.store_up w); reflexivity.
  - destruct (classify_report _ _ _ _) as [[fs lb] b]. destruct (Main.store_up w); reflexivity.
Qed.

Lemma intake_never_overwrites_witness :
  (Main.create_report (Scenarios.a_world true) Scenarios.zero_score_request
     (Scenarios.one_report_db Scenarios.high_report)).1.2
  = Scenarios.one_report_db Scenarios.high_report.
Proof.
  destruct (intake_never_overwrites (Scenarios.a_world true) Scenarios.zero_score_request
              Scenarios.a_web_request (Scenarios.one_report_db Scenarios.high_report)
              Scenarios.high_report) as [H _].
  - vm_compute. reflexivity.
  - rewrite H. reflexivity.
Defined.

(** X21: whatever the request and whatever happens, the two intake
    endpoints keep every stored report as it is, change at most the entry
    of the drawn id, and leave the templates alone. *)
Theorem intake_keeps_stored_reports w agent_request web_request db :
  let after_agent := (Main.create_report w agent_request db).1.2 in
  let after_web := (Main.create_web_report w web_request db).1.2 in
  (forall id r, distress_reports db !! id = Some r ->
     distress_reports after_agent !! id = Some r /\ distress_reports after_web !! id = Some r) /\
  (forall id, id <> Main.uuid4 w ->
     distress_reports after_agent !! id = distress_reports db !! id /\
     distress_reports after_web !! id = distress_reports db !! id) /\
  response_templates after_agent = response_templates db /\
  response_templates after_web = response_templates db.
Proof.
  cbv zeta.
  destruct (create_report_store w agent_request db) as [-> |(row & _ & Hf & -> & _)];
    destruct (create_web_report_store w web_request db) as [-> |(row' & _ & Hf' & -> & _)];
    cbn [with_reports distress_reports response_templates];
    (split; [|split; [|split; reflexivity]]).
  all: try (intros id r Hr; split; try exact Hr;
            rewrite lookup_insert_ne by congruence; exact Hr).
  all: intros id Hid; split; try reflexivity; apply lookup_insert_ne; congruence.
Qed.

Lemma update_for_bucket cfg w i r x x' bucket :
  severity_bucket x = Some bucket -> update_for cfg w i r x = Ok x' ->
  severity_bucket x' = Some bucket.
Proof.
  intros H Hu.
  apply SpamWorkerFacts.update_for_Ok in Hu
    as [(verdict & status & label & b & _ & _ & _ & _ & ->)|[_ ->]]; cbn.
  - rewrite H. reflexivity.
  - exact H.
Qed.

Lemma same_report_data_well_formed r r' :
  same_report_data r r' -> severity_bucket r' = severity_bucket r ->
  well_formed r -> well_formed r'.
Proof.
  intros (Ho & _ & _ & _ & _ & _ & Ha & Hf & Ht & _) Hb (W1 & W2 & W3 & W4 & W5 & W6).
  unfold well_formed. rewrite Ho, Hb, Hf, Ha, Ht. repeat split; assumption.
Qed.

Lemma process_batch_keeps_bucket cfg w db db' n id r :
  process_batch cfg w db = Ok (db', n) ->
  distress_reports db !! id = Some r ->
  (exists bucket, severity_bucket r = Some bucket) ->
  exists r', distress_reports db' !! id = Some r' /\
             same_report_data r r' /\ severity_bucket r' = severity_bucket r.
Proof.
  intros Hpb Hr [bucket Hb].
  destruct (process_batch_row cfg w db db' n id Hpb) as [E|(k & r0 & r1 & Hk & Hr0 & Hu & E)].
  - exists r. rewrite E. split; [exact Hr|]. split; [repeat split|reflexivity].
  - rewrite Hr in Hr0. injection Hr0 as <-. exists r1.
    split; [exact E|]. split; [exact (update_for_same_data _ _ _ _ _ _ Hu)|].
    rewrite Hb. exact (update_for_bucket _ _ _ _ _ _ _ Hb Hu).
Qed.

Lemma reachable_well_formed db :
  reachable db -> forall id r, distress_reports db !! id = Some r -> well_formed r.
Proof.
  induction 1 as [db Hempty|db db' Hreach IH Hstep]; intros id r Hr.
  - cbn [init_db distress_reports] in Hr. rewrite Hempty, lookup_empty in Hr. discriminate.
  - destruct Hstep as [w request Hvalid|w request|cfg w db' n Hpb].
    + destruct (create_report_store w request db)
        as [E|(row & _ & _ & E & Ho & _ & Ha & Hf & Hb & Ht & _)]; rewrite E in Hr;
        [exact (IH id r Hr)|].
      cbn [with_reports distress_reports] in Hr.
      destruct (decide (id = Main.uuid4 w)) as [-> |Hne];
        [|rewrite lookup_insert_ne in Hr by congruence; exact (IH id r Hr)].
      rewrite lookup_insert_eq in Hr. injection Hr as <-.
      pose proof (score_of_unit (Main.req_abuse_type request) _
                    (Main.req_transcript_snippet request) (Main.req_trigger_rules request)
                    Hvalid) as Hu.
      unfold well_formed. rewrite Ho, Ha, Hf, Hb, Ht.
      split; [left; reflexivity|]. split; [eexists; reflexivity|].
      split; [eexists; split; [reflexivity|exact Hu]|].
      split; [eexists; split; [reflexivity|exact Hvalid]|].
      split; [eexists; reflexivity|]. intros _. eexists. split; reflexivity.
    + destruct (create_web_report_store w request db)
        as [E|(row & _ & _ & E & Ho & _ & (s & Ha & Hf & Hu) & Hb & Ht)]; rewrite E in Hr;
        [exact (IH id r Hr)|].
      cbn [with_reports distress_reports] in Hr.
      destruct (decide (id = Main.uuid4 w)) as [-> |Hne];
        [|rewrite lookup_insert_ne in Hr by congruence; exact (IH id r Hr)].
      rewrite lookup_insert_eq in Hr. injection Hr as <-.
      unfold well_formed. rewrite Ho, Ha, Hf, Ht.
      split; [right; reflexivity|]. split; [exact Hb|].
      split; [exists s; auto|]. split; [exists s; auto|].
      split; [eexists; reflexivity|]. discriminate.
    + destruct (process_batch_row_data cfg w db db' n id r Hpb Hr)
        as (r0 & Hr0 & _ & _).
      pose proof (IH id r0 Hr0) as W0.
      destruct W0 as (W1 & [bucket W2] & W3).
      destruct (process_batch_keeps_bucket cfg w db db' n id r0 Hpb Hr0)
        as (r' & Hr' & Hsame & Hb); [exists (SeverityBucket_value bucket); exact W2|].
      rewrite Hr in Hr'. injection Hr' as <-.
      apply (same_report_data_well_formed r0 r Hsame Hb).
      split; [exact W1|]. split; [exists bucket; exact W2|exact W3].
Qed.

(** X22: in every store that the service can build (from a store
    without reports, by [init_db], accepted agent reports with a valid
    score, web reports and worker cycles), every report has origin
    API_AGENT or WEB_HUMAN, a bucket LOW, MEDIUM or HIGH, an agent score, a
    final score in the unit interval and a snippet; and for an agent report
    the bucket is the bucket of the stored final score. *)
Theorem reachable_reports_are_well_formed db id r :
  reachable db -> distress_reports db !! id = Some r -> well_formed r.
Proof. intros H. apply (reachable_well_formed db H). Qed.

Lemma reachable_zero_score_db : reachable Scenarios.zero_score_db.
Proof.
  apply (reachable_transition (init_db Scenarios.empty_db)).
  - apply reachable_init. reflexivity.
  - apply (agent_report _ (Scenarios.a_world true) Scenarios.zero_score_request). reflexivity.
Defined.

Lemma reachable_reports_are_well_formed_witness :
  exists r, distress_reports Scenarios.zero_score_db !! "report-1" = Some r /\ well_formed r.
Proof.
  destruct (distress_reports Scenarios.zero_score_db !! "report-1") as [r|] eqn:E;
    [|vm_compute in E; discriminate].
  exists r. split; [reflexivity|].
  exact (reachable_reports_are_well_formed Scenarios.zero_score_db "report-1" r
           reachable_zero_score_db E).
Defined.

(** X23: on a store that the service can build, a worker cycle never
    changes the severity bucket or the final score of any report (the
    verdict's bucket is never written, because no bucket is NULL), and the
    reports stay well formed. *)
Theorem screening_never_writes_bucket_of_reachable_store cfg w db db' n id r' :
  reachable db ->
  process_batch cfg w db = Ok (db', n) ->
  distress_reports db' !! id = Some r' ->
  exists r,
    distress_reports db !! id = Some r /\
    severity_bucket r' = severity_bucket r /\
    final_severity_score r' = final_severity_score r /\
    well_formed r'.
Proof.
  intros Hreach Hpb Hr'.
  destruct (process_batch_row_data cfg w db db' n id r' Hpb Hr')
    as (r & Hr & Hsame & _).
  pose proof (reachable_well_formed db Hreach id r Hr) as W.
  destruct (process_batch_keeps_bucket cfg w db db' n id r Hpb Hr) as (r2 & Hr2 & _ & Hb).
  { destruct W as (_ & [bucket Wb] & _). eexists. exact Wb. }
  rewrite Hr' in Hr2. injection Hr2 as <-.
  exists r. split; [exact Hr|]. split; [exact Hb|].
  split; [apply Hsame|].
  apply (reachable_well_formed db' (reachable_transition db db' Hreach
                                      (screening db cfg w db' n Hpb)) id r' Hr').
Qed.


Lemma screening_never_writes_bucket_of_reachable_store_witness :
  exists db' n r',
    process_batch (settings "sk-test") (Scenarios.answering Scenarios.low_verdict_reply)
      Scenarios.zero_score_db = Ok (db', n) /\
    distress_reports db' !! "report-1" = Some r' /\
    severity_bucket r' = Some "LOW" /\
    spam_status r' = "NOT_SPAM".
Proof.
  set (cfg := settings "sk-test").
  set (w := Scenarios.answering Scenarios.low_verdict_reply).
  destruct (process_batch cfg w Scenarios.zero_score_db) as [[db' n]|e] eqn:Hpb;
    [|vm_compute in Hpb; discriminate Hpb].
  destruct (distress_reports db' !! "report-1") as [r'|] eqn:Hr';
    [|vm_compute in Hpb; injection Hpb as <- _; vm_compute in Hr'; discriminate Hr'].
  destruct (screening_never_writes_bucket_of_reachable_store cfg w Scenarios.zero_score_db
              db' n "report-1" r' reachable_zero_score_db Hpb Hr')
    as (r0 & Hr0 & Hb & _).
  exists db', n, r'. split; [reflexivity|]. split; [exact Hr'|]. split.
  - rewrite Hb. vm_compute in Hr0. injection Hr0 as <-. reflexivity.
  - vm_compute in Hpb. injection Hpb as <- _. vm_compute in Hr'. injection Hr' as <-.
    reflexivity.
Defined.

End IntakeFacts.

(** ** Notifications *)

Module NotificationFacts.
Import Classifiers Scoring Db Responses Notifications ClassifierFacts LabelFacts QueueFacts.
Import SpamWorkerFacts.
Local Open Scope string_scope.

Lemma length_append (a b : string) :
  String.length (a ++ b) = String.length a + String.length b.
Proof.
  induction a as [|c a IH]; [reflexivity|].
  change (S (String.length (a ++ b)) = S (String.length a + String.length b)).
  f_equal. exact IH.
Qed.

Lemma notify_new_report_content report_id origin abuse_type severity_bucket snippet :
  content (notify_new_report report_id origin abuse_type severity_bucket snippet)
  = "Origin: " ++ origin ++ LF ++ LF ++
    (if (150 <? String.length snippet)%nat then substring 0 150 snippet ++ "..." else snippet) ++
    LF ++ LF ++ "ID: " ++ substring 0 8 report_id ++ "...".
Proof.
  unfold notify_new_report.
  destruct (String.eqb severity_bucket "HIGH"); [reflexivity|].
  destruct (String.eqb severity_bucket "MEDIUM"); reflexivity.
Qed.

(** X24: the body of the notification for a new report is at most
    180 characters longer than the origin, however long the snippet and the
    id are; a snippet of at most 150 characters and an id of at most 8 are
    carried whole; and the request goes to the fixed ntfy topic. *)
Theorem notification_body_is_bounded report_id origin abuse_type severity_bucket snippet :
  let post := notify_new_report report_id origin abuse_type severity_bucket snippet in
  String.length (content post) <= String.length origin + 180 /\
  (String.length snippet <= 150 ->
   String.length report_id <= 8 ->
   content post
   = "Origin: " ++ origin ++ LF ++ LF ++ snippet ++ LF ++ LF ++ "ID: " ++ report_id ++ "...") /\
  url post = "https://ntfy.sh/aiabusehotline-alerts".
Proof.
  cbv zeta. rewrite notify_new_report_content. split; [|split].
  - rewrite !length_append.
    pose proof (substring_length 8 report_id) as H8.
    assert (Hs : String.length (if (150 <? String.length snippet)%nat
                                then substring 0 150 snippet ++ "..." else snippet) <= 153).
    { destruct (Nat.ltb_spec 150 (String.length snippet)) as [H|H]; [|lia].
      rewrite length_append. pose proof (substring_length 150 snippet). cbn. lia. }
    set (x := String.length (if (150 <? String.length snippet)%nat
                             then substring 0 150 snippet ++ "..." else snippet)) in *.
    set (y := String.length (substring 0 8 report_id)) in *.
    set (z := String.length origin).
    unfold LF. cbn [String.length]. lia.
  - intros Hs Hi. apply Nat.ltb_ge in Hs. rewrite Hs.
    rewrite (substring_0_all 8 report_id Hi). reflexivity.
  - unfold notify_new_report.
    destruct (String.eqb severity_bucket "HIGH"); [reflexivity|].
    destruct (String.eqb severity_bucket "MEDIUM"); reflexivity.
Qed.

Lemma announce_headers n bucket :
  Main.n_severity_bucket n = SeverityBucket_value bucket ->
  headers (announce n) = headers_of bucket.
Proof.
  intros H. unfold announce, notify_new_report. rewrite H. destruct bucket; reflexivity.
Qed.

(** X25: a notification that the intake sends is posted with the
    priority and the tags of the bucket that [classify_report] gave the
    report (high for HIGH, default for MEDIUM, low for LOW), carries the
    drawn id, and is the only one sent; for a web report the bucket is the
    stored one and the notification names the web report type. *)
Theorem alert_priority_follows_bucket w agent_request web_request db n :
  (n ∈ (Main.create_report w agent_request db).2 ->
   let '(final_score, labels, bucket) :=
     classify_report (Main.req_abuse_type agent_request) (Main.req_severity_score agent_request)
       (Main.req_transcript_snippet agent_request) (Main.req_trigger_rules agent_request) in
   headers (announce n) = headers_of bucket /\
   Main.n_report_id n = Main.uuid4 w /\
   Main.n_abuse_type n = AbuseType_value (Main.req_abuse_type agent_request) /\
   (Main.create_report w agent_request db).2 = [n]) /\
  (n ∈ (Main.create_web_report w web_request db).2 ->
   exists bucket,
     severity_bucket <$> (distress_reports (Main.create_web_report w web_request db).1.2
                            !! Main.uuid4 w)
       = Some (Some (SeverityBucket_value bucket)) /\
     headers (announce n) = headers_of bucket /\
     Main.n_report_id n = Main.uuid4 w /\
     Main.n_abuse_type n = WebReportType_value (Main.report_type web_request)).
Proof.
  split.
  - unfold Main.create_report.
    destruct (classify_report _ _ _ _) as [[final_score labels] bucket].
    destruct (Main.store_up w); [|intros H; inversion H].
    destruct (Main.insert_report _ _ _); [|intros H; inversion H].
    unfold Main.notify_new_report. destruct (Main.notify_up w); [|intros H; inversion H].
    cbn [snd]. intros H. apply list_elem_of_singleton in H. subst n.
    split; [apply announce_headers; reflexivity|repeat split].
  - unfold Main.create_web_report.
    destruct (classify_report _ _ _ _) as [[final_score labels] bucket].
    destruct (Main.store_up w); [|intros H; inversion H].
    unfold Main.insert_report.
    destruct (distress_reports db !! Main.uuid4 w); [intros H; inversion H|].
    unfold Main.notify_new_report. destruct (Main.notify_up w); [|intros H; inversion H].
    cbn [fst snd]. intros H. apply list_elem_of_singleton in H. subst n.
    exists bucket. cbn [with_reports distress_reports]. rewrite lookup_insert_eq.
    split; [reflexivity|]. split; [apply announce_headers; reflexivity|repeat split].
Qed.


Lemma alert_priority_follows_bucket_witness :
  exists n,
    (Main.create_report (Scenarios.a_world true) Scenarios.zero_score_request
       (init_db Scenarios.empty_db)).2 = [n] /\
    headers (announce n) = headers_of LOW.
Proof.
  set (n := {| Main.n_report_id := "report-1"; Main.n_origin := "API_AGENT";
               Main.n_abuse_type := "VERBAL_ABUSE"; Main.n_severity_bucket := "LOW";
               Main.n_snippet := "be quiet" |}).
  assert (Hs : (Main.create_report (Scenarios.a_world true) Scenarios.zero_score_request
                  (init_db Scenarios.empty_db)).2 = [n]) by (vm_compute; reflexivity).
  exists n. split; [exact Hs|].
  pose proof (proj1 (alert_priority_follows_bucket (Scenarios.a_world true)
                       Scenarios.zero_score_request Scenarios.a_web_request
                       (init_db Scenarios.empty_db) n)) as H.
  rewrite Hs in H. specialize (H (list_elem_of_here _ _)).
  assert (E : classify_report VERBAL_ABUSE Py.f0_0 "be quiet" None = (Py.f0_0, [], LOW))
    by (vm_compute; reflexivity).
  unfold Scenarios.zero_score_request in H.
  cbn [Main.req_abuse_type Main.req_severity_score Main.req_transcript_snippet
       Main.req_trigger_rules] in H.
  rewrite E in H. exact (proj1 H).
Defined.

End NotificationFacts.

(** ** The admin endpoints *)

Module AdminFacts.
Import Classifiers Scoring Db SpamWorker AdminApi Reachability SpamWorkerFacts IntakeFacts.
Local Open Scope string_scope.
Local Open Scope list_scope.

Section counting.
Context {A : Type} (P1 P2 P3 : A -> Prop).
Context `{forall x, Decision (P1 x)} `{forall x, Decision (P2 x)} `{forall x, Decision (P3 x)}.

Lemma count_disjoint (l : list A) :
  (forall x, x ∈ l -> ~ (P1 x /\ P2 x) /\ ~ (P1 x /\ P3 x) /\ ~ (P2 x /\ P3 x)) ->
  length (filter P1 l) + length (filter P2 l) + length (filter P3 l) <= length l /\
  ((forall x, x ∈ l -> P1 x \/ P2 x \/ P3 x) ->
   length (filter P1 l) + length (filter P2 l) + length (filter P3 l) = length l).
Proof.
  induction l as [|a l IH]; intros Hd; [split; [reflexivity|intros; reflexivity]|].
  destruct IH as [IH1 IH2]; [intros x Hx; apply Hd; right; exact Hx|].
  destruct (Hd a ltac:(left)) as (D12 & D13 & D23).
  rewrite !filter_cons. split.
  - destruct (decide (P1 a)), (decide (P2 a)), (decide (P3 a)); cbn [length]; tauto || lia.
  - intros Hc. specialize (IH2 ltac:(intros x Hx; apply Hc; right; exact Hx)).
    pose proof (Hc a ltac:(left)) as Ha.
    destruct (decide (P1 a)), (decide (P2 a)), (decide (P3 a)); cbn [length]; tauto || lia.
Qed.

End counting.

Lemma count_where_total reports : count_where (fun _ => True) reports = size reports.
Proof.
  unfold count_where. rewrite <- length_map_to_list. f_equal.
  induction (map_to_list reports) as [|a l IH]; [reflexivity|].
  rewrite filter_cons_True by exact I. f_equal. exact IH.
Qed.

Lemma verify_admin_token_ok token : verify_admin_token token token = Returned true.
Proof. unfold verify_admin_token. rewrite String.eqb_refl. reflexivity. Qed.

Lemma verify_admin_token_wrong ADMIN_TOKEN x_admin_token :
  x_admin_token <> ADMIN_TOKEN ->
  verify_admin_token ADMIN_TOKEN x_admin_token = HttpError 401 "Invalid admin token".
Proof.
  intros H. unfold verify_admin_token. apply String.eqb_neq in H. rewrite H. reflexivity.
Qed.

(** X26: [get_stats_summary] answers a wrong token with the error 401
    whatever the store; with the right token the total is the number of
    stored reports, and the counts by origin, by the three spam statuses it
    reads (MAYBE_SPAM is not one of them) and by bucket each add up to at
    most the total; on a store that the service can build the counts by
    origin and the counts by bucket add up to the total exactly. *)
Theorem stats_summary_counts ADMIN_TOKEN x_admin_token db :
  (x_admin_token <> ADMIN_TOKEN ->
   forall store_up,
     get_stats_summary ADMIN_TOKEN x_admin_token store_up db
     = HttpError 401 "Invalid admin token") /\
  (x_admin_token = ADMIN_TOKEN ->
   exists stats,
     get_stats_summary ADMIN_TOKEN x_admin_token true db = Returned stats /\
     total_reports stats = size (distress_reports db) /\
     api_reports stats + web_reports stats <= total_reports stats /\
     spam_count stats + not_spam_count stats + unscreened_count stats <= total_reports stats /\
     high_severity_count stats + medium_severity_count stats + low_severity_count stats
       <= total_reports stats /\
     (reachable db ->
      api_reports stats + web_reports stats = total_reports stats /\
      high_severity_count stats + medium_severity_count stats + low_severity_count stats
        = total_reports stats)).
Proof.
  split.
  - intros Hw store_up. unfold get_stats_summary.
    rewrite (verify_admin_token_wrong _ _ Hw). reflexivity.
  - intros ->. unfold get_stats_summary. rewrite verify_admin_token_ok.
    eexists. split; [reflexivity|].
    cbn [total_reports api_reports web_reports spam_count not_spam_count unscreened_count
         high_severity_count medium_severity_count low_severity_count].
    set (l := map_to_list (distress_reports db)).
    assert (Et : count_where (fun _ => True) (distress_reports db) = length l)
      by (rewrite count_where_total; symmetry; apply length_map_to_list).
    split; [apply count_where_total|]. rewrite Et. unfold count_where. fold l.
    pose proof (count_disjoint
                  (fun row : string * DistressReport => origin row.2 = "API_AGENT")
                  (fun row : string * DistressReport => origin row.2 = "WEB_HUMAN")
                  (fun _ => False) l) as Ho.
    destruct Ho as [Ho1 Ho2].
    { intros x _. split; [|split]; try tauto. intros [E1 E2]. rewrite E1 in E2. discriminate. }
    pose proof (count_disjoint
                  (fun row : string * DistressReport => spam_status row.2 = "SPAM")
                  (fun row : string * DistressReport => spam_status row.2 = "NOT_SPAM")
                  (fun row : string * DistressReport => spam_status row.2 = "UNSCREENED")
                  l) as [Hs1 _].
    { intros x _. split; [|split]; intros [E1 E2]; rewrite E1 in E2; discriminate. }
    pose proof (count_disjoint
                  (fun row : string * DistressReport => severity_bucket row.2 = Some "HIGH")
                  (fun row : string * DistressReport => severity_bucket row.2 = Some "MEDIUM")
                  (fun row : string * DistressReport => severity_bucket row.2 = Some "LOW")
                  l) as [Hb1 Hb2].
    { intros x _. split; [|split]; intros [E1 E2]; rewrite E1 in E2; discriminate. }
    assert (Hf : length (filter (fun _ : string * DistressReport => False) l) = 0).
    { clear. induction l as [|a l IH]; [reflexivity|].
      rewrite filter_cons_False by tauto. exact IH. }
    rewrite Hf in Ho1, Ho2.
    split; [lia|]. split; [exact Hs1|]. split; [exact Hb1|].
    intros Hreach.
    assert (Hwf : forall row, row ∈ l -> well_formed row.2).
    { intros [id r] Hin. apply elem_of_map_to_list in Hin.
      apply (reachable_well_formed db Hreach id r Hin). }
    split.
    + rewrite <- Ho2; [lia|]. intros row Hin. destruct (Hwf row Hin) as ([E|E] & _); auto.
    + apply Hb2. intros row Hin. destruct (Hwf row Hin) as (_ & [bucket E] & _).
      rewrite E. destruct bucket; cbn; auto.
Qed.


Lemma stats_summary_counts_witness :
  exists stats,
    get_stats_summary "secret" "secret" true Scenarios.zero_score_db = Returned stats /\
    api_reports stats + web_reports stats = total_reports stats /\
    total_reports stats = 1.
Proof.
  destruct (proj2 (stats_summary_counts "secret" "secret" Scenarios.zero_score_db) eq_refl)
    as (stats & H1 & H2 & _ & _ & _ & H6).
  exists stats. split; [exact H1|]. split; [exact (proj1 (H6 reachable_zero_score_db))|].
  rewrite H2. vm_compute. reflexivity.
Defined.

Lemma received_ge_trans : Transitive received_ge.
Proof. intros a b c Hab Hbc. unfold received_ge in *. eapply string_leb_trans; eassumption. Qed.

Lemma received_ge_total : Total received_ge.
Proof. intros a b. unfold received_ge. destruct (String.leb_total (received_at a.2) (received_at b.2)); auto. Qed.

Lemma listing_sorted origin spam_status severity_bucket reports :
  StronglySorted received_ge (listing origin spam_status severity_bucket reports).
Proof.
  apply (@StronglySorted_merge_sort _ received_ge _ received_ge_trans received_ge_total).
Qed.

Lemma listing_elem_of origin spam_status severity_bucket reports id r :
  (id, r) ∈ listing origin spam_status severity_bucket reports <->
  reports !! id = Some r /\
  column_is origin (Some (Db.origin r)) = true /\
  column_is spam_status (Some (Db.spam_status r)) = true /\
  column_is severity_bucket (Db.severity_bucket r) = true.
Proof.
  unfold listing. rewrite merge_sort_Permutation, list_elem_of_filter, elem_of_map_to_list.
  cbn [snd]. rewrite !andb_true_iff. tauto.
Qed.

Lemma listing_NoDup origin spam_status severity_bucket reports :
  NoDup (listing origin spam_status severity_bucket reports).*1.
Proof.
  unfold listing. rewrite merge_sort_Permutation.
  apply (sublist_NoDup _ (map_to_list reports).*1); [apply NoDup_fst_map_to_list|].
  apply fmap_sublist, sublist_filter.
Qed.

Lemma limit_offset_sublist {A : Type} limit offset (rows : list A) :
  limit_offset limit offset rows `sublist_of` rows.
Proof.
  unfold limit_offset. destruct (limit <? 0)%Z.
  - apply sublist_drop.
  - etransitivity; [apply sublist_take|apply sublist_drop].
Qed.

Lemma limit_offset_sorted {A : Type} (R : relation A) limit offset (rows : list A) :
  StronglySorted R rows -> StronglySorted R (limit_offset limit offset rows).
Proof.
  intros H. unfold limit_offset.
  assert (Hd : StronglySorted R (drop (Z.to_nat offset) rows)).
  { rewrite <- (take_drop (Z.to_nat offset) rows) in H. eapply StronglySorted_app_1_r, H. }
  destruct (limit <? 0)%Z; [exact Hd|].
  rewrite <- (take_drop (Z.to_nat limit) (drop (Z.to_nat offset) rows)) in Hd.
  eapply StronglySorted_app_1_l, Hd.
Qed.

(** The filter that becomes a condition of the query. *)
Lemma column_is_given value column :
  value <> "" -> column_is (Some value) column = true <-> column = Some value.
Proof.
  intros Hv. unfold column_is. destruct value as [|a v]; [contradiction|].
  destruct column as [x|]; [|split; discriminate].
  rewrite String.eqb_eq. split; [intros ->; reflexivity|intros [= ->]; reflexivity].
Qed.

Lemma fits_int64_spec n : fits_int64 n = true <-> (- 2 ^ 63 <= n < 2 ^ 63)%Z.
Proof.
  unfold fits_int64. rewrite andb_true_iff, Z.leb_le, Z.ltb_lt. reflexivity.
Qed.

(** X27: with the right token and a limit of at most 500, which is what
    the validation of the request lets through, [list_reports] raises
    OverflowError when the limit or the offset is not a 64-bit integer, and
    otherwise returns rows and their number; a limit that is not negative
    bounds that number; a negative limit (which the bound of 500 lets
    through) returns every matching row after the offset; the rows have
    distinct ids, are ordered by [received_at] descending, are stored
    reports, and meet every filter that was given and is not empty. *)
Theorem list_reports_page token limit offset origin spam_status severity_bucket db :
  (limit <= 500)%Z ->
  ((limit < - 2 ^ 63 \/ offset < - 2 ^ 63 \/ 2 ^ 63 <= offset)%Z ->
   list_reports token token true limit offset origin spam_status severity_bucket db
     = Unhandled OverflowError) /\
  ((- 2 ^ 63 <= limit)%Z -> (- 2 ^ 63 <= offset < 2 ^ 63)%Z ->
   exists rows,
     list_reports token token true limit offset origin spam_status severity_bucket db
       = Returned (rows, length rows) /\
     ((0 <= limit)%Z -> length rows <= Z.to_nat limit <= 500) /\
     ((limit < 0)%Z ->
      rows = drop (Z.to_nat offset)
               (listing origin spam_status severity_bucket (distress_reports db))) /\
     NoDup rows.*1 /\
     StronglySorted received_ge rows /\
     (forall id r, (id, r) ∈ rows ->
        distress_reports db !! id = Some r /\
        (forall value, origin = Some value -> value <> "" -> Db.origin r = value) /\
        (forall value, spam_status = Some value -> value <> "" -> Db.spam_status r = value) /\
        (forall value, severity_bucket = Some value -> value <> "" ->
                       Db.severity_bucket r = Some value))).
Proof.
  intros Hl. unfold list_reports. rewrite verify_admin_token_ok. split.
  - intros Hout.
    assert (E : fits_int64 limit && fits_int64 offset = false).
    { apply andb_false_iff.
      destruct (fits_int64 limit) eqn:E1; [|left; reflexivity].
      destruct (fits_int64 offset) eqn:E2; [|right; reflexivity].
      apply fits_int64_spec in E1, E2. lia. }
    rewrite E. reflexivity.
  - intros Hlim Hoff.
    assert (E : fits_int64 limit && fits_int64 offset = true).
    { apply andb_true_iff. split; apply fits_int64_spec; lia. }
    rewrite E. eexists. split; [reflexivity|].
    set (all := listing origin spam_status severity_bucket (distress_reports db)).
    split; [|split; [|split; [|split]]].
    + intros H0. unfold limit_offset. destruct (Z.ltb_spec limit 0) as [|_]; [lia|].
      rewrite length_take. lia.
    + intros H0. unfold limit_offset. destruct (Z.ltb_spec limit 0) as [_|]; [reflexivity|lia].
    + apply (sublist_NoDup _ all.*1); [apply listing_NoDup|].
      apply fmap_sublist, limit_offset_sublist.
    + apply limit_offset_sorted, listing_sorted.
    + intros id r Hin.
      assert (Hall : (id, r) ∈ all)
        by (eapply elem_of_sublist; [exact Hin|apply limit_offset_sublist]).
      apply listing_elem_of in Hall as (Hr & Ho & Hs & Hb).
      split; [exact Hr|]. split; [|split].
      * intros value -> Hv. apply (column_is_given value _ Hv) in Ho. congruence.
      * intros value -> Hv. apply (column_is_given value _ Hv) in Hs. congruence.
      * intros value -> Hv. apply (column_is_given value _ Hv) in Hb. exact Hb.
Qed.

Lemma list_reports_page_witness :
  exists rows,
    list_reports "secret" "secret" true 50 0 (Some "API_AGENT") (Some "") None
      Scenarios.zero_score_db = Returned (rows, length rows) /\
    length rows <= 50.
Proof.
  destruct (list_reports_page "secret" 50 0 (Some "API_AGENT") (Some "") None
              Scenarios.zero_score_db ltac:(lia)) as [_ H].
  destruct (H ltac:(lia) ltac:(lia)) as (rows & H1 & H2 & _).
  exists rows. split; [exact H1|]. apply (H2 ltac:(lia)).
Defined.

(** X28: on an unchanged store the pages of [list_reports] tile the
    listing: for limits and an offset that are not negative, with
    [limit1 + limit2] at most 500, so that the validation of the request
    lets the three limits through, and [offset + limit1] a 64-bit integer,
    the page of [limit1] rows at [offset] followed by the page of [limit2]
    rows at [offset + limit1] is the page of [limit1 + limit2] rows at
    [offset], and the counts add up. *)
Theorem list_reports_pages_tile token (limit1 limit2 offset : Z)
    origin spam_status severity_bucket db :
  (0 <= limit1)%Z -> (0 <= limit2)%Z -> (0 <= offset)%Z ->
  (limit1 + limit2 <= 500)%Z -> (offset + limit1 < 2 ^ 63)%Z ->
  exists page1 page2,
    list_reports token token true limit1 offset origin spam_status severity_bucket db
      = Returned (page1, length page1) /\
    list_reports token token true limit2 (offset + limit1) origin spam_status severity_bucket db
      = Returned (page2, length page2) /\
    list_reports token token true (limit1 + limit2) offset origin spam_status severity_bucket db
      = Returned (page1 ++ page2, length page1 + length page2).
Proof.
  intros H1 H2 Ho Hsum Hfit. unfold list_reports. rewrite verify_admin_token_ok.
  assert (F : forall n, (0 <= n < 2 ^ 63)%Z -> fits_int64 n = true)
    by (intros n Hn; apply fits_int64_spec; lia).
  rewrite (F limit1), (F limit2), (F (limit1 + limit2)%Z), (F offset), (F (offset + limit1)%Z)
    by lia.
  cbn [andb].
  set (all := listing origin spam_status severity_bucket (distress_reports db)).
  assert (E : limit_offset (limit1 + limit2) offset all
              = limit_offset limit1 offset all ++ limit_offset limit2 (offset + limit1) all).
  { unfold limit_offset.
    destruct (Z.ltb_spec limit1 0), (Z.ltb_spec limit2 0), (Z.ltb_spec (limit1 + limit2) 0);
      try lia.
    rewrite !Z2Nat.inj_add by lia. rewrite <- drop_drop. symmetry. apply take_take_drop. }
  eexists _, _. split; [reflexivity|]. split; [reflexivity|].
  rewrite E, length_app. reflexivity.
Qed.

Lemma list_reports_pages_tile_witness :
  exists page1 page2,
    list_reports "secret" "secret" true 1 0 None None None Scenarios.zero_score_db
      = Returned (page1, length page1) /\
    list_reports "secret" "secret" true 1 1 None None None Scenarios.zero_score_db
      = Returned (page2, length page2) /\
    list_reports "secret" "secret" true 2 0 None None None Scenarios.zero_score_db
      = Returned (page1 ++ page2, length page1 + length page2).
Proof.
  exact (list_reports_pages_tile "secret" 1 1 0 None None None Scenarios.zero_score_db
           ltac:(lia) ltac:(lia) ltac:(lia) ltac:(lia) ltac:(lia)).
Defined.

Lemma sum_list_perm (l1 l2 : list nat) : l1 ≡ₚ l2 -> sum_list l1 = sum_list l2.
Proof. induction 1; cbn; lia. Qed.

Section groups.
Context {K : Type} `{Countable K}.

Lemma sum_counts_insert (counts : gmap K nat) (k : K) :
  sum_counts (<[k := S (default 0 (counts !! k))]> counts) = S (sum_counts counts).
Proof.
  unfold sum_counts. destruct (counts !! k) as [v|] eqn:E; cbn [default].
  - rewrite <- (insert_delete_eq counts).
    rewrite (sum_list_perm _ ((k, S v) :: map_to_list (delete k counts)).*2)
      by (apply fmap_Permutation, map_to_list_insert, lookup_delete_eq).
    rewrite (sum_list_perm (map_to_list counts).*2 ((k, v) :: map_to_list (delete k counts)).*2)
      by (apply fmap_Permutation; symmetry; apply map_to_list_delete, E).
    reflexivity.
  - rewrite (sum_list_perm _ ((k, 1) :: map_to_list counts).*2)
      by (apply fmap_Permutation, map_to_list_insert, E).
    reflexivity.
Qed.

Lemma sum_counts_group_count (column : DistressReport -> K) rows :
  sum_counts (group_count column rows) = length rows.
Proof.
  induction rows as [|row rows IH]; [reflexivity|].
  cbn [group_count foldr length]. fold (group_count column rows).
  rewrite sum_counts_insert, IH. reflexivity.
Qed.

Lemma group_count_lookup (column : DistressReport -> K) rows k :
  group_count column rows !! k
  = match length (filter (fun row : string * DistressReport => column row.2 = k) rows) with
    | 0 => None
    | S n => Some (S n)
    end.
Proof.
  induction rows as [|row rows IH]; [reflexivity|].
  cbn [group_count foldr]. fold (group_count column rows).
  destruct (decide (column row.2 = k)) as [E|E].
  - rewrite filter_cons_True by exact E. rewrite E, lookup_insert_eq, IH. cbn [length].
    destruct (length _); reflexivity.
  - rewrite filter_cons_False by exact E. rewrite lookup_insert_ne by exact E. exact IH.
Qed.

End groups.

(** X29: with the right token [get_agent_stats] returns, for any
    client id (a known one or not), a total that is the number of reports
    of that client, and per-bucket and per-abuse-type counts that each add
    up to the total; a bucket (NULL included) has an entry exactly when the
    client has a report in it, and the entry is their number. *)
Theorem agent_stats_add_up token client_id db :
  exists stats,
    get_agent_stats token token true client_id db = Returned stats /\
    stats_total_reports stats
      = count_where (fun r => agent_client_id r = Some client_id) (distress_reports db) /\
    sum_counts (by_severity stats) = stats_total_reports stats /\
    sum_counts (by_abuse_type stats) = stats_total_reports stats /\
    (forall bucket,
       by_severity stats !! bucket = None <->
       count_where (fun r => agent_client_id r = Some client_id /\ severity_bucket r = bucket)
         (distress_reports db) = 0) /\
    (forall bucket n,
       by_severity stats !! bucket = Some n ->
       n = count_where (fun r => agent_client_id r = Some client_id /\ severity_bucket r = bucket)
             (distress_reports db)).
Proof.
  unfold get_agent_stats. rewrite verify_admin_token_ok. eexists. split; [reflexivity|].
  cbn [stats_total_reports by_severity by_abuse_type].
  split; [reflexivity|]. split; [apply sum_counts_group_count|].
  split; [apply sum_counts_group_count|].
  assert (Ef : forall bucket,
            length (filter (fun row : string * DistressReport => severity_bucket row.2 = bucket)
                      (filter (fun row : string * DistressReport =>
                                 agent_client_id row.2 = Some client_id)
                              (map_to_list (distress_reports db))))
            = count_where (fun r => agent_client_id r = Some client_id /\
                                    severity_bucket r = bucket) (distress_reports db)).
  { intros bucket. unfold count_where.
    induction (map_to_list (distress_reports db)) as [|row l IH]; [reflexivity|].
    rewrite !(filter_cons _ row).
    destruct (decide (agent_client_id row.2 = Some client_id)) as [E1|E1].
    - rewrite filter_cons. destruct (decide (severity_bucket row.2 = bucket)) as [E2|E2].
      + rewrite decide_True by auto. cbn [length]. rewrite IH. reflexivity.
      + rewrite decide_False by tauto. exact IH.
    - rewrite decide_False by tauto. exact IH. }
  split; intros bucket; [|intros n]; rewrite group_count_lookup, Ef;
    destruct (count_where _ _); try tauto; try discriminate.
  - split; [discriminate|discriminate].
  - intros [= <-]. reflexivity.
Qed.


Lemma no_row_with_hash table key_hash :
  existsb (fun kv : string * AgentClient => String.eqb (api_key_hash kv.2) key_hash)
          (map_to_list table) = false ->
  filter (fun kv : string * AgentClient => api_key_hash kv.2 = key_hash) (map_to_list table) = [].
Proof.
  intros H. induction (map_to_list table) as [|kv l IH]; [reflexivity|].
  cbn [existsb] in H. apply orb_false_iff in H as [H1 H2].
  rewrite filter_cons_False by (apply String.eqb_neq, H1). apply IH, H2.
Qed.

(** X30: when the store answers, the drawn id is fresh and no client
    is stored under the hash of the drawn key, [create_agent_client]
    returns that id and key, and [get_agent_by_key_hash] on the hash of the
    returned key then finds that client, active, with the name and vendor
    of the request; the clients stored before are kept. *)
Theorem created_client_is_found_by_key (sha256_hexdigest : string -> string)
    token w request table :
  client_store_up w = true ->
  table !! client_uuid4 w = None ->
  get_agent_by_key_hash true (sha256_hexdigest (token_urlsafe w)) table
    = HttpError 404 "Agent not found" ->
  exists response table',
    create_agent_client sha256_hexdigest token token w request table
      = (Returned response, table') /\
    created_id response = client_uuid4 w /\
    created_api_key response = token_urlsafe w /\
    get_agent_by_key_hash true (sha256_hexdigest (created_api_key response)) table'
      = Returned {| lookup_id := created_id response;
                    lookup_name := create_name request;
                    lookup_vendor := create_vendor request;
                    lookup_active := true |} /\
    (forall id client, table !! id = Some client -> table' !! id = Some client).
Proof.
  intros Hup Hfresh H404.
  assert (Hnone : filter (fun kv : string * AgentClient =>
                            api_key_hash kv.2 = sha256_hexdigest (token_urlsafe w))
                         (map_to_list table) = []).
  { unfold get_agent_by_key_hash in H404.
    destruct (filter _ (map_to_list table)) as [|[id c] l]; [reflexivity|discriminate]. }
  assert (Hex : existsb (fun kv : string * AgentClient =>
                           String.eqb (api_key_hash kv.2) (sha256_hexdigest (token_urlsafe w)))
                        (map_to_list table) = false).
  { destruct (existsb _ _) eqn:E; [|reflexivity].
    apply existsb_exists in E as (kv & Hin & Hk). apply String.eqb_eq in Hk.
    assert (kv ∈ filter (fun kv : string * AgentClient =>
                           api_key_hash kv.2 = sha256_hexdigest (token_urlsafe w))
                        (map_to_list table))
      by (apply list_elem_of_filter; split; [exact Hk|apply list_elem_of_In, Hin]).
    rewrite Hnone in H. inversion H. }
  unfold create_agent_client, insert_agent_client.
  rewrite verify_admin_token_ok, Hup, Hfresh. cbn [api_key_hash]. rewrite Hex.
  eexists _, _. split; [reflexivity|]. cbn [created_api_key created_id].
  split; [reflexivity|]. split; [reflexivity|]. split.
  - unfold get_agent_by_key_hash.
    set (row := {| client_name := create_name request; client_vendor := create_vendor request;
                   api_key_hash := sha256_hexdigest (token_urlsafe w);
                   client_created_at := client_now w; client_active := 1 |}).
    assert (Hp : filter (fun kv : string * AgentClient =>
                           api_key_hash kv.2 = sha256_hexdigest (token_urlsafe w))
                        (map_to_list (<[client_uuid4 w := row]> table))
                 ≡ₚ [(client_uuid4 w, row)]).
    { rewrite (map_to_list_insert table _ _ Hfresh), filter_cons_True by reflexivity.
      rewrite Hnone. reflexivity. }
    apply Permutation_singleton_r in Hp. rewrite Hp. reflexivity.
  - intros id client Hc. rewrite lookup_insert_ne; [exact Hc|]. congruence.
Qed.

Lemma created_client_is_found_by_key_witness :
  exists response table',
    create_agent_client (String.append "sha256:") "secret" "secret"
      {| client_uuid4 := "client-1"; token_urlsafe := "key-1";
         client_now := "2025-01-01T00:00:00+00:00"; client_store_up := true |}
      {| create_name := "agent"; create_vendor := None |} ∅
      = (Returned response, table') /\
    get_agent_by_key_hash true "sha256:key-1" table'
      = Returned {| lookup_id := "client-1"; lookup_name := "agent";
                    lookup_vendor := None; lookup_active := true |}.
Proof.
  destruct (created_client_is_found_by_key (String.append "sha256:") "secret"
              {| client_uuid4 := "client-1"; token_urlsafe := "key-1";
                 client_now := "2025-01-01T00:00:00+00:00"; client_store_up := true |}
              {| create_name := "agent"; create_vendor := None |} ∅)
    as (response & table' & H1 & Hid & H2 & H3 & _).
  - reflexivity.
  - apply lookup_empty.
  - reflexivity.
  - exists response, table'. split; [exact H1|].
    rewrite H2, Hid in H3. exact H3.
Defined.


End AdminFacts.
